(** * Calendar: the form and checklist schema compilers, file widgets and stores

    A shallow embedding of the schema-driven validation code of the
    repository:

    - [ChecklistRender]: checklist-builder/ChecklistRender/utils.ts (the
      schema builders, [buildZodSchema], [getDefaultValue]) and the default
      values of ChecklistRender/index.tsx;
    - [FormRender]: FormRender/utils.ts and the default values of
      FormRender/index.tsx;
    - [FormBuilder]: form-builder/FormViewer.tsx ([buildZodSchema] written
      as a switch, and the default values);
    - [ChecklistStore] and [FormStore]: checklist-builder/store.ts and
      form-builder/store.ts;
    - [ChecklistFileUpload] and [FormFileUpload]: the [addFiles] and
      [removeFile] actions of the two FileUpload.tsx widgets;
    - [FormList] and [ChecklistList]: [handleDelete] of the two list pages;
    - [FormViewerFile]: the file input and the file rules of
      form-builder/FormViewer.tsx;
    - [ChecklistRenderField] and [FormRenderField]: the phone and checklist
      input handlers of the two RenderField.tsx;
    - [Builder], [Updates], [OptionsSection] and [FileSettings]:
      form-builder/FormBuilder.tsx, checklist-builder/ChecklistBuilder.tsx
      and the sections of BuilderField that edit options and file types.

    The code builds validators with the Zod library and hands descriptors
    around as plain JavaScript objects.  [Str], [Regex], [Js], [Zod] and
    [Storage] model the part of the language runtime, of Zod 4 and of the
    browser that the code relies on; everything after them follows the
    TypeScript sources function by function.  The properties come last,
    after the vocabulary they are stated in. *)

From Stdlib Require Import ZArith String Ascii List Bool Lia.
From Stdlib Require SpecFloat.
From stdpp Require Import gmap strings list pretty.

Open Scope Z_scope.
Open Scope string_scope.

Set Warnings "-register-all".

(** ** Strings as the code uses them

    Strings are sequences of character codes; the model has the codes below
    256 ([ascii]).  Comparison with [<=] and [>=] is lexicographic on the
    codes, which is [String.leb]. *)

Module Str.

Definition chars (s : string) : list ascii := list_ascii_of_string s.
Definition of_chars (l : list ascii) : string := string_of_list_ascii l.

(** [s.length] *)
Definition len (s : string) : Z := Z.of_nat (String.length s).

(** [s.startsWith(p)] *)
Definition startsWith (s p : string) : bool := String.prefix p s.

Fixpoint rev_chars (l acc : list ascii) : list ascii :=
  match l with
  | [] => acc
  | c :: l' => rev_chars l' (c :: acc)
  end.

Definition reverse (s : string) : string := of_chars (rev_chars (chars s) []).

(** [s.endsWith(p)] *)
Definition endsWith (s p : string) : bool :=
  String.prefix (reverse p) (reverse s).

Fixpoint includes_chars (fuel : nat) (s : string) (p : string) : bool :=
  if String.prefix p s then true
  else match fuel, s with
       | S fuel', String _ s' => includes_chars fuel' s' p
       | _, _ => false
       end.

(** [s.includes(p)] *)
Definition includes (s p : string) : bool :=
  includes_chars (String.length s) s p.

Fixpoint split_chars (sep : ascii) (l : list ascii) (cur : list ascii)
  : list string :=
  match l with
  | [] => [of_chars (rev_chars cur [])]
  | c :: l' =>
      if Ascii.eqb c sep
      then of_chars (rev_chars cur []) :: split_chars sep l' []
      else split_chars sep l' (c :: cur)
  end.

(** [s.split(sep)] for a one-character separator *)
Definition split (s : string) (sep : ascii) : list string :=
  split_chars sep (chars s) [].

(** The letters with a lower-case form among the codes below 256: A to Z,
    and the accented capitals 192 to 222 without the multiplication sign
    215. *)
Definition lower_char (c : ascii) : ascii :=
  let n := nat_of_ascii c in
  if ((Nat.leb 65 n && Nat.leb n 90)
      || (Nat.leb 192 n && Nat.leb n 222 && negb (Nat.eqb n 215)))%bool
  then ascii_of_nat (n + 32)
  else c.

(** [s.toLowerCase()] *)
Definition toLowerCase (s : string) : string :=
  of_chars (map lower_char (chars s)).

(** White space as [\s] and [trim] see it, among the codes below 256:
    TAB, LF, VT, FF, CR, SPACE and the no-break space 160. *)
Definition is_space (c : ascii) : bool :=
  let n := nat_of_ascii c in
  ((Nat.leb 9 n && Nat.leb n 13) || Nat.eqb n 32 || Nat.eqb n 160)%bool.

Fixpoint drop_space (l : list ascii) : list ascii :=
  match l with
  | c :: l' => if is_space c then drop_space l' else l
  | [] => []
  end.

(** [s.trim()] *)
Definition trim (s : string) : string :=
  of_chars (rev_chars (drop_space (rev_chars (drop_space (chars s)) [])) []).

(** A template literal's rendering of an integer. *)
Definition ofZ (n : Z) : string := pretty n.

End Str.

(** ** Regular expressions

    A matcher by derivatives, enough for the two anchored patterns of the
    validators.  [test r s] is [r.test(s)] for a pattern anchored with [^]
    and [$]. *)

Module Regex.

Inductive re : Type :=
| Nothing
| Eps
| Class (p : ascii -> bool)
| Seq (a b : re)
| Alt (a b : re)
| Star (a : re).

Fixpoint nullable (r : re) : bool :=
  match r with
  | Nothing => false
  | Eps => true
  | Class _ => false
  | Seq a b => nullable a && nullable b
  | Alt a b => nullable a || nullable b
  | Star _ => true
  end.

Definition seq' (a b : re) : re :=
  match a, b with
  | Nothing, _ => Nothing
  | _, Nothing => Nothing
  | Eps, _ => b
  | _, Eps => a
  | _, _ => Seq a b
  end.

Definition alt' (a b : re) : re :=
  match a, b with
  | Nothing, _ => b
  | _, Nothing => a
  | _, _ => Alt a b
  end.

Fixpoint deriv (c : ascii) (r : re) : re :=
  match r with
  | Nothing => Nothing
  | Eps => Nothing
  | Class p => if p c then Eps else Nothing
  | Seq a b =>
      alt' (seq' (deriv c a) b) (if nullable a then deriv c b else Nothing)
  | Alt a b => alt' (deriv c a) (deriv c b)
  | Star a => seq' (deriv c a) (Star a)
  end.

Fixpoint matches (r : re) (l : list ascii) : bool :=
  match l with
  | [] => nullable r
  | c :: l' => matches (deriv c r) l'
  end.

Definition test (r : re) (s : string) : bool := matches r (Str.chars s).

(** [r?], [r+], [r{n}], [r{0,n}], [r{lo,hi}] and [r{n,}] *)
Definition opt (r : re) : re := Alt Eps r.
Definition plus (r : re) : re := Seq r (Star r).

Fixpoint times (n : nat) (r : re) : re :=
  match n with
  | O => Eps
  | S n' => Seq r (times n' r)
  end.

Fixpoint upto (n : nat) (r : re) : re :=
  match n with
  | O => Eps
  | S n' => opt (Seq r (upto n' r))
  end.

Definition between (lo hi : nat) (r : re) : re :=
  Seq (times lo r) (upto (hi - lo) r).

Definition atleast (n : nat) (r : re) : re := Seq (times n r) (Star r).

(** Character classes *)
Definition code (c : ascii) : nat := nat_of_ascii c.
Definition in_range (lo hi : nat) (c : ascii) : bool :=
  (Nat.leb lo (code c) && Nat.leb (code c) hi)%bool.
Definition chr (x : ascii) (c : ascii) : bool := Ascii.eqb x c.
Definition digit : ascii -> bool := in_range 48 57.
Definition upper : ascii -> bool := in_range 65 90.
Definition lower : ascii -> bool := in_range 97 122.
Definition letter (c : ascii) : bool := upper c || lower c.
Definition alnum (c : ascii) : bool := letter c || digit c.
Definition any (_ : ascii) : bool := true.
(** [.] without the [s] flag: anything but a line terminator *)
Definition dot (c : ascii) : bool :=
  negb (Nat.eqb (code c) 10 || Nat.eqb (code c) 13).

End Regex.


(** ** JavaScript values

    Live form values, stored documents and the results of property lookups.
    A number is a double.  The finite ones are held exactly: an integer is
    [VNumber n], a number that is not an integer is [VFraction m e], the
    quotient of the odd integer [m] by [2^e].  NaN and the two infinities
    are no live values here; they are results of [Number], the conversion.
    The sign of a zero is not kept. *)

Module Js.

(** A [File] of the host: the three properties the code reads. *)
Record File : Type := mkFile {
  file_name : string;
  file_size : Z;
  file_type : string
}.

Inductive Value : Type :=
| VUndefined
| VNull
| VBool (b : bool)
| VNumber (n : Z)
| VString (s : string)
| VArray (items : list Value)
| VObject (props : list (string * Value))
| VFileList (files : list File)
| VFunction (arity : Z)    (** a function; [arity] is its [length] *)
| VFraction (m : Z) (e : positive).

(** Errors an evaluation can complete with. *)
Inductive Error : Type :=
| TypeError
| SyntaxError.

Inductive Completion (A : Type) : Type :=
| Normal (a : A)
| Throw (e : Error).
Arguments Normal {A} a.
Arguments Throw {A} e.

(** Truthiness, as [if (x)], [x || y], [x && y] and [!x] see it. *)
Definition truthy (v : Value) : bool :=
  match v with
  | VUndefined | VNull => false
  | VBool b => b
  | VNumber n => negb (Z.eqb n 0)
  | VString s => negb (String.eqb s "")
  | VArray _ | VObject _ | VFileList _ | VFunction _ => true
  | VFraction _ _ => true
  end.

(** Truthiness of an optional number property and of an optional string
    property: absent, [0] and the empty string are falsy. *)
Definition truthyNum (o : option Z) : bool :=
  match o with
  | Some n => negb (Z.eqb n 0)
  | None => false
  end.

Definition truthyStr (o : option string) : bool :=
  match o with
  | Some s => negb (String.eqb s "")
  | None => false
  end.

(** [o || d] on an optional string property. *)
Definition orStr (o : option string) (d : string) : string :=
  match o with
  | Some s => if String.eqb s "" then d else s
  | None => d
  end.

(** [o ?? d] *)
Definition nullish {A : Type} (o : option A) (d : A) : A :=
  match o with
  | Some a => a
  | None => d
  end.

(** Own property of a plain object. *)
Fixpoint own (props : list (string * Value)) (k : string) : option Value :=
  match props with
  | [] => None
  | (k', v) :: rest => if String.eqb k' k then Some v else own rest k
  end.

(** [v[k]] for the keys the validators read: an absent property is
    [undefined]. *)
Definition get (v : Value) (k : string) : Value :=
  match v with
  | VObject props => nullish (own props k) VUndefined
  | VString s => if String.eqb k "length" then VNumber (Str.len s) else VUndefined
  | VArray l => if String.eqb k "length" then VNumber (Z.of_nat (length l)) else VUndefined
  | VFileList l => if String.eqb k "length" then VNumber (Z.of_nat (length l)) else VUndefined
  | VFunction n => if String.eqb k "length" then VNumber n else VUndefined
  | _ => VUndefined
  end.

(** [v.length], when it is a number. *)
Definition lengthOf (v : Value) : option Z :=
  match get v "length" with
  | VNumber n => Some n
  | _ => None
  end.

(** *** Numbers and the conversion to a number

    The results of [Number]: NaN, an infinity, or a finite double, which is
    an integer or the quotient of an odd integer by a power of two. *)
Inductive Number : Type :=
| NaN
| Infinity (negative : bool)
| Int (n : Z)
| Frac (m : Z) (e : positive).

(** The number a binary64 datum stands for.  A finite datum is
    [m * 2^e]; with [e < 0] it is brought to lowest terms. *)
Fixpoint twos (m : positive) : Z :=
  match m with
  | xO m' => 1 + twos m'
  | _ => 0
  end.

Definition ofDouble (x : SpecFloat.spec_float) : Number :=
  match x with
  | SpecFloat.S754_nan => NaN
  | SpecFloat.S754_infinity s => Infinity s
  | SpecFloat.S754_zero _ => Int 0
  | SpecFloat.S754_finite s m e =>
      let n := if s then Zneg m else Zpos m in
      if Z.leb 0 e then Int (n * 2 ^ e)
      else if Z.leb (- e) (twos m) then Int (n / 2 ^ (- e))
      else Frac (n / 2 ^ twos m) (Z.to_pos (- e - twos m))
  end.

(** The double nearest to an integer and to [m * 10^k] for [m >= 0], ties
    to the even mantissa, an infinity past the largest double: the
    rounding of IEEE 754 binary64 (53 bits, exponents up to 1024) as the
    Standard Library specifies it. *)
Definition roundInteger (n : Z) : Number :=
  ofDouble (SpecFloat.binary_normalize 53 1024 n 0 false).

Definition roundDecimal (negative : bool) (m k : Z) : Number :=
  match m with
  | Zpos p =>
      if Z.leb 0 k then roundInteger ((if negative then - m else m) * 10 ^ k)
      else ofDouble
             (SpecFloat.SFdiv 53 1024
                (SpecFloat.S754_finite negative p 0)
                (SpecFloat.S754_finite false (Z.to_pos (10 ^ (- k))) 0))
  | _ => Int 0
  end.

(** An integer that is a double, so one a number can be. *)
Definition isDouble (n : Z) : bool :=
  match roundInteger n with
  | Int n' => Z.eqb n' n
  | _ => false
  end.

(** The grammar of numeric strings ([StringNumericLiteral]): decimal
    digits with an optional fraction and an optional exponent, under an
    optional sign; [Infinity] under an optional sign; and, without a sign,
    digits in radix 16, 8 or 2 after [0x], [0o] or [0b]. *)
Fixpoint takeDigits (l : list ascii) : list ascii * list ascii :=
  match l with
  | c :: l' =>
      if Regex.digit c then let (d, r) := takeDigits l' in (c :: d, r) else ([], l)
  | [] => ([], [])
  end.

Definition decimalValue (d : list ascii) : Z :=
  fold_left (fun acc c => 10 * acc + Z.of_nat (nat_of_ascii c - 48)) d 0.

Definition radixDigit (radix : Z) (c : ascii) : option Z :=
  let n := Z.of_nat (nat_of_ascii c) in
  let v := if Regex.digit c then n - 48
           else if Regex.in_range 97 102 c then n - 87
           else if Regex.in_range 65 70 c then n - 55
           else radix in
  if Z.ltb v radix then Some v else None.

Fixpoint radixValue (radix : Z) (l : list ascii) (acc : Z) : option Z :=
  match l with
  | [] => Some acc
  | c :: l' =>
      match radixDigit radix c with
      | Some v => radixValue radix l' (radix * acc + v)
      | None => None
      end
  end.

Definition nonDecimal (l : list ascii) : option Z :=
  match l with
  | z :: p :: d :: rest =>
      if Ascii.eqb z "0" then
        if Ascii.eqb p "x" || Ascii.eqb p "X" then radixValue 16 (d :: rest) 0
        else if Ascii.eqb p "o" || Ascii.eqb p "O" then radixValue 8 (d :: rest) 0
        else if Ascii.eqb p "b" || Ascii.eqb p "B" then radixValue 2 (d :: rest) 0
        else None
      else None
  | _ => None
  end.

Definition sign (l : list ascii) : bool * list ascii :=
  match l with
  | c :: r =>
      if Ascii.eqb c "-" then (true, r)
      else if Ascii.eqb c "+" then (false, r)
      else (false, l)
  | [] => (false, [])
  end.

Definition signedInteger (l : list ascii) : option Z :=
  let (negative, r) := sign l in
  match takeDigits r with
  | ((_ :: _) as d, []) => Some (if negative then - decimalValue d else decimalValue d)
  | _ => None
  end.

Definition exponentPart (l : list ascii) : option Z :=
  match l with
  | [] => Some 0
  | c :: r => if Ascii.eqb c "e" || Ascii.eqb c "E" then signedInteger r else None
  end.

(** The digits of an unsigned decimal literal as an integer, and the power
    of ten it is to be taken with. *)
Definition unsignedDecimal (l : list ascii) : option (Z * Z) :=
  let (ip, r1) := takeDigits l in
  match r1 with
  | c :: r =>
      if Ascii.eqb c "." then
        let (fp, r2) := takeDigits r in
        match (ip ++ fp)%list, exponentPart r2 with
        | _ :: _, Some x => Some (decimalValue (ip ++ fp), x - Z.of_nat (length fp))
        | _, _ => None
        end
      else
        match ip, exponentPart r1 with
        | _ :: _, Some x => Some (decimalValue ip, x)
        | _, _ => None
        end
  | [] =>
      match ip with
      | _ :: _ => Some (decimalValue ip, 0)
      | [] => None
      end
  end.

(** [Number(s)] on a string: white space is trimmed, the empty string is
    [0], a numeric literal is its value rounded to the nearest double, as
    the engines round a literal of any length, and every other string is
    NaN. *)
Definition stringToNumber (s : string) : Number :=
  match Str.chars (Str.trim s) with
  | [] => Int 0
  | l =>
      match nonDecimal l with
      | Some n => roundInteger n
      | None =>
          let (negative, r) := sign l in
          if String.eqb (Str.of_chars r) "Infinity" then Infinity negative
          else match unsignedDecimal r with
               | Some (m, k) => roundDecimal negative m k
               | None => NaN
               end
      end
  end.

(** [Number(v)].  An array converts through its string form, the strings
    of its elements joined by commas, with the empty string for [null] and
    [undefined]: so an array of two or more elements is NaN.  An object, a
    [FileList] and a function convert through a string that is no
    numeric literal. *)
Fixpoint toNumber (v : Value) : Number :=
  match v with
  | VUndefined => NaN
  | VNull => Int 0
  | VBool b => Int (if b then 1 else 0)
  | VNumber n => Int n
  | VFraction m e => Frac m e
  | VString s => stringToNumber s
  | VArray [] => Int 0
  | VArray [x] =>
      match x with
      | VNull | VUndefined => Int 0
      | VNumber _ | VFraction _ _ | VString _ | VArray _ => toNumber x
      | VBool _ | VObject _ | VFileList _ | VFunction _ => NaN
      end
  | VArray _ => NaN
  | VObject _ | VFileList _ | VFunction _ => NaN
  end.

(** *** Property lookup on an object literal

    [table[key]] on an object literal finds the literal's own properties
    first and then the properties every ordinary object inherits from
    [Object.prototype].  Under the key [__proto__] that is the prototype
    object itself; under the other eleven names it is a built-in method.
    [CallResult] says what such a method does when the code calls it as a
    plain function on a field descriptor, so with an undefined receiver:
    [constructor] hands its argument back and [toString] returns a string,
    neither of them a validator; all the others first convert the undefined
    receiver to an object, which throws. *)
Inductive CallResult : Type :=
| ReturnsNonValidator
| ThrowsOnCall.

Inductive ProtoMember : Type :=
| ThePrototype
| Method (arity : Z) (call : CallResult).

Definition Object_prototype (k : string) : option ProtoMember :=
  if String.eqb k "__proto__" then Some ThePrototype
  else if String.eqb k "constructor" then Some (Method 1 ReturnsNonValidator)
  else if String.eqb k "toString" then Some (Method 0 ReturnsNonValidator)
  else if String.eqb k "toLocaleString" then Some (Method 0 ThrowsOnCall)
  else if String.eqb k "valueOf" then Some (Method 0 ThrowsOnCall)
  else if String.eqb k "hasOwnProperty" then Some (Method 1 ThrowsOnCall)
  else if String.eqb k "isPrototypeOf" then Some (Method 1 ThrowsOnCall)
  else if String.eqb k "propertyIsEnumerable" then Some (Method 1 ThrowsOnCall)
  else if String.eqb k "__defineGetter__" then Some (Method 2 ThrowsOnCall)
  else if String.eqb k "__defineSetter__" then Some (Method 2 ThrowsOnCall)
  else if String.eqb k "__lookupGetter__" then Some (Method 1 ThrowsOnCall)
  else if String.eqb k "__lookupSetter__" then Some (Method 1 ThrowsOnCall)
  else None.

(** The inherited member as a value. *)
Definition memberValue (m : ProtoMember) : Value :=
  match m with
  | ThePrototype => VObject []
  | Method arity _ => VFunction arity
  end.

Inductive Lookup (A : Type) : Type :=
| Own (a : A)
| Inherited (m : ProtoMember)
| Absent.
Arguments Own {A} a.
Arguments Inherited {A} m.
Arguments Absent {A}.

(** [literal[k]], where [literal] lists the own properties. *)
Definition lookup {A : Type} (literal : string -> option A) (k : string)
  : Lookup A :=
  match literal k with
  | Some a => Own a
  | None =>
      match Object_prototype k with
      | Some m => Inherited m
      | None => Absent
      end
  end.

(** [obj[k] = v] on an object literal used as a record of entries: it
    creates or replaces the own property [k], except for the key
    [__proto__], where the inherited setter runs and no own property
    appears. *)
Definition assign {A : Type} (obj : gmap string A) (k : string) (v : A)
  : gmap string A :=
  if String.eqb k "__proto__" then obj else <[k := v]> obj.

End Js.


(** ** Zod

    Validators are data: a schema is a type test followed by a chain of
    checks, and [parse] is the library's evaluation of a schema on a value.
    The model follows Zod 4: a failed type test aborts the checks that have
    no [when] clause, every check that runs adds its issue (a failed check
    does not stop the ones after it), and a union reports the issues of its
    only non-aborted option when there is exactly one. *)

Module Zod.
Import Js.

Inductive IssueCode : Type :=
| invalid_type
| too_small
| too_big
| invalid_format
| invalid_value
| invalid_union
| custom.

Inductive Seg : Type :=
| Key (k : string)
| Index (i : nat).

(** [message] is the text given when the check was built, [None] when the
    locale's default text applies; [resumes] is the issue's [continue]
    flag. *)
Record Issue : Type := mkIssue {
  code : IssueCode;
  message : option string;
  path : list Seg;
  resumes : bool
}.

Inductive Check : Type :=
| MinLength (minimum : Z) (msg : option string)
| MaxLength (maximum : Z) (msg : option string)
| StringFormat (pattern : string -> bool) (msg : option string)
| GreaterThanEq (bound : Z) (msg : option string)
| LessThanEq (bound : Z) (msg : option string)
| Custom (fn : Value -> bool) (msg : option string).

Inductive Schema : Type :=
| ZodString (checks : list Check)
| ZodNumber (coerce : bool) (checks : list Check)
| ZodBoolean (checks : list Check)
| ZodArray (element : Schema) (checks : list Check)
| ZodObject (shape : list (string * Schema))
| ZodAny (checks : list Check)
| ZodLiteral (value : string)
| ZodOptional (inner : Schema)
| ZodUnion (options : list Schema).

(** *** Issues *)

Definition typeIssue : Issue := mkIssue invalid_type None [] false.
Definition valueIssue : Issue := mkIssue invalid_value None [] false.
Definition unionIssue : Issue := mkIssue invalid_union None [] false.
Definition checkIssue (c : IssueCode) (msg : option string) : Issue :=
  mkIssue c msg [] true.

Definition prefix (seg : Seg) (i : Issue) : Issue :=
  mkIssue (code i) (message i) (seg :: path i) (resumes i).

(** [aborted]: some issue does not carry [continue: true]. *)
Definition aborted (issues : list Issue) : bool :=
  existsb (fun i => negb (resumes i)) issues.

(** *** Checks *)

(** The [when] clause of a check, for the checks that have one: the length
    checks run on every value that has a length, aborted or not. *)
Definition when (c : Check) : option (Value -> bool) :=
  match c with
  | MinLength _ _ | MaxLength _ _ =>
      Some (fun v => match lengthOf v with Some _ => true | None => false end)
  | _ => None
  end.

(** What a check reports on a value.  The format checks and the value
    bounds have no [when] clause: they run only after the type test of
    their schema has passed, so on a string and on a number. *)
Definition check (c : Check) (v : Value) : list Issue :=
  match c with
  | MinLength minimum msg =>
      match lengthOf v with
      | Some n => if Z.leb minimum n then [] else [checkIssue too_small msg]
      | None => []
      end
  | MaxLength maximum msg =>
      match lengthOf v with
      | Some n => if Z.leb n maximum then [] else [checkIssue too_big msg]
      | None => []
      end
  | StringFormat pattern msg =>
      match v with
      | VString s => if pattern s then [] else [checkIssue invalid_format msg]
      | _ => []
      end
  | GreaterThanEq bound msg =>
      match v with
      | VNumber n => if Z.leb bound n then [] else [checkIssue too_small msg]
      | VFraction m e =>
          if Z.leb (bound * 2 ^ Zpos e) m then [] else [checkIssue too_small msg]
      | _ => []
      end
  | LessThanEq bound msg =>
      match v with
      | VNumber n => if Z.leb n bound then [] else [checkIssue too_big msg]
      | VFraction m e =>
          if Z.leb m (bound * 2 ^ Zpos e) then [] else [checkIssue too_big msg]
      | _ => []
      end
  | Custom fn msg => if fn v then [] else [checkIssue custom msg]
  end.

(** [runChecks]: the checks in the order they were chained. *)
Fixpoint runChecksFrom (cs : list Check) (v : Value) (issues : list Issue)
  (isAborted : bool) : list Issue :=
  match cs with
  | [] => issues
  | c :: cs' =>
      let shouldRun :=
        match when c with
        | Some w => w v
        | None => negb isAborted
        end in
      if shouldRun then
        let new := check c v in
        runChecksFrom cs' v (issues ++ new)%list (isAborted || aborted new)
      else runChecksFrom cs' v issues isAborted
  end.

Definition runChecks (cs : list Check) (v : Value) (issues : list Issue)
  : list Issue :=
  runChecksFrom cs v issues (aborted issues).

(** *** Parsing *)

Definition isNil {A : Type} (l : list A) : bool :=
  match l with [] => true | _ => false end.

Definition handleUnionResults (results : list (list Issue)) : list Issue :=
  match results with
  | [r] => r
  | _ =>
      if existsb isNil results then []
      else match List.filter (fun r => negb (aborted r)) results with
           | [r] => r
           | _ => [unionIssue]
           end
  end.

(** The issues of [s.safeParse(v)]; the parse succeeds when there are
    none.  A number schema accepts the finite numbers.  A coercion that
    yields NaN or an infinity leaves a value without a length, for which
    [VUndefined] stands in the aborted checks. *)
Fixpoint parse (s : Schema) (v : Value) : list Issue :=
  match s with
  | ZodString cs =>
      runChecks cs v (match v with VString _ => [] | _ => [typeIssue] end)
  | ZodNumber coerce cs =>
      if coerce then
        match toNumber v with
        | Int n => runChecks cs (VNumber n) []
        | Frac m e => runChecks cs (VFraction m e) []
        | NaN | Infinity _ => runChecks cs VUndefined [typeIssue]
        end
      else
        runChecks cs v
          (match v with VNumber _ | VFraction _ _ => [] | _ => [typeIssue] end)
  | ZodBoolean cs =>
      runChecks cs v (match v with VBool _ => [] | _ => [typeIssue] end)
  | ZodArray element cs =>
      runChecks cs v
        match v with
        | VArray items =>
            (fix each (l : list Value) (i : nat) : list Issue :=
               match l with
               | [] => []
               | x :: l' => (map (prefix (Index i)) (parse element x) ++ each l' (S i))%list
               end) items O
        | _ => [typeIssue]
        end
  | ZodObject shape =>
      match v with
      | VObject _ | VFileList _ =>
          (fix each (sh : list (string * Schema)) : list Issue :=
             match sh with
             | [] => []
             | (k, s') :: sh' => (map (prefix (Key k)) (parse s' (get v k)) ++ each sh')%list
             end) shape
      | _ => [typeIssue]
      end
  | ZodAny cs => runChecks cs v []
  | ZodLiteral value =>
      match v with
      | VString s => if String.eqb s value then [] else [valueIssue]
      | _ => [valueIssue]
      end
  | ZodOptional inner =>
      match v with
      | VUndefined => []
      | _ => parse inner v
      end
  | ZodUnion options =>
      handleUnionResults
        ((fix each (os : list Schema) : list (list Issue) :=
            match os with
            | [] => []
            | o :: os' => parse o v :: each os'
            end) options)
  end.

(** The messages of a parse, in the order of the issues. *)
Definition messages (issues : list Issue) : list (option string) :=
  map message issues.

(** *** Building schemas: the methods the code chains *)

Definition z_string : Schema := ZodString [].
Definition z_number : Schema := ZodNumber false [].
Definition z_coerce_number : Schema := ZodNumber true [].
Definition z_boolean : Schema := ZodBoolean [].
Definition z_array (element : Schema) : Schema := ZodArray element [].
Definition z_object (shape : list (string * Schema)) : Schema := ZodObject shape.
Definition z_any : Schema := ZodAny [].
Definition z_literal (value : string) : Schema := ZodLiteral value.

(** [s.check(c)]: a copy of [s] with [c] after the checks it has. *)
Definition addCheck (s : Schema) (c : Check) : Schema :=
  match s with
  | ZodString cs => ZodString (cs ++ [c])%list
  | ZodNumber co cs => ZodNumber co (cs ++ [c])%list
  | ZodBoolean cs => ZodBoolean (cs ++ [c])%list
  | ZodArray e cs => ZodArray e (cs ++ [c])%list
  | ZodAny cs => ZodAny (cs ++ [c])%list
  | _ => s
  end.

(** [s.min(n, msg)] and [s.max(n, msg)]: a length bound on strings and
    arrays, a value bound on numbers. *)
Definition min (s : Schema) (n : Z) (msg : option string) : Schema :=
  match s with
  | ZodNumber _ _ => addCheck s (GreaterThanEq n msg)
  | _ => addCheck s (MinLength n msg)
  end.

Definition max (s : Schema) (n : Z) (msg : option string) : Schema :=
  match s with
  | ZodNumber _ _ => addCheck s (LessThanEq n msg)
  | _ => addCheck s (MaxLength n msg)
  end.

(** [s.refine(fn, msg)] *)
Definition refine (s : Schema) (fn : Value -> bool) (msg : string) : Schema :=
  addCheck s (Custom fn (Some msg)).

(** [s.regex(r, msg)] *)
Definition regex (s : Schema) (r : Regex.re) (msg : string) : Schema :=
  addCheck s (StringFormat (Regex.test r) (Some msg)).

(** [s.optional()] and [a.or(b)] *)
Definition optional (s : Schema) : Schema := ZodOptional s.
Definition or (a b : Schema) : Schema := ZodUnion [a; b].
Definition z_union (options : list Schema) : Schema := ZodUnion options.

(** *** The e-mail pattern

    The library's pattern reads, piece by piece: no leading dot; no two
    dots in a row; any number of characters of [localChar]; one character
    of [localLast]; an at sign; one or more labels, each a letter or digit,
    then letters, digits or dashes, then a dot; two or more letters.  The
    first two pieces are look-aheads and are tested on their own. *)

Import Regex.

Definition localChar (c : ascii) : bool :=
  alnum c || chr "_" c || chr "'" c || chr "+" c || chr "-" c || chr "." c.

Definition localLast (c : ascii) : bool :=
  alnum c || chr "_" c || chr "+" c || chr "-" c.

Definition labelChar (c : ascii) : bool := alnum c || chr "-" c.

Definition emailBody : re :=
  Seq (Star (Class localChar))
    (Seq (Class localLast)
       (Seq (Class (chr "@"))
          (Seq (plus (Seq (Class alnum) (Seq (Star (Class labelChar)) (Class (chr ".")))))
             (atleast 2 (Class letter))))).

(** [(?!\.)] fails on a leading dot, [(?!.*\.\.)] on two dots in a row
    before any line terminator. *)
Definition leadingDot : re := Seq (Class (chr ".")) (Star (Class any)).
Definition doubleDot : re :=
  Seq (Star (Class dot)) (Seq (Class (chr ".")) (Seq (Class (chr ".")) (Star (Class any)))).

Definition emailPattern (s : string) : bool :=
  negb (test leadingDot s) && negb (test doubleDot s) && test emailBody s.

(** [s.email(msg)] *)
Definition email (s : Schema) (msg : string) : Schema :=
  addCheck s (StringFormat emailPattern (Some msg)).

(** *** Objects built from a record of entries

    [z.object(shape)] reads the own properties of [shape].  A property that
    holds anything but a schema makes every later parse throw.  [parseObject]
    gives the issues under each key; keys of the input that the shape does
    not have are stripped without an issue. *)

Inductive Entry : Type :=
| Validator (s : Schema)
| NotAValidator.

Definition isValidator (e : Entry) : bool :=
  match e with Validator _ => true | NotAValidator => false end.

Definition parseEntry (values : gmap string Value) (k : string) (e : Entry)
  : list Issue :=
  match e with
  | Validator s => map (prefix (Key k)) (parse s (nullish (values !! k) VUndefined))
  | NotAValidator => []
  end.

Definition parseObject (shape : gmap string Entry) (values : gmap string Value)
  : Completion (gmap string (list Issue)) :=
  if forallb (fun kv => isValidator (snd kv)) (map_to_list shape)
  then Normal (map_imap (fun k e => Some (parseEntry values k e)) shape)
  else Throw TypeError.

End Zod.


(** ** The data model (types.ts)

    [FieldValidation], [ChecklistFieldInternal] / [FormFieldInternal] and
    [ChecklistSchema] / [FormSchema].  An optional property is an [option];
    the type tag is the string that arrives in the stored or fetched
    document, and [id] is optional because the compilers test it. *)

Module FieldValidation.

Record t : Type := mk {
  minLength : option Z;
  maxLength : option Z;
  pattern : option string;
  patternMessage : option string;
  minValue : option Z;
  maxValue : option Z;
  minDate : option string;
  maxDate : option string;
  requiredMessage : option string;
  minSelections : option Z;
  maxSelections : option Z;
  maxFileSize : option Z;
  customRule : option string
}.

(** The [{}] of [field.validation || {}]. *)
Definition empty : t :=
  mk None None None None None None None None None None None None None.

End FieldValidation.

Module Field.

Record t : Type := mk {
  id : option string;
  type : string;
  label : string;
  placeholder : option string;
  tooltip : option string;
  required : bool;
  options : option (list string);
  acceptedFileTypes : option (list string);
  maxFiles : option Z;
  min : option Z;
  max : option Z;
  step : option Z;
  disableSpinners : option bool;
  validation : option FieldValidation.t
}.

(** [field.validation || {}] *)
Definition validationOrEmpty (field : t) : FieldValidation.t :=
  Js.nullish (validation field) FieldValidation.empty.

(** The thirteen members of [FieldType]. *)
Definition FieldType : list string :=
  ["text"; "textarea"; "number"; "email"; "phone"; "date"; "file";
   "checkbox"; "checklist"; "radio"; "select"; "range"; "min_max"].

Definition isFieldType (tag : string) : bool :=
  existsb (String.eqb tag) FieldType.

End Field.

Module Document.

Record t : Type := mk {
  id : string;
  name : string;
  description : option string;
  fields : list Field.t
}.

End Document.

(** [if (o) x = f(o)] on an optional number or string property, and
    [if (o !== undefined) x = f(o)]. *)
Definition ifNum {A : Type} (o : option Z) (f : Z -> A) (x : A) : A :=
  match o with
  | Some n => if Z.eqb n 0 then x else f n
  | None => x
  end.

Definition ifStr {A : Type} (o : option string) (f : string -> A) (x : A) : A :=
  match o with
  | Some s => if String.eqb s "" then x else f s
  | None => x
  end.

Definition ifDefined {A B : Type} (o : option B) (f : B -> A) (x : A) : A :=
  match o with
  | Some b => f b
  | None => x
  end.

(** The phone pattern of the three compilers: an optional plus sign, then
    seven to twenty digits, white space, dashes or parentheses. *)
Definition phoneChar (c : ascii) : bool :=
  Regex.digit c || Str.is_space c || Regex.chr "-" c || Regex.chr "(" c
  || Regex.chr ")" c.

Definition phoneRegex : Regex.re :=
  Regex.Seq (Regex.opt (Regex.Class (Regex.chr "+")))
    (Regex.between 7 20 (Regex.Class phoneChar)).

(** The two comparisons of the date refinements, on a string value. *)
Definition onOrAfter (bound : string) (val : Js.Value) : bool :=
  negb (Js.truthy val)
  || match val with Js.VString s => String.leb bound s | _ => false end.

Definition onOrBefore (bound : string) (val : Js.Value) : bool :=
  negb (Js.truthy val)
  || match val with Js.VString s => String.leb s bound | _ => false end.


(** ** checklist-builder/ChecklistRender *)

Module ChecklistRender.
Import Js.

(** *** utils.ts: the schema builders *)

Definition getStringSchema (field : Field.t) : Zod.Schema :=
  let v := Field.validationOrEmpty field in
  let schema := Zod.z_string in
  let schema :=
    ifNum (FieldValidation.minLength v)
      (fun n => Zod.min schema n (Some ("Minimum " ++ Str.ofZ n ++ " characters")))
      schema in
  let schema :=
    ifNum (FieldValidation.maxLength v)
      (fun n => Zod.max schema n (Some ("Maximum " ++ Str.ofZ n ++ " characters")))
      schema in
  if Field.required field
  then Zod.min schema 1
         (Some (orStr (FieldValidation.requiredMessage v) "This field is required"))
  else Zod.or (Zod.optional schema) (Zod.z_literal "").

Definition email (field : Field.t) : Zod.Schema :=
  let v := Field.validationOrEmpty field in
  let emailSchema :=
    Zod.email Zod.z_string
      (orStr (FieldValidation.patternMessage v) "Invalid email address") in
  if Field.required field
  then Zod.min emailSchema 1
         (Some (orStr (FieldValidation.requiredMessage v) "This field is required"))
  else Zod.or (Zod.optional emailSchema) (Zod.z_literal "").

Definition phone (field : Field.t) : Zod.Schema :=
  let v := Field.validationOrEmpty field in
  let phoneSchema :=
    Zod.regex Zod.z_string phoneRegex
      (orStr (FieldValidation.patternMessage v) "Invalid phone number") in
  if Field.required field
  then Zod.min phoneSchema 1
         (Some (orStr (FieldValidation.requiredMessage v) "This field is required"))
  else Zod.or (Zod.optional phoneSchema) (Zod.z_literal "").

Definition number (field : Field.t) : Zod.Schema :=
  let v := Field.validationOrEmpty field in
  let numSchema := Zod.z_coerce_number in
  let numSchema :=
    ifDefined (FieldValidation.minValue v)
      (fun n => Zod.min numSchema n (Some ("Minimum value is " ++ Str.ofZ n)))
      numSchema in
  let numSchema :=
    ifDefined (FieldValidation.maxValue v)
      (fun n => Zod.max numSchema n (Some ("Maximum value is " ++ Str.ofZ n)))
      numSchema in
  if Field.required field
  then numSchema
  else Zod.z_union [numSchema; Zod.z_literal ""].

Definition date (field : Field.t) : Zod.Schema :=
  let v := Field.validationOrEmpty field in
  let dateSchema := Zod.z_string in
  let dateSchema :=
    ifStr (FieldValidation.minDate v)
      (fun d => Zod.refine dateSchema (onOrAfter d) ("Date must be on or after " ++ d))
      dateSchema in
  let dateSchema :=
    ifStr (FieldValidation.maxDate v)
      (fun d => Zod.refine dateSchema (onOrBefore d) ("Date must be on or before " ++ d))
      dateSchema in
  if Field.required field
  then Zod.min dateSchema 1
         (Some (orStr (FieldValidation.requiredMessage v) "This field is required"))
  else Zod.or (Zod.optional dateSchema) (Zod.z_literal "").

Definition isTrue (val : Value) : bool :=
  match val with VBool true => true | _ => false end.

Definition checkbox (field : Field.t) : Zod.Schema :=
  let v := Field.validationOrEmpty field in
  if Field.required field
  then Zod.refine Zod.z_boolean isTrue
         (orStr (FieldValidation.requiredMessage v) "Required")
  else Zod.z_boolean.

Definition checklist (field : Field.t) : Zod.Schema :=
  let v := Field.validationOrEmpty field in
  let arrSchema := Zod.z_array Zod.z_string in
  let minSel :=
    nullish (FieldValidation.minSelections v)
      (if Field.required field then 1 else 0) in
  let arrSchema :=
    if Z.ltb 0 minSel
    then Zod.min arrSchema minSel
           (Some (orStr (FieldValidation.requiredMessage v)
                    ("Select at least " ++ Str.ofZ minSel ++ " option(s)")))
    else arrSchema in
  let arrSchema :=
    ifNum (FieldValidation.maxSelections v)
      (fun n => Zod.max arrSchema n
                  (Some ("Select at most " ++ Str.ofZ n ++ " option(s)")))
      arrSchema in
  arrSchema.

Definition radio (field : Field.t) : Zod.Schema :=
  let v := Field.validationOrEmpty field in
  if Field.required field
  then Zod.min Zod.z_string 1
         (Some (orStr (FieldValidation.requiredMessage v) "Please select an option"))
  else Zod.or (Zod.optional Zod.z_string) (Zod.z_literal "").

Definition select (field : Field.t) : Zod.Schema := radio field.

Definition range (_ : Field.t) : Zod.Schema := Zod.z_number.

Definition min_max (_ : Field.t) : Zod.Schema :=
  Zod.z_object [("min", Zod.z_string); ("max", Zod.z_string)].

(** The three refinements of the file builder.  The live value of a file
    field is a [FileList], the empty string it starts with, or nothing; on
    any other value the size loop is taken to find no oversized file. *)
Definition someFile (val : Value) : bool :=
  truthy val
  && match lengthOf val with Some n => Z.ltb 0 n | None => false end.

Definition atMostFiles (maxFiles : Z) (val : Value) : bool :=
  negb (truthy val)
  || match lengthOf val with Some n => Z.leb n maxFiles | None => false end.

Definition noFileOver (maxFileSize : Z) (val : Value) : bool :=
  match val with
  | VFileList files =>
      forallb (fun f => negb (Z.ltb (maxFileSize * 1024) (file_size f))) files
  | _ => true
  end.

Definition file (field : Field.t) : Zod.Schema :=
  let v := Field.validationOrEmpty field in
  let fileSchema := Zod.z_any in
  let fileSchema :=
    if Field.required field
    then Zod.refine fileSchema someFile
           (orStr (FieldValidation.requiredMessage v) "This field is required")
    else fileSchema in
  let fileSchema :=
    ifNum (Field.maxFiles field)
      (fun n => Zod.refine fileSchema (atMostFiles n)
                  ("Maximum " ++ Str.ofZ n ++ " file(s) allowed"))
      fileSchema in
  let fileSchema :=
    ifNum (FieldValidation.maxFileSize v)
      (fun n => Zod.refine fileSchema (noFileOver n)
                  ("File exceeds " ++ Str.ofZ n ++ " KB limit"))
      fileSchema in
  fileSchema.

(** The own properties of the [schemaBuilders] literal. *)
Definition schemaBuilders (k : string) : option (Field.t -> Zod.Schema) :=
  if String.eqb k "text" then Some getStringSchema
  else if String.eqb k "textarea" then Some getStringSchema
  else if String.eqb k "email" then Some email
  else if String.eqb k "phone" then Some phone
  else if String.eqb k "number" then Some number
  else if String.eqb k "date" then Some date
  else if String.eqb k "checkbox" then Some checkbox
  else if String.eqb k "checklist" then Some checklist
  else if String.eqb k "radio" then Some radio
  else if String.eqb k "select" then Some select
  else if String.eqb k "range" then Some range
  else if String.eqb k "min_max" then Some min_max
  else if String.eqb k "file" then Some file
  else None.

(** [(schemaBuilders[field.type] || (() => z.any()))(field)]: whatever the
    lookup finds is truthy and is called; the fallback is used only when
    the lookup finds nothing. *)
Definition buildField (field : Field.t) : Completion Zod.Entry :=
  match lookup schemaBuilders (Field.type field) with
  | Own builder => Normal (Zod.Validator (builder field))
  | Inherited ThePrototype => Throw TypeError
  | Inherited (Method _ ThrowsOnCall) => Throw TypeError
  | Inherited (Method _ ReturnsNonValidator) => Normal Zod.NotAValidator
  | Absent => Normal (Zod.Validator Zod.z_any)
  end.

(** [buildZodSchema]: the loop over the fields; the result stands for
    [z.object(shape)]. *)
Fixpoint buildShape (fields : list Field.t) (shape : gmap string Zod.Entry)
  : Completion (gmap string Zod.Entry) :=
  match fields with
  | [] => Normal shape
  | field :: rest =>
      match Field.id field with
      | Some i =>
          if String.eqb i "" then buildShape rest shape
          else match buildField field with
               | Normal entry => buildShape rest (assign shape i entry)
               | Throw e => Throw e
               end
      | None => buildShape rest shape
      end
  end.

Definition buildZodSchema (fields : list Field.t)
  : Completion (gmap string Zod.Entry) :=
  buildShape fields ∅.

(** The own properties of the [defaults] literal. *)
Definition defaults (k : string) : option Value :=
  if String.eqb k "checkbox" then Some (VBool false)
  else if String.eqb k "checklist" then Some (VArray [])
  else if String.eqb k "range" then Some (VNumber 0)
  else if String.eqb k "min_max"
       then Some (VObject [("min", VString ""); ("max", VString "")])
  else None.

(** [getDefaultValue]: [defaults[type] ?? ''] *)
Definition getDefaultValue (type : string) : Value :=
  match lookup defaults type with
  | Own v => v
  | Inherited m => memberValue m
  | Absent => VString ""
  end.

(** *** index.tsx: the default values of a session *)

Fixpoint defaultValuesFrom (fields : list Field.t) (values : gmap string Value)
  : gmap string Value :=
  match fields with
  | [] => values
  | field :: rest =>
      match Field.id field with
      | Some i =>
          if String.eqb i "" then defaultValuesFrom rest values
          else defaultValuesFrom rest
                 (assign values i (getDefaultValue (Field.type field)))
      | None => defaultValuesFrom rest values
      end
  end.

Definition defaultValues (fields : list Field.t) : gmap string Value :=
  defaultValuesFrom fields ∅.

End ChecklistRender.


(** ** FormRender *)

Module FormRender.
Import Js.

(** *** utils.ts: the schema builders *)

Definition getStringSchema (field : Field.t) : Zod.Schema :=
  let v := Field.validationOrEmpty field in
  let schema := Zod.z_string in
  let schema :=
    ifNum (FieldValidation.minLength v)
      (fun n => Zod.min schema n (Some ("Minimum " ++ Str.ofZ n ++ " characters")))
      schema in
  let schema :=
    ifNum (FieldValidation.maxLength v)
      (fun n => Zod.max schema n (Some ("Maximum " ++ Str.ofZ n ++ " characters")))
      schema in
  if Field.required field
  then Zod.min schema 1
         (Some (orStr (FieldValidation.requiredMessage v) "This field is required."))
  else Zod.or (Zod.optional schema) (Zod.z_literal "").

Definition email (field : Field.t) : Zod.Schema :=
  let v := Field.validationOrEmpty field in
  if Field.required field
  then Zod.email
         (Zod.min Zod.z_string 1
            (Some (orStr (FieldValidation.requiredMessage v) "This field is required.")))
         (orStr (FieldValidation.patternMessage v) "Invalid email")
  else Zod.or
         (Zod.optional
            (Zod.email Zod.z_string
               (orStr (FieldValidation.patternMessage v) "Invalid email")))
         (Zod.z_literal "").

Definition phone (field : Field.t) : Zod.Schema :=
  let v := Field.validationOrEmpty field in
  if Field.required field
  then Zod.regex
         (Zod.min Zod.z_string 1
            (Some (orStr (FieldValidation.requiredMessage v) "This field is required.")))
         phoneRegex
         (orStr (FieldValidation.patternMessage v) "Invalid phone")
  else Zod.or
         (Zod.optional
            (Zod.regex Zod.z_string phoneRegex
               (orStr (FieldValidation.patternMessage v) "Invalid phone")))
         (Zod.z_literal "").

Definition number (field : Field.t) : Zod.Schema :=
  let v := Field.validationOrEmpty field in
  let schema := Zod.z_coerce_number in
  let schema :=
    ifDefined (FieldValidation.minValue v) (fun n => Zod.min schema n None) schema in
  let schema :=
    ifDefined (FieldValidation.maxValue v) (fun n => Zod.max schema n None) schema in
  if Field.required field
  then schema
  else Zod.z_union [schema; Zod.z_literal ""].

Definition date (field : Field.t) : Zod.Schema :=
  let v := Field.validationOrEmpty field in
  if Field.required field
  then Zod.min Zod.z_string 1
         (Some (orStr (FieldValidation.requiredMessage v) "This field is required."))
  else Zod.or (Zod.optional Zod.z_string) (Zod.z_literal "").

Definition checkbox (field : Field.t) : Zod.Schema :=
  let v := Field.validationOrEmpty field in
  if Field.required field
  then Zod.refine Zod.z_boolean truthy
         (orStr (FieldValidation.requiredMessage v) "This field is required.")
  else Zod.z_boolean.

Definition checklist (field : Field.t) : Zod.Schema :=
  let v := Field.validationOrEmpty field in
  let minSel :=
    nullish (FieldValidation.minSelections v)
      (if Field.required field then 1 else 0) in
  let schema := Zod.z_array Zod.z_string in
  let schema :=
    if Z.ltb 0 minSel
    then Zod.min schema minSel (Some ("Select at least " ++ Str.ofZ minSel))
    else schema in
  let schema :=
    ifNum (FieldValidation.maxSelections v) (fun n => Zod.max schema n None) schema in
  schema.

Definition radio (field : Field.t) : Zod.Schema :=
  let v := Field.validationOrEmpty field in
  if Field.required field
  then Zod.min Zod.z_string 1
         (Some (orStr (FieldValidation.requiredMessage v) "Select an option"))
  else Zod.optional Zod.z_string.

Definition select (field : Field.t) : Zod.Schema := radio field.

Definition range (_ : Field.t) : Zod.Schema := Zod.z_number.

Definition min_max (_ : Field.t) : Zod.Schema :=
  Zod.z_object [("min", Zod.z_string); ("max", Zod.z_string)].

(** [val?.length > 0] *)
Definition someFile (val : Value) : bool :=
  match lengthOf val with Some n => Z.ltb 0 n | None => false end.

Definition file (field : Field.t) : Zod.Schema :=
  let v := Field.validationOrEmpty field in
  let schema := Zod.z_any in
  if Field.required field
  then Zod.refine schema someFile
         (orStr (FieldValidation.requiredMessage v) "This field is required.")
  else schema.

(** The own properties of the [schemaBuilders] literal. *)
Definition schemaBuilders (k : string) : option (Field.t -> Zod.Schema) :=
  if String.eqb k "text" then Some getStringSchema
  else if String.eqb k "textarea" then Some getStringSchema
  else if String.eqb k "email" then Some email
  else if String.eqb k "phone" then Some phone
  else if String.eqb k "number" then Some number
  else if String.eqb k "date" then Some date
  else if String.eqb k "checkbox" then Some checkbox
  else if String.eqb k "checklist" then Some checklist
  else if String.eqb k "radio" then Some radio
  else if String.eqb k "select" then Some select
  else if String.eqb k "range" then Some range
  else if String.eqb k "min_max" then Some min_max
  else if String.eqb k "file" then Some file
  else None.

(** [(schemaBuilders[f.type] || (() => z.any()))(f)] *)
Definition buildField (f : Field.t) : Completion Zod.Entry :=
  match lookup schemaBuilders (Field.type f) with
  | Own builder => Normal (Zod.Validator (builder f))
  | Inherited ThePrototype => Throw TypeError
  | Inherited (Method _ ThrowsOnCall) => Throw TypeError
  | Inherited (Method _ ReturnsNonValidator) => Normal Zod.NotAValidator
  | Absent => Normal (Zod.Validator Zod.z_any)
  end.

Fixpoint buildShape (fields : list Field.t) (shape : gmap string Zod.Entry)
  : Completion (gmap string Zod.Entry) :=
  match fields with
  | [] => Normal shape
  | f :: rest =>
      match Field.id f with
      | Some i =>
          if String.eqb i "" then buildShape rest shape
          else match buildField f with
               | Normal entry => buildShape rest (assign shape i entry)
               | Throw e => Throw e
               end
      | None => buildShape rest shape
      end
  end.

Definition buildZodSchema (fields : list Field.t)
  : Completion (gmap string Zod.Entry) :=
  buildShape fields ∅.

Definition defaults (k : string) : option Value :=
  if String.eqb k "checkbox" then Some (VBool false)
  else if String.eqb k "checklist" then Some (VArray [])
  else if String.eqb k "range" then Some (VNumber 0)
  else if String.eqb k "min_max"
       then Some (VObject [("min", VString ""); ("max", VString "")])
  else None.

(** [getDefaultValue]: [defaults[type] ?? ''] *)
Definition getDefaultValue (type : string) : Value :=
  match lookup defaults type with
  | Own v => v
  | Inherited m => memberValue m
  | Absent => VString ""
  end.

(** *** index.tsx: [Object.fromEntries(fields.map(f => [f.id, ...]))]

    Every field gives an entry, defined under its id as a property key; a
    missing id becomes the key [undefined]. *)
Definition keyOf (i : option string) : string := nullish i "undefined".

Definition defaultValues (fields : list Field.t) : gmap string Value :=
  fold_left
    (fun values f =>
       <[keyOf (Field.id f) := getDefaultValue (Field.type f)]> values)
    fields ∅.

End FormRender.

(** ** form-builder/FormViewer.tsx *)

Module FormBuilder.
Import Js.

Definition hasType (tag : string) (field : Field.t) : bool :=
  String.eqb (Field.type field) tag.

(** The cases of the [switch (field.type)] of [buildZodSchema], one
    definition per case body. *)

Definition caseText (field : Field.t) : Zod.Schema :=
  let v := Field.validationOrEmpty field in
  let strSchema := Zod.z_string in
  let strSchema :=
    match FieldValidation.minLength v with
    | Some n =>
        if Z.leb 0 n
        then Zod.min strSchema n
               (Some ("Minimum " ++ Str.ofZ n ++ " characters required"))
        else strSchema
    | None => strSchema
    end in
  let strSchema :=
    match FieldValidation.maxLength v with
    | Some n =>
        if Z.leb 0 n
        then Zod.max strSchema n
               (Some ("Maximum " ++ Str.ofZ n ++ " characters allowed"))
        else strSchema
    | None => strSchema
    end in
  if Field.required field
  then Zod.min strSchema 1
         (Some (orStr (FieldValidation.requiredMessage v) "This field is required"))
  else Zod.or (Zod.optional strSchema) (Zod.z_literal "").

Definition caseEmail (field : Field.t) : Zod.Schema :=
  let v := Field.validationOrEmpty field in
  let emailSchema :=
    Zod.email Zod.z_string
      (orStr (FieldValidation.patternMessage v) "Invalid email address") in
  if Field.required field
  then Zod.min emailSchema 1
         (Some (orStr (FieldValidation.requiredMessage v) "This field is required"))
  else Zod.or (Zod.optional emailSchema) (Zod.z_literal "").

Definition casePhone (field : Field.t) : Zod.Schema :=
  let v := Field.validationOrEmpty field in
  let phoneSchema :=
    Zod.regex Zod.z_string phoneRegex
      (orStr (FieldValidation.patternMessage v) "Invalid phone number") in
  if Field.required field
  then Zod.min phoneSchema 1
         (Some (orStr (FieldValidation.requiredMessage v) "This field is required"))
  else Zod.or (Zod.optional phoneSchema) (Zod.z_literal "").

Definition caseNumber (field : Field.t) : Zod.Schema :=
  let v := Field.validationOrEmpty field in
  let numSchema := Zod.z_coerce_number in
  let numSchema :=
    ifDefined (FieldValidation.minValue v)
      (fun n => Zod.min numSchema n (Some ("Minimum value is " ++ Str.ofZ n)))
      numSchema in
  let numSchema :=
    ifDefined (FieldValidation.maxValue v)
      (fun n => Zod.max numSchema n (Some ("Maximum value is " ++ Str.ofZ n)))
      numSchema in
  if Field.required field
  then numSchema
  else Zod.z_union [numSchema; Zod.z_literal ""].

Definition caseDate (field : Field.t) : Zod.Schema :=
  let v := Field.validationOrEmpty field in
  let dateSchema := Zod.z_string in
  let dateSchema :=
    ifStr (FieldValidation.minDate v)
      (fun d => Zod.refine dateSchema (onOrAfter d) ("Date must be on or after " ++ d))
      dateSchema in
  let dateSchema :=
    ifStr (FieldValidation.maxDate v)
      (fun d => Zod.refine dateSchema (onOrBefore d) ("Date must be on or before " ++ d))
      dateSchema in
  if Field.required field
  then Zod.min dateSchema 1
         (Some (orStr (FieldValidation.requiredMessage v) "This field is required"))
  else Zod.or (Zod.optional dateSchema) (Zod.z_literal "").

Definition caseCheckbox (field : Field.t) : Zod.Schema :=
  let v := Field.validationOrEmpty field in
  let requiredMsg := orStr (FieldValidation.requiredMessage v) "Required" in
  if Field.required field
  then Zod.refine Zod.z_boolean ChecklistRender.isTrue requiredMsg
  else Zod.z_boolean.

Definition caseChecklist (field : Field.t) : Zod.Schema :=
  let v := Field.validationOrEmpty field in
  let arrSchema := Zod.z_array Zod.z_string in
  let minSel :=
    nullish (FieldValidation.minSelections v)
      (if Field.required field then 1 else 0) in
  let arrSchema :=
    if Z.ltb 0 minSel
    then Zod.min arrSchema minSel
           (Some (orStr (FieldValidation.requiredMessage v)
                    ("Select at least " ++ Str.ofZ minSel ++ " option(s)")))
    else arrSchema in
  let arrSchema :=
    ifDefined (FieldValidation.maxSelections v)
      (fun n => Zod.max arrSchema n
                  (Some ("Select at most " ++ Str.ofZ n ++ " option(s)")))
      arrSchema in
  arrSchema.

Definition caseSelect (field : Field.t) : Zod.Schema :=
  let v := Field.validationOrEmpty field in
  let selectSchema := Zod.z_string in
  if Field.required field
  then Zod.min selectSchema 1
         (Some (orStr (FieldValidation.requiredMessage v) "Please select an option"))
  else Zod.or (Zod.optional selectSchema) (Zod.z_literal "").

(** The [switch (field.type)]; the last line is its [default]. *)
Definition fieldSchema (field : Field.t) : Zod.Schema :=
  if hasType "text" field || hasType "textarea" field then caseText field
  else if hasType "email" field then caseEmail field
  else if hasType "phone" field then casePhone field
  else if hasType "number" field then caseNumber field
  else if hasType "date" field then caseDate field
  else if hasType "checkbox" field then caseCheckbox field
  else if hasType "checklist" field then caseChecklist field
  else if hasType "radio" field || hasType "select" field then caseSelect field
  else if hasType "range" field then Zod.z_number
  else if hasType "min_max" field then
    Zod.z_object [("min", Zod.z_string); ("max", Zod.z_string)]
  else if hasType "file" field then Zod.z_any
  else Zod.z_any.

Fixpoint buildShape (fields : list Field.t) (schemaShape : gmap string Zod.Entry)
  : gmap string Zod.Entry :=
  match fields with
  | [] => schemaShape
  | field :: rest =>
      match Field.id field with
      | Some fieldId =>
          if String.eqb fieldId "" then buildShape rest schemaShape
          else buildShape rest
                 (assign schemaShape fieldId (Zod.Validator (fieldSchema field)))
      | None => buildShape rest schemaShape
      end
  end.

Definition buildZodSchema (fields : list Field.t) : gmap string Zod.Entry :=
  buildShape fields ∅.

(** The default value the viewer gives a field. *)
Definition defaultValueOf (field : Field.t) : Value :=
  if hasType "checkbox" field then VBool false
  else if hasType "checklist" field then VArray []
  else if hasType "range" field then VNumber (nullish (Field.min field) 0)
  else if hasType "min_max" field
       then VObject [("min", VString ""); ("max", VString "")]
  else VString "".

Fixpoint defaultValuesFrom (fields : list Field.t) (values : gmap string Value)
  : gmap string Value :=
  match fields with
  | [] => values
  | field :: rest =>
      match Field.id field with
      | Some fieldId =>
          if String.eqb fieldId "" then defaultValuesFrom rest values
          else defaultValuesFrom rest (assign values fieldId (defaultValueOf field))
      | None => defaultValuesFrom rest values
      end
  end.

Definition defaultValues (fields : list Field.t) : gmap string Value :=
  defaultValuesFrom fields ∅.

End FormBuilder.


(** ** The browser's key-value storage and JSON

    A stored text is modelled by what [JSON.parse] makes of it: the empty
    string (falsy, never parsed), a text that does not parse, or the text
    [JSON.stringify] writes for a list of documents, which parses back to
    that list: documents hold only strings, integers, booleans, arrays and
    plain objects.  [console] collects the lines written with
    [console.error]. *)

Module Storage.
Import Js.

Inductive Text : Type :=
| EmptyText
| Unparsable
| Encodes (docs : list Document.t).

Definition JSON_parse (t : Text) : Completion (list Document.t) :=
  match t with
  | Encodes docs => Normal docs
  | EmptyText | Unparsable => Throw SyntaxError
  end.

Definition JSON_stringify (docs : list Document.t) : Text := Encodes docs.

Definition truthyText (t : Text) : bool :=
  match t with
  | EmptyText => false
  | _ => true
  end.

Record World : Type := mkWorld {
  localStorage : gmap string Text;
  console : list string
}.

Definition getItem (w : World) (key : string) : option Text :=
  localStorage w !! key.

Definition setItem (w : World) (key : string) (t : Text) : World :=
  mkWorld (<[key := t]> (localStorage w)) (console w).

Definition console_error (w : World) (line : string) : World :=
  mkWorld (localStorage w) (console w ++ [line])%list.

(** [l.findIndex(p)]; [None] is the [-1] of no match. *)
Fixpoint findIndex {A : Type} (p : A -> bool) (l : list A) : option nat :=
  match l with
  | [] => None
  | x :: l' => if p x then Some O else option_map S (findIndex p l')
  end.

End Storage.

(** ** checklist-builder/store.ts *)

Module ChecklistStore.
Import Js Storage.

Definition STORAGE_KEY : string := "calendar_app_checklists".

Definition getChecklists (w : World) : list Document.t * World :=
  match getItem w STORAGE_KEY with
  | Some stored =>
      if truthyText stored then
        match JSON_parse stored with
        | Normal docs => (docs, w)
        | Throw _ => ([], console_error w "Failed to load checklists")
        end
      else ([], w)
  | None => ([], w)
  end.

Definition getChecklist (id : string) (w : World) : option Document.t * World :=
  let (checklists, w) := getChecklists w in
  (List.find (fun c => String.eqb (Document.id c) id) checklists, w).

Definition saveChecklist (checklist : Document.t) (w : World) : World :=
  let (checklists, w) := getChecklists w in
  let existingIndex :=
    findIndex (fun c => String.eqb (Document.id c) (Document.id checklist))
      checklists in
  let checklists :=
    match existingIndex with
    | Some i => <[i := checklist]> checklists
    | None => (checklists ++ [checklist])%list
    end in
  setItem w STORAGE_KEY (JSON_stringify checklists).

Definition deleteChecklist (id : string) (w : World) : World :=
  let (checklists, w) := getChecklists w in
  let newChecklists :=
    List.filter (fun c => negb (String.eqb (Document.id c) id)) checklists in
  setItem w STORAGE_KEY (JSON_stringify newChecklists).

End ChecklistStore.

(** ** form-builder/store.ts *)

Module FormStore.
Import Js Storage.

Definition STORAGE_KEY : string := "calendar_app_forms".

Definition getForms (w : World) : list Document.t * World :=
  match getItem w STORAGE_KEY with
  | Some stored =>
      if truthyText stored then
        match JSON_parse stored with
        | Normal docs => (docs, w)
        | Throw _ => ([], console_error w "Failed to load forms")
        end
      else ([], w)
  | None => ([], w)
  end.

Definition getForm (id : string) (w : World) : option Document.t * World :=
  let (forms, w) := getForms w in
  (List.find (fun f => String.eqb (Document.id f) id) forms, w).

Definition saveForm (form : Document.t) (w : World) : World :=
  let (forms, w) := getForms w in
  let existingIndex :=
    findIndex (fun f => String.eqb (Document.id f) (Document.id form)) forms in
  let forms :=
    match existingIndex with
    | Some i => <[i := form]> forms
    | None => (forms ++ [form])%list
    end in
  setItem w STORAGE_KEY (JSON_stringify forms).

Definition deleteForm (id : string) (w : World) : World :=
  let (forms, w) := getForms w in
  let newForms :=
    List.filter (fun f => negb (String.eqb (Document.id f) id)) forms in
  setItem w STORAGE_KEY (JSON_stringify newForms).

End FormStore.

(** ** The file widgets

    [formField.value] is a [FileList] or [null]; [formField.onChange]
    replaces it.  A widget action returns the value after the action and
    the messages it showed. *)

Module Widget.

Record Outcome : Type := mkOutcome {
  value : option (list Js.File);
  shown : list string
}.

(** [existing?.length || 0] *)
Definition count (existing : option (list Js.File)) : Z :=
  match existing with
  | Some l => Z.of_nat (length l)
  | None => 0
  end.

(** The files of a [DataTransfer] filled with [existing] and then [added]. *)
Definition transfer (existing : option (list Js.File)) (added : list Js.File)
  : list Js.File :=
  (Js.nullish existing [] ++ added)%list.

(** [removeFile]: the files whose index is not [index], in their order. *)
Fixpoint without (index : nat) (l : list Js.File) : list Js.File :=
  match l, index with
  | [], _ => []
  | _ :: l', O => l'
  | f :: l', S i => f :: without i l'
  end.

Definition removeFile (existing : option (list Js.File)) (index : nat) : Outcome :=
  mkOutcome (Some (without index (Js.nullish existing []))) [].

End Widget.

(** *** FormRender/FileUpload.tsx *)

Module FormFileUpload.
Import Js Widget.

Definition addFiles (field : Field.t) (existing : option (list File))
  (newFiles : option (list File)) : Outcome :=
  match newFiles with
  | None | Some [] => mkOutcome existing []
  | Some newFiles =>
      if truthyNum (Field.maxFiles field)
         && Z.ltb (nullish (Field.maxFiles field) 0)
              (count existing + Z.of_nat (length newFiles))
      then mkOutcome existing
             ["Maximum " ++ Str.ofZ (nullish (Field.maxFiles field) 0)
                ++ " file(s) allowed"]
      else mkOutcome (Some (transfer existing newFiles)) []
  end.

End FormFileUpload.

(** *** checklist-builder/ChecklistRender/FileUpload.tsx *)

Module ChecklistFileUpload.
Import Js Widget.

Definition head (l : list string) : string :=
  match l with
  | s :: _ => s
  | [] => ""
  end.

Definition acceptedBy (file : File) (type : string) : bool :=
  if Str.endsWith type "/*" then
    let mainType := head (Str.split type "/") in
    Str.startsWith (file_type file) (mainType ++ "/")
  else if Str.includes type "," then
    existsb
      (fun t =>
         Str.endsWith (Str.toLowerCase (file_name file))
           (Str.toLowerCase (Str.trim t)))
      (Str.split type ",")
  else if Str.startsWith type "." then
    Str.endsWith (Str.toLowerCase (file_name file)) (Str.toLowerCase type)
  else String.eqb (file_type file) type.

Definition isFileAccepted (field : Field.t) (file : File) : bool :=
  let acceptedTypes := nullish (Field.acceptedFileTypes field) [] in
  match acceptedTypes with
  | [] => true
  | _ => existsb (acceptedBy file) acceptedTypes
  end.

Definition rejectedNotice (field : Field.t) : string :=
  "Some files were rejected. Accepted types: "
  ++ orStr (option_map (String.concat ", ") (Field.acceptedFileTypes field)) "All".

Definition addFiles (field : Field.t) (existing : option (list File))
  (newFiles : option (list File)) : Outcome :=
  match newFiles with
  | None | Some [] => mkOutcome existing []
  | Some newFiles =>
      let validFiles := List.filter (isFileAccepted field) newFiles in
      let someRejected := Nat.ltb (length validFiles) (length newFiles) in
      let alerts := if someRejected then [rejectedNotice field] else [] in
      if someRejected && Nat.eqb (length validFiles) 0
      then mkOutcome existing alerts
      else
        let existingCount := count existing in
        let totalCount := existingCount + Z.of_nat (length validFiles) in
        let maxFiles := nullish (Field.maxFiles field) 0 in
        if truthyNum (Field.maxFiles field) && Z.ltb maxFiles totalCount
        then
          let remaining := maxFiles - existingCount in
          if Z.leb remaining 0
          then mkOutcome existing
                 (app alerts
                    ["Maximum " ++ Str.ofZ maxFiles
                       ++ " file(s) allowed. Please remove existing files before adding new ones."])
          else mkOutcome existing
                 (app alerts
                    ["You can only add " ++ Str.ofZ remaining
                       ++ " more file(s). Maximum limit is " ++ Str.ofZ maxFiles
                       ++ " file(s)."])
        else mkOutcome (Some (transfer existing validFiles)) alerts
  end.

End ChecklistFileUpload.


(** ** form-builder/FormList.tsx and checklist-builder/ChecklistList.tsx

    [handleDelete] deletes and reads the list again; the result is the list
    the page shows. *)

Module FormList.
Import Storage.

Definition handleDelete (id : string) (w : World) : list Document.t * World :=
  let w := FormStore.deleteForm id w in
  FormStore.getForms w.

End FormList.

Module ChecklistList.
Import Storage.

Definition handleDelete (id : string) (w : World) : list Document.t * World :=
  let w := ChecklistStore.deleteChecklist id w in
  ChecklistStore.getChecklists w.

End ChecklistList.

(** ** form-builder/FormViewer.tsx: the file input and the file rules

    The [onDrop] and [onChange] handlers of the file case of [RenderField]
    run the same steps on [e.dataTransfer.files] and on [e.target.files];
    [addFiles] is those steps.  [removeAt] is the remove button of a listed
    file, which is drawn only while the value holds a file.  A validator of
    the file rules returns [true] ([None] here) or a message; as in the file
    builder of ChecklistRender, the size loop is taken to find no oversized
    file on a value that is no [FileList]. *)

Module FormViewerFile.
Import Js Widget.

Definition addFiles (field : Field.t) (existingFiles : option (list File))
  (newFiles : option (list File)) : Outcome :=
  match newFiles with
  | None | Some [] => mkOutcome existingFiles []
  | Some newFiles =>
      let existingCount := count existingFiles in
      let newCount := Z.of_nat (length newFiles) in
      let totalCount := existingCount + newCount in
      let maxFiles := nullish (Field.maxFiles field) 0 in
      if truthyNum (Field.maxFiles field) && Z.ltb maxFiles totalCount
      then
        let remaining := maxFiles - existingCount in
        if Z.leb remaining 0
        then mkOutcome existingFiles
               ["Maximum " ++ Str.ofZ maxFiles
                  ++ " file(s) allowed. Please remove existing files before adding new ones."]
        else mkOutcome existingFiles
               ["You can only add " ++ Str.ofZ remaining
                  ++ " more file(s). Maximum limit is " ++ Str.ofZ maxFiles
                  ++ " file(s)."]
      else mkOutcome (Some (transfer existingFiles newFiles)) []
  end.

Definition removeAt (files : list File) (index : nat) : Outcome :=
  mkOutcome (Some (without index files)) [].

(** [!val || val.length === 0] *)
Definition noFiles (val : Value) : bool :=
  negb (truthy val)
  || match lengthOf val with Some n => Z.eqb n 0 | None => false end.

(** The validator pushed under [if (field.maxFiles)]. *)
Definition maxFilesRule (maxFiles : Z) (val : Value) : option string :=
  if negb (truthy val)
     || match lengthOf val with Some n => Z.leb n maxFiles | None => false end
  then None
  else Some ("Maximum " ++ Str.ofZ maxFiles ++ " file(s) allowed").

(** The loop of the validator pushed under [if (v.maxFileSize)]: the first
    file above the limit. *)
Fixpoint firstOver (maxFileSize : Z) (files : list File) : option File :=
  match files with
  | [] => None
  | f :: rest =>
      if Z.ltb (maxFileSize * 1024) (file_size f) then Some f
      else firstOver maxFileSize rest
  end.

(** The double quote of the message text. *)
Definition quote : string := String (ascii_of_nat 34) EmptyString.

Definition maxFileSizeRule (maxFileSize : Z) (val : Value) : option string :=
  if noFiles val then None
  else match val with
       | VFileList files =>
           match firstOver maxFileSize files with
           | Some f =>
               Some ("File " ++ quote ++ file_name f ++ quote ++ " exceeds "
                       ++ Str.ofZ maxFileSize ++ " KB limit")
           | None => None
           end
       | _ => None
       end.

Definition validators (field : Field.t) : list (Value -> option string) :=
  let v := Field.validationOrEmpty field in
  app (ifNum (Field.maxFiles field) (fun n => [maxFilesRule n]) [])
      (ifNum (FieldValidation.maxFileSize v) (fun n => [maxFileSizeRule n]) []).

(** [for (const validator of validators)]: the first result that is not
    [true]. *)
Fixpoint firstFailure (rules : list (Value -> option string)) (val : Value)
  : option string :=
  match rules with
  | [] => None
  | rule :: rest =>
      match rule val with
      | Some message => Some message
      | None => firstFailure rest val
      end
  end.

(** [fileRules.validate] *)
Definition validate (field : Field.t) (val : Value) : option string :=
  let v := Field.validationOrEmpty field in
  let requiredMsg := orStr (FieldValidation.requiredMessage v) "This field is required" in
  if noFiles val
  then if Field.required field then Some requiredMsg else None
  else firstFailure (validators field) val.

End FormViewerFile.

(** ** RenderField.tsx: the input handlers of the phone and checklist cases

    [phoneOnChange] gives the value handed to [formField.onChange], or
    [None] when the handler drops the keystroke.  The checklist handler of
    form-builder/FormViewer.tsx is the one of ChecklistRender. *)

Module ChecklistRenderField.

(** [/^[0-9+\-\s()]*$/] *)
Definition phoneInputChar (c : ascii) : bool :=
  Regex.digit c || Regex.chr "+" c || Regex.chr "-" c || Str.is_space c
  || Regex.chr "(" c || Regex.chr ")" c.

Definition phoneInputRegex : Regex.re := Regex.Star (Regex.Class phoneInputChar).

Definition phoneOnChange (val : string) : option string :=
  if String.eqb val "" || Regex.test phoneInputRegex val then Some val else None.

Definition checklistOnChange (value : option (list string)) (opt : string)
  (checked : bool) : list string :=
  let currentVal := Js.nullish value [] in
  if checked then (currentVal ++ [opt])%list
  else List.filter (fun v => negb (String.eqb v opt)) currentVal.

End ChecklistRenderField.

Module FormRenderField.

(** The space character of the pattern of two or more spaces. *)
Definition isBlank (c : ascii) : bool := Ascii.eqb c " ".

(** [val.trimStart()] *)
Definition trimStart (s : string) : string :=
  Str.of_chars (Str.drop_space (Str.chars s)).

(** [val.replace(/  +/g, ' ')]: every run of two or more spaces becomes one
    space. *)
Fixpoint collapse (l : list ascii) : list ascii :=
  match l with
  | [] => []
  | c :: rest =>
      if isBlank c then
        match rest with
        | c' :: _ => if isBlank c' then collapse rest else c :: collapse rest
        | [] => [c]
        end
      else c :: collapse rest
  end.

Definition phoneOnChange (val : string) : option string :=
  let val := if Str.startsWith val " " then trimStart val else val in
  let val := Str.of_chars (collapse (Str.chars val)) in
  if Regex.test ChecklistRenderField.phoneInputRegex val then Some val else None.

Definition checklistOnChange (value : option (list string)) (opt : string)
  (checked : bool) : list string :=
  let curr := Js.nullish value [] in
  if checked then (curr ++ [opt])%list
  else List.filter (fun v => negb (String.eqb v opt)) curr.

End FormRenderField.

(** ** The builders

    form-builder/FormBuilder.tsx and checklist-builder/ChecklistBuilder.tsx
    with the sections of BuilderField that edit a field.  [Updates.t] is
    [Partial<FormFieldInternal>]: for every property, whether the update
    has it and, when it does, its value; an update that sets [id], [type],
    [label] or [required] sets it to a value of its type. *)

Module Updates.

Record t : Type := mk {
  id : option (option string);
  type : option string;
  label : option string;
  placeholder : option (option string);
  tooltip : option (option string);
  required : option bool;
  options : option (option (list string));
  acceptedFileTypes : option (option (list string));
  maxFiles : option (option Z);
  min : option (option Z);
  max : option (option Z);
  step : option (option Z);
  disableSpinners : option (option bool);
  validation : option (option FieldValidation.t)
}.

(** [{ ...field, ...updates }] *)
Definition spread (field : Field.t) (updates : t) : Field.t :=
  Field.mk
    (Js.nullish (id updates) (Field.id field))
    (Js.nullish (type updates) (Field.type field))
    (Js.nullish (label updates) (Field.label field))
    (Js.nullish (placeholder updates) (Field.placeholder field))
    (Js.nullish (tooltip updates) (Field.tooltip field))
    (Js.nullish (required updates) (Field.required field))
    (Js.nullish (options updates) (Field.options field))
    (Js.nullish (acceptedFileTypes updates) (Field.acceptedFileTypes field))
    (Js.nullish (maxFiles updates) (Field.maxFiles field))
    (Js.nullish (min updates) (Field.min field))
    (Js.nullish (max updates) (Field.max field))
    (Js.nullish (step updates) (Field.step field))
    (Js.nullish (disableSpinners updates) (Field.disableSpinners field))
    (Js.nullish (validation updates) (Field.validation field)).

End Updates.

(** *** BuilderField/OptionsSection.tsx and BuilderField/FileSettings.tsx

    A handler calls [onUpdate(field.id, updates)]; it is modelled by the
    [updates] it passes. *)

Module OptionsSection.

(** [{ options }] *)
Definition setOptions (options : list string) : Updates.t :=
  Updates.mk None None None None None None (Some (Some options)) None None None None
    None None None.

Definition handleOptionAdd (field : Field.t) : Updates.t :=
  let currentOptions := Js.nullish (Field.options field) [] in
  setOptions
    (app currentOptions
       ["Option " ++ Str.ofZ (Z.of_nat (length currentOptions) + 1)]).

(** [currentOptions.filter((_, i) => i !== index)] *)
Fixpoint dropAt {A : Type} (index : nat) (l : list A) : list A :=
  match l, index with
  | [], _ => []
  | _ :: l', O => l'
  | x :: l', S i => x :: dropAt i l'
  end.

Definition handleOptionRemove (field : Field.t) (index : nat) : Updates.t :=
  let currentOptions := Js.nullish (Field.options field) [] in
  setOptions (dropAt index currentOptions).

End OptionsSection.

Module FileSettings.

(** [{ acceptedFileTypes }] *)
Definition setAcceptedFileTypes (types : list string) : Updates.t :=
  Updates.mk None None None None None None None (Some (Some types)) None None None
    None None None.

Definition handleFileTypeToggle (field : Field.t) (typeValue : string) (checked : bool)
  : Updates.t :=
  let currentTypes := Js.nullish (Field.acceptedFileTypes field) [] in
  if checked then setAcceptedFileTypes (currentTypes ++ [typeValue])%list
  else setAcceptedFileTypes
         (List.filter (fun t => negb (String.eqb t typeValue)) currentTypes).

End FileSettings.

(** *** FormBuilder.tsx and ChecklistBuilder.tsx

    The state of a builder component and its handlers as functions on that
    state.  [name], [description] and [documentId] are [formName],
    [formDescription] and [formId] in the form builder and [checklistName],
    [checklistDescription] and [checklistId] in the checklist builder;
    [toasts] collects the texts of [toast.error].  [uuidv4()] is an
    argument of the handlers that call it.  [handleAddField],
    [handleDeleteField] and [handleUpdateField] read the same in the two
    files. *)

Module Builder.
Import Js.

Record State : Type := mkState {
  fields : list Field.t;
  name : string;
  description : string;
  isPreviewOpen : bool;
  documentId : option string;
  fieldErrors : gset (option string);
  toasts : list string
}.

Definition setFields (st : State) (fields : list Field.t) : State :=
  mkState fields (name st) (description st) (isPreviewOpen st) (documentId st)
    (fieldErrors st) (toasts st).

Definition setFieldErrors (st : State) (errors : gset (option string)) : State :=
  mkState (fields st) (name st) (description st) (isPreviewOpen st) (documentId st)
    errors (toasts st).

Definition setIsPreviewOpen (st : State) (open : bool) : State :=
  mkState (fields st) (name st) (description st) open (documentId st)
    (fieldErrors st) (toasts st).

Definition toast_error (st : State) (message : string) : State :=
  mkState (fields st) (name st) (description st) (isPreviewOpen st) (documentId st)
    (fieldErrors st) (toasts st ++ [message])%list.

(** [type === 'select' || type === 'checklist' || type === 'radio'] *)
Definition isChoiceType (type : string) : bool :=
  String.eqb type "select" || String.eqb type "checklist" || String.eqb type "radio".

Definition handleAddField (type : string) (uuid : string) (st : State) : State :=
  let newField :=
    Field.mk (Some ("field_" ++ uuid)) type "" (Some "") None false
      (if isChoiceType type then Some ["Option 1"; "Option 2"] else None)
      None None None None None None None in
  setFields st (fields st ++ [newField])%list.

Definition handleDeleteField (id : string) (st : State) : State :=
  setFields st
    (List.filter
       (fun field => negb (bool_decide (Field.id field = Some id)))
       (fields st)).

Definition handleUpdateField (id : string) (updates : Updates.t) (st : State) : State :=
  let st :=
    setFields st
      (map (fun field =>
              if bool_decide (Field.id field = Some id)
              then Updates.spread field updates else field)
         (fields st)) in
  match Updates.label updates with
  | Some label =>
      if negb (String.eqb label "") && negb (String.eqb (Str.trim label) "")
      then setFieldErrors st (fieldErrors st ∖ {[Some id]})
      else st
  | None => st
  end.

(** [!field.label.trim()] *)
Definition emptyLabel (field : Field.t) : bool :=
  String.eqb (Str.trim (Field.label field)) "".

(** [field.type === 'file' && (!field.acceptedFileTypes ||
    field.acceptedFileTypes.length === 0)] *)
Definition fileWithoutTypes (field : Field.t) : bool :=
  String.eqb (Field.type field) "file"
  && match Field.acceptedFileTypes field with
     | Some (_ :: _) => false
     | _ => true
     end.

(** [new Set(l.map(f => f.id))] *)
Definition idsOf (l : list Field.t) : gset (option string) :=
  list_to_set (map Field.id l).

(** [l.length] in a template literal *)
Definition lengthText {A : Type} (l : list A) : string :=
  Str.ofZ (Z.of_nat (length l)).

(** [formId || uuidv4()] *)
Definition idOrNew (documentId : option string) (uuid : string) : string :=
  match documentId with
  | Some i => if String.eqb i "" then uuid else i
  | None => uuid
  end.

(** The schema [handleConfirmSave] saves. *)
Definition schema (uuid : string) (st : State) : Document.t :=
  Document.mk (idOrNew (documentId st) uuid) (name st) (Some (description st))
    (fields st).

(** The handlers of FormBuilder.tsx that differ from the checklist
    builder's. *)
Module Form.

(** The effect that loads the document to edit; [id] is the parameter of
    the route. *)
Definition load (id : option string) (st : State) (w : Storage.World)
  : State * Storage.World :=
  if truthyStr id then
    let (existingForm, w) := FormStore.getForm (nullish id "") w in
    match existingForm with
    | Some existing =>
        (mkState (Document.fields existing) (Document.name existing)
           (orStr (Document.description existing) "") (isPreviewOpen st)
           (Some (Document.id existing)) (fieldErrors st) (toasts st), w)
    | None => (st, w)
    end
  else (st, w).

Definition handleSaveClick (st : State) : State :=
  let fieldsWithEmptyLabels := List.filter emptyLabel (fields st) in
  match fieldsWithEmptyLabels with
  | _ :: _ =>
      let st := setFieldErrors st (idsOf fieldsWithEmptyLabels) in
      toast_error st
        ("Please provide labels for all fields. " ++ lengthText fieldsWithEmptyLabels
           ++ " field(s) have empty labels.")
  | [] =>
      let st := setFieldErrors st ∅ in
      setIsPreviewOpen st true
  end.

Definition handleConfirmSave (uuid : string) (st : State) (w : Storage.World)
  : State * Storage.World :=
  let w := FormStore.saveForm (schema uuid st) w in
  (setIsPreviewOpen st false, w).

End Form.

(** The handlers of ChecklistBuilder.tsx. *)
Module Checklist.

(** The effect that loads the document to edit; [id] is the parameter of
    the route. *)
Definition load (id : option string) (st : State) (w : Storage.World)
  : State * Storage.World :=
  if truthyStr id then
    let (existingChecklist, w) := ChecklistStore.getChecklist (nullish id "") w in
    match existingChecklist with
    | Some existing =>
        (mkState (Document.fields existing) (Document.name existing)
           (orStr (Document.description existing) "") (isPreviewOpen st)
           (Some (Document.id existing)) (fieldErrors st) (toasts st), w)
    | None => (st, w)
    end
  else (st, w).

Definition handleSaveClick (st : State) : State :=
  let fieldsWithEmptyLabels := List.filter emptyLabel (fields st) in
  let fileFieldsWithoutTypes := List.filter fileWithoutTypes (fields st) in
  let errors := idsOf fieldsWithEmptyLabels ∪ idsOf fileFieldsWithoutTypes in
  if negb (bool_decide (size errors = 0%nat)) then
    let st := setFieldErrors st errors in
    match fieldsWithEmptyLabels, fileFieldsWithoutTypes with
    | _ :: _, _ :: _ =>
        toast_error st
          ("Please fix validation errors: " ++ lengthText fieldsWithEmptyLabels
             ++ " empty label(s), " ++ lengthText fileFieldsWithoutTypes
             ++ " file field(s) without types.")
    | _ :: _, [] =>
        toast_error st
          ("Please provide labels for all fields. " ++ lengthText fieldsWithEmptyLabels
             ++ " field(s) have empty labels.")
    | [], _ =>
        toast_error st
          ("File upload fields must have at least one accepted file type. "
             ++ lengthText fileFieldsWithoutTypes ++ " field(s) need file types.")
    end
  else
    let st := setFieldErrors st ∅ in
    setIsPreviewOpen st true.

Definition handleConfirmSave (uuid : string) (st : State) (w : Storage.World)
  : State * Storage.World :=
  let w := ChecklistStore.saveChecklist (schema uuid st) w in
  (setIsPreviewOpen st false, w).

End Checklist.

End Builder.

(** * Vocabulary of the properties *)

Import Js.

(** A descriptor with the given id, type tag, required flag and validation
    rules, and nothing else set. *)
Definition descriptor (id : option string) (type : string) (required : bool)
  (validation : option FieldValidation.t) : Field.t :=
  Field.mk id type "" None None required None None None None None None None
    validation.

(** What a save leaves in the store: the document in place of the first
    stored one with its id, or after all of them. *)
Definition saved (d : Document.t) (docs : list Document.t) : list Document.t :=
  match Storage.findIndex (fun c => String.eqb (Document.id c) (Document.id d)) docs with
  | Some i => <[i := d]> docs
  | None => (docs ++ [d])%list
  end.

(** The default-value table in the words of the specification: false for
    checkbox, the empty list for checklist, [field.min] or else [0] for
    range, a pair of empty strings for min_max, the empty string for every
    other type. *)
Definition specDefault (f : Field.t) : Value :=
  if String.eqb (Field.type f) "checkbox" then VBool false
  else if String.eqb (Field.type f) "checklist" then VArray []
  else if String.eqb (Field.type f) "range" then VNumber (nullish (Field.min f) 0)
  else if String.eqb (Field.type f) "min_max"
       then VObject [("min", VString ""); ("max", VString "")]
  else VString "".

(** The two refinements a date builder chains for the bounds that are
    set, and the messages they leave on a non-empty value [s]: one when [s]
    is lexically below [minDate], one when it is lexically above
    [maxDate]. *)
Definition dateChecks (v : FieldValidation.t) : list Zod.Check :=
  app
    (ifStr (FieldValidation.minDate v)
       (fun d => [Zod.Custom (onOrAfter d) (Some ("Date must be on or after " ++ d))])
       [])
    (ifStr (FieldValidation.maxDate v)
       (fun d => [Zod.Custom (onOrBefore d) (Some ("Date must be on or before " ++ d))])
       []).

Definition dateMessages (v : FieldValidation.t) (s : string) : list (option string) :=
  app
    (ifStr (FieldValidation.minDate v)
       (fun d => if String.leb d s then [] else [Some ("Date must be on or after " ++ d)])
       [])
    (ifStr (FieldValidation.maxDate v)
       (fun d => if String.leb s d then [] else [Some ("Date must be on or before " ++ d)])
       []).

(** The effective minimum of a checklist field in the words of the
    specification: [minSelections] when set, else 1 when the field is
    required, else 0. *)
Definition effectiveMin (f : Field.t) : Z :=
  match FieldValidation.minSelections (Field.validationOrEmpty f) with
  | Some n => n
  | None => if Field.required f then 1 else 0
  end.

(** A list of selected options as a live value. *)
Definition selection (l : list string) : Value := VArray (map VString l).


(** The seven types of the claim on required fields, the default text of
    the required failure of each compiler, and the required message of a
    field: the custom one when it is a non-empty string. *)
Definition textLike : list string :=
  ["text"; "textarea"; "email"; "phone"; "date"; "radio"; "select"].

Definition isChoice (tag : string) : bool :=
  String.eqb tag "radio" || String.eqb tag "select".

Definition ChecklistRender_requiredDefault (tag : string) : string :=
  if isChoice tag then "Please select an option" else "This field is required".

Definition FormRender_requiredDefault (tag : string) : string :=
  if isChoice tag then "Select an option" else "This field is required.".

Definition requiredText (default : string) (f : Field.t) : string :=
  orStr (FieldValidation.requiredMessage (Field.validationOrEmpty f)) default.

(** The claim as stated: on the empty string the required message is the
    one and only message. *)
Definition onlyRequired (schema : Zod.Schema) (requiredMessage : string) : Prop :=
  Zod.messages (Zod.parse schema (VString "")) = [Some requiredMessage].

(** A length rule that the empty string breaks: a positive [minLength] or a
    negative [maxLength]. *)
Definition lengthRuleHitsEmpty (v : FieldValidation.t) : bool :=
  match FieldValidation.minLength v with Some n => Z.ltb 0 n | None => false end
  || match FieldValidation.maxLength v with Some n => Z.ltb n 0 | None => false end.

(** The fields for which the required check is the only rule the empty
    string can break: date, radio and select fields, and text and textarea
    fields without such a length rule. *)
Definition soleRule (f : Field.t) : bool :=
  let tag := Field.type f in
  String.eqb tag "date" || isChoice tag
  || ((String.eqb tag "text" || String.eqb tag "textarea")
      && negb (lengthRuleHitsEmpty (Field.validationOrEmpty f))).

(** The validator a compiler gives a field, when it gives one. *)
Definition compiledBy (buildField : Field.t -> Completion Zod.Entry) (f : Field.t)
  (schema : Zod.Schema) : Prop :=
  buildField f = Normal (Zod.Validator schema).

(** The ids that get an entry in the compiled object: the non-empty
    strings other than [__proto__]. *)
Definition keyed (k : string) : bool :=
  negb (String.eqb k "") && negb (String.eqb k "__proto__").

Definition idIs (k : string) (f : Field.t) : bool :=
  match Field.id f with
  | Some i => String.eqb i k
  | None => false
  end.

(** The last field of the list that carries the id [k]. *)
Fixpoint lastWithId (k : string) (fields : list Field.t) : option Field.t :=
  match fields with
  | [] => None
  | f :: rest =>
      match lastWithId k rest with
      | Some g => Some g
      | None => if idIs k f then Some f else None
      end
  end.

Definition entryOf (c : Completion Zod.Entry) : option Zod.Entry :=
  match c with
  | Normal e => Some e
  | Throw _ => None
  end.

(** The entry the claim on compiled objects expects under the key [k]:
    the validator of the last field with that id, when [k] is keyed. *)
Definition expectedEntry (buildField : Field.t -> Completion Zod.Entry)
  (fields : list Field.t) (k : string) : option Zod.Entry :=
  if keyed k
  then match lastWithId k fields with
       | Some f => entryOf (buildField f)
       | None => None
       end
  else None.

(** The loop of [buildZodSchema] over any per-field builder. *)
Fixpoint buildShapeWith (buildField : Field.t -> Completion Zod.Entry)
  (fields : list Field.t) (shape : gmap string Zod.Entry)
  : Completion (gmap string Zod.Entry) :=
  match fields with
  | [] => Normal shape
  | f :: rest =>
      match Field.id f with
      | Some i =>
          if String.eqb i "" then buildShapeWith buildField rest shape
          else match buildField f with
               | Normal entry => buildShapeWith buildField rest (assign shape i entry)
               | Throw e => Throw e
               end
      | None => buildShapeWith buildField rest shape
      end
  end.


(** ** Vocabulary of the further properties *)

(** The ids of a list of stored documents, in their order, and the list
    without the documents that carry an id. *)
Definition ids (docs : list Document.t) : list string := map Document.id docs.

Definition without_id (k : string) (docs : list Document.t) : list Document.t :=
  List.filter (fun d => negb (String.eqb (Document.id d) k)) docs.

(** The files of a [FileList | null]. *)
Definition files (o : option (list File)) : list File := nullish o [].

(** The values a file field holds: nothing, the empty string it starts
    with, or a [FileList]. *)
Definition fileValue (v : Value) : bool :=
  match v with
  | VUndefined | VNull | VFileList _ => true
  | VString s => String.eqb s ""
  | _ => false
  end.

(** A rule that is read only under [if (o)]: it holds when [o] is absent
    or [0]. *)
Definition truthyThen (o : option Z) (p : Z -> bool) : bool :=
  match o with
  | Some n => if Z.eqb n 0 then true else p n
  | None => true
  end.

(** The nine types for which the switch of the form builder's viewer and
    the builders of ChecklistRender read the same. *)
Definition sameInBoth : list string :=
  ["email"; "phone"; "number"; "date"; "checkbox"; "radio"; "select"; "range";
   "min_max"].

(** A finite number at or above, and at or below, an integer bound. *)
Definition atLeast (bound : Z) (x : Number) : bool :=
  match x with
  | Int n => Z.leb bound n
  | Frac m e => Z.leb (bound * 2 ^ Zpos e) m
  | NaN | Infinity _ => false
  end.

Definition atMost (bound : Z) (x : Number) : bool :=
  match x with
  | Int n => Z.leb n bound
  | Frac m e => Z.leb m (bound * 2 ^ Zpos e)
  | NaN | Infinity _ => false
  end.

Definition finite (x : Number) : bool :=
  match x with
  | Int _ | Frac _ _ => true
  | NaN | Infinity _ => false
  end.

(** The value bounds of a number field, and the values a number validator
    accepts: the empty string when the field is not required, and whatever
    converts to a finite number within the bounds. *)
Definition inBounds (f : Field.t) (x : Number) : bool :=
  let v := Field.validationOrEmpty f in
  finite x
  && match FieldValidation.minValue v with Some a => atLeast a x | None => true end
  && match FieldValidation.maxValue v with Some b => atMost b x | None => true end.

Definition numberAccepts (f : Field.t) (v : Value) : bool :=
  (negb (Field.required f) && match v with VString s => String.eqb s "" | _ => false end)
  || inBounds f (toNumber v).

(** The live values of a number input: a string, nothing, a boolean, or an
    integer that a number can be; and the descriptors whose value bounds,
    where set, are integers that a number can be. *)
Definition numberInput (v : Value) : bool :=
  match v with
  | VUndefined | VNull | VBool _ | VString _ => true
  | VNumber n => isDouble n
  | _ => false
  end.

Definition doubleBounds (f : Field.t) : bool :=
  let v := Field.validationOrEmpty f in
  match FieldValidation.minValue v with Some a => isDouble a | None => true end
  && match FieldValidation.maxValue v with Some b => isDouble b | None => true end.

Definition boundChecks (v : FieldValidation.t) (minMsg maxMsg : Z -> option string)
  : list Zod.Check :=
  app (ifDefined (FieldValidation.minValue v) (fun n => [Zod.GreaterThanEq n (minMsg n)]) [])
      (ifDefined (FieldValidation.maxValue v) (fun n => [Zod.LessThanEq n (maxMsg n)]) []).

(** The values a checkbox validator accepts: a boolean, and [true] when
    the field is required. *)
Definition checkboxAccepts (f : Field.t) (v : Value) : bool :=
  match v with
  | VBool b => if Field.required f then b else true
  | _ => false
  end.

(** The length checks a text builder chains for the bounds it reads:
    [guard] says which values of [minLength] and [maxLength] it reads. *)
Definition lengthChecks (guard : Z -> bool) (v : FieldValidation.t)
  (minMsg maxMsg : Z -> option string) : list Zod.Check :=
  app
    match FieldValidation.minLength v with
    | Some n => if guard n then [Zod.MinLength n (minMsg n)] else []
    | None => []
    end
    match FieldValidation.maxLength v with
    | Some n => if guard n then [Zod.MaxLength n (maxMsg n)] else []
    | None => []
    end.

(** The strings a text validator accepts: the empty string when the field
    is not required; a non-empty string whose length respects the bounds
    the builder reads. *)
Definition textAccepts (guard : Z -> bool) (f : Field.t) (s : string) : bool :=
  let v := Field.validationOrEmpty f in
  if String.eqb s "" then negb (Field.required f)
  else
    match FieldValidation.minLength v with
    | Some n => if guard n then Z.leb n (Str.len s) else true
    | None => true
    end
    && match FieldValidation.maxLength v with
       | Some n => if guard n then Z.leb (Str.len s) n else true
       | None => true
       end.

(** [if (n)] and [n !== undefined && n >= 0] *)
Definition nonZero (n : Z) : bool := negb (Z.eqb n 0).
Definition nonNegative (n : Z) : bool := Z.leb 0 n.

(** A field that is not required, of a recognized type, and, when it is a
    checklist, without a positive minimum of selections and without a
    negative maximum. *)
Definition untouchedPasses (f : Field.t) : bool :=
  negb (Field.required f)
  && Field.isFieldType (Field.type f)
  && (negb (String.eqb (Field.type f) "checklist")
      || (Z.leb (effectiveMin f) 0
          && match FieldValidation.maxSelections (Field.validationOrEmpty f) with
             | Some n => Z.leb 0 n
             | None => true
             end)).

(** The loop shared by the compiler of the form builder's viewer and by
    the default values: for every field with a non-empty id,
    [acc[field.id] = entry(field)]. *)
Fixpoint assignAll {A : Type} (entry : Field.t -> A) (fields : list Field.t)
  (acc : gmap string A) : gmap string A :=
  match fields with
  | [] => acc
  | f :: rest =>
      match Field.id f with
      | Some i =>
          if String.eqb i "" then assignAll entry rest acc
          else assignAll entry rest (assign acc i (entry f))
      | None => assignAll entry rest acc
      end
  end.

(** A validation that returns and reports no issue under any key. *)
Definition noIssues (issues : gmap string (list Zod.Issue)) : Prop :=
  forall k l, issues !! k = Some l -> l = [].

Definition validatesTo (shape : gmap string Zod.Entry) (values : gmap string Value)
  : Prop :=
  exists issues, Zod.parseObject shape values = Normal issues /\ noIssues issues.

(** The words of a regular expression. *)
Inductive Lang : Regex.re -> list ascii -> Prop :=
| Lang_Eps : Lang Regex.Eps []
| Lang_Class (p : ascii -> bool) (c : ascii) : p c = true -> Lang (Regex.Class p) [c]
| Lang_Seq (a b : Regex.re) (l1 l2 : list ascii) :
    Lang a l1 -> Lang b l2 -> Lang (Regex.Seq a b) (l1 ++ l2)%list
| Lang_AltL (a b : Regex.re) (l : list ascii) : Lang a l -> Lang (Regex.Alt a b) l
| Lang_AltR (a b : Regex.re) (l : list ascii) : Lang b l -> Lang (Regex.Alt a b) l
| Lang_Star0 (a : Regex.re) : Lang (Regex.Star a) []
| Lang_StarS (a : Regex.re) (l1 l2 : list ascii) :
    Lang a l1 -> Lang (Regex.Star a) l2 -> Lang (Regex.Star a) (l1 ++ l2)%list.

(** A phone number as the pattern of the validators reads: after an
    optional plus sign, seven to twenty digits, white space, dashes or
    parentheses. *)
Definition isPhone (s : string) : bool :=
  let l := Str.chars s in
  let body := match l with
              | c :: rest => if Ascii.eqb c "+" then rest else l
              | [] => l
              end in
  Nat.leb 7 (length body) && Nat.leb (length body) 20 && forallb phoneChar body.

(** No two spaces in a row, and a leading space. *)
Fixpoint noDoubleBlank (l : list ascii) : bool :=
  match l with
  | c :: rest =>
      match rest with
      | c' :: _ => negb (FormRenderField.isBlank c && FormRenderField.isBlank c')
      | [] => true
      end && noDoubleBlank rest
  | [] => true
  end.

Definition startsBlank (l : list ascii) : bool :=
  match l with
  | c :: _ => FormRenderField.isBlank c
  | [] => false
  end.

(** The state a builder starts in when it creates a new form. *)
Definition emptyState : Builder.State :=
  Builder.mkState [] "My New Form" "" false None ∅ [].

(** The options and the accepted file types of a field, [[]] when absent. *)
Definition optionsOf (f : Field.t) : list string := nullish (Field.options f) [].
Definition typesOf (f : Field.t) : list string :=
  nullish (Field.acceptedFileTypes f) [].

(** * Properties *)

(** ** The stores *)

Section FindReplace.

Context {A : Type} (p : A -> bool).

Lemma find_replace_found (l : list A) (i : nat) (d : A) :
  Storage.findIndex p l = Some i -> p d = true ->
  List.find p (<[i := d]> l) = Some d.
Proof.
  revert i. induction l as [|x l IH]; intros i Hi Hd; simpl in *.
  - discriminate.
  - destruct (p x) eqn:Hx.
    + injection Hi as <-. simpl. now rewrite Hd.
    + destruct (Storage.findIndex p l) as [j|] eqn:Hj; simpl in Hi; [|discriminate].
      injection Hi as <-. simpl. rewrite Hx. now apply IH.
Qed.

Lemma find_push_absent (l : list A) (d : A) :
  Storage.findIndex p l = None -> p d = true ->
  List.find p (l ++ [d])%list = Some d.
Proof.
  induction l as [|x l IH]; intros Hi Hd; simpl in *.
  - now rewrite Hd.
  - destruct (p x) eqn:Hx; [discriminate|].
    destruct (Storage.findIndex p l); simpl in Hi; [discriminate|].
    now apply IH.
Qed.

End FindReplace.

Lemma find_saved (d : Document.t) (docs : list Document.t) :
  List.find (fun c => String.eqb (Document.id c) (Document.id d)) (saved d docs)
  = Some d.
Proof.
  unfold saved.
  destruct (Storage.findIndex _ docs) as [i|] eqn:Hi.
  - eapply find_replace_found; [exact Hi|]. apply String.eqb_refl.
  - eapply find_push_absent; [exact Hi|]. apply String.eqb_refl.
Qed.

Lemma length_saved (d : Document.t) (docs : list Document.t) :
  length (saved d docs) =
  match Storage.findIndex (fun c => String.eqb (Document.id c) (Document.id d)) docs with
  | Some _ => length docs
  | None => S (length docs)
  end.
Proof.
  unfold saved. destruct (Storage.findIndex _ docs).
  - apply length_insert.
  - rewrite length_app. simpl. lia.
Qed.

Lemma saveForm_stores (d : Document.t) (w : Storage.World) :
  Storage.getItem (FormStore.saveForm d w) FormStore.STORAGE_KEY
  = Some (Storage.Encodes (saved d (fst (FormStore.getForms w)))).
Proof.
  unfold FormStore.saveForm, FormStore.getForms, Storage.getItem, Storage.setItem.
  destruct (Storage.localStorage w !! FormStore.STORAGE_KEY) as [[| |docs]|];
    simpl; now rewrite lookup_insert_eq.
Qed.

Lemma saveChecklist_stores (d : Document.t) (w : Storage.World) :
  Storage.getItem (ChecklistStore.saveChecklist d w) ChecklistStore.STORAGE_KEY
  = Some (Storage.Encodes (saved d (fst (ChecklistStore.getChecklists w)))).
Proof.
  unfold ChecklistStore.saveChecklist, ChecklistStore.getChecklists,
    Storage.getItem, Storage.setItem.
  destruct (Storage.localStorage w !! ChecklistStore.STORAGE_KEY) as [[| |docs]|];
    simpl; now rewrite lookup_insert_eq.
Qed.

(** C7: for every document [d] and every prior state of the store, loading
    by [d]'s id right after saving [d] returns [d] itself, with its whole
    field list, for forms and for checklists; the save puts [d] in the place
    of a stored document with the same id when there is one (the number of
    stored documents stays the same) and appends it otherwise. *)
Theorem C7_save_then_load (d : Document.t) (w : Storage.World) :
  (fst (FormStore.getForm (Document.id d) (FormStore.saveForm d w)) = Some d
   /\ fst (FormStore.getForms (FormStore.saveForm d w))
      = saved d (fst (FormStore.getForms w)))
  /\ (fst (ChecklistStore.getChecklist (Document.id d)
             (ChecklistStore.saveChecklist d w)) = Some d
      /\ fst (ChecklistStore.getChecklists (ChecklistStore.saveChecklist d w))
         = saved d (fst (ChecklistStore.getChecklists w))).
Proof.
  split.
  - assert (H : FormStore.getForms (FormStore.saveForm d w)
                = (saved d (fst (FormStore.getForms w)), FormStore.saveForm d w)).
    { unfold FormStore.getForms at 1. now rewrite saveForm_stores. }
    split.
    + unfold FormStore.getForm. rewrite H. simpl. apply find_saved.
    + now rewrite H.
  - assert (H : ChecklistStore.getChecklists (ChecklistStore.saveChecklist d w)
                = (saved d (fst (ChecklistStore.getChecklists w)),
                   ChecklistStore.saveChecklist d w)).
    { unfold ChecklistStore.getChecklists at 1. now rewrite saveChecklist_stores. }
    split.
    + unfold ChecklistStore.getChecklist. rewrite H. simpl. apply find_saved.
    + now rewrite H.
Qed.

(** C9: when the stored text does not parse, [getForms] and [getChecklists]
    return the empty list and write one line to the console; they do not
    throw. *)
Theorem C9_malformed_storage_is_empty (w : Storage.World) (stored : Storage.Text)
  (e : Error) :
  Storage.truthyText stored = true ->
  Storage.JSON_parse stored = Throw e ->
  (Storage.getItem w FormStore.STORAGE_KEY = Some stored ->
   FormStore.getForms w = ([], Storage.console_error w "Failed to load forms"))
  /\ (Storage.getItem w ChecklistStore.STORAGE_KEY = Some stored ->
      ChecklistStore.getChecklists w
      = ([], Storage.console_error w "Failed to load checklists")).
Proof.
  intros Ht Hp. split; intros Hs.
  - unfold FormStore.getForms. now rewrite Hs, Ht, Hp.
  - unfold ChecklistStore.getChecklists. now rewrite Hs, Ht, Hp.
Qed.

Lemma C9_malformed_storage_is_empty_witness :
  let w :=
    Storage.mkWorld
      (<[FormStore.STORAGE_KEY := Storage.Unparsable]> ∅) [] in
  FormStore.getForms w = ([], Storage.console_error w "Failed to load forms").
Proof.
  intros w.
  apply (C9_malformed_storage_is_empty w Storage.Unparsable SyntaxError);
    reflexivity.
Defined.

(** ** The file widgets *)

Lemma truthyNum_nonzero (m : Z) : m <> 0 -> truthyNum (Some m) = true.
Proof. intros H. simpl. now destruct (Z.eqb_spec m 0). Qed.

(** C8: with [maxFiles] set (a positive integer in the data model; a
    non-zero one is all the proof needs), an add-files action that brings at
    least one file and would take the selection above [maxFiles] leaves the
    stored selection as it was and shows a message.  In the checklist
    widget the files that would join the selection are the ones of an
    accepted type. *)
Theorem C8_over_limit_rejected (field : Field.t) (existing : option (list File))
  (newFiles : list File) (m : Z) :
  Field.maxFiles field = Some m -> m <> 0 ->
  (newFiles <> [] ->
   m < Widget.count existing + Z.of_nat (length newFiles) ->
   FormFileUpload.addFiles field existing (Some newFiles)
   = Widget.mkOutcome existing ["Maximum " ++ Str.ofZ m ++ " file(s) allowed"])
  /\ (let validFiles := List.filter (ChecklistFileUpload.isFileAccepted field) newFiles in
      validFiles <> [] ->
      m < Widget.count existing + Z.of_nat (length validFiles) ->
      let out := ChecklistFileUpload.addFiles field existing (Some newFiles) in
      Widget.value out = existing
      /\ (In ("Maximum " ++ Str.ofZ m
                ++ " file(s) allowed. Please remove existing files before adding new ones.")
             (Widget.shown out)
          \/ In ("You can only add " ++ Str.ofZ (m - Widget.count existing)
                   ++ " more file(s). Maximum limit is " ++ Str.ofZ m ++ " file(s).")
                (Widget.shown out))).
Proof.
  intros Hm Hnz. split.
  - intros Hne Hover. unfold FormFileUpload.addFiles.
    destruct newFiles as [|f l]; [congruence|].
    rewrite Hm, truthyNum_nonzero by assumption. simpl nullish.
    apply Z.ltb_lt in Hover. now rewrite Hover.
  - intros validFiles Hne Hover. unfold ChecklistFileUpload.addFiles.
    destruct newFiles as [|f l]; [now contradiction Hne|].
    fold validFiles.
    assert (Hlen : Nat.eqb (length validFiles) 0 = false).
    { destruct validFiles; [congruence|reflexivity]. }
    rewrite Hlen, andb_false_r.
    rewrite Hm, truthyNum_nonzero by assumption. simpl nullish.
    apply Z.ltb_lt in Hover. rewrite Hover. simpl andb.
    destruct (Z.leb (m - Widget.count existing) 0); simpl; split; try reflexivity.
    + left. apply in_or_app. right. now left.
    + right. apply in_or_app. right. now left.
Qed.

Lemma C8_over_limit_rejected_witness :
  let field := Field.mk (Some "f") "file" "" None None false None None (Some 2)
                 None None None None None in
  let a := mkFile "a.png" 10 "image/png" in
  let b := mkFile "b.png" 20 "image/png" in
  let c := mkFile "c.png" 30 "image/png" in
  FormFileUpload.addFiles field (Some [a; b]) (Some [c])
  = Widget.mkOutcome (Some [a; b]) ["Maximum 2 file(s) allowed"].
Proof.
  intros field a b c.
  apply (C8_over_limit_rejected field (Some [a; b]) [c] 2);
    [reflexivity | lia | discriminate | vm_compute; reflexivity].
Defined.

(** ** Default values *)

(** C3: the viewer of the form builder starts a range field at [field.min]
    when it is present, but [getDefaultValue] sees only the type tag, so the
    sessions of ChecklistRender and FormRender start a range field with
    [min = 5] at [0]. *)
Theorem C3_range_default_ignores_min :
  let f := Field.mk (Some "r") "range" "" None None false None None None
             (Some 5) (Some 10) None None None in
  FormBuilder.defaultValues [f] !! "r" = Some (VNumber 5)
  /\ ChecklistRender.defaultValues [f] !! "r" = Some (VNumber 0)
  /\ FormRender.defaultValues [f] !! "r" = Some (VNumber 0).
Proof. vm_compute. repeat split. Qed.

(** The table itself holds in the viewer of the form builder for every
    descriptor, and in [getDefaultValue] for every member of [FieldType]
    apart from the [min] of a range field. *)
Lemma FormBuilder_default_table (f : Field.t) :
  FormBuilder.defaultValueOf f = specDefault f.
Proof. reflexivity. Qed.

Lemma getDefaultValue_table (f : Field.t) :
  Field.isFieldType (Field.type f) = true ->
  (Field.type f = "range" -> Field.min f = None) ->
  ChecklistRender.getDefaultValue (Field.type f) = specDefault f
  /\ FormRender.getDefaultValue (Field.type f) = specDefault f.
Proof.
  intros Ht Hr. unfold Field.isFieldType, Field.FieldType in Ht. simpl in Ht.
  unfold specDefault.
  repeat match type of Ht with
         | (String.eqb ?a ?b || _)%bool = true =>
             destruct (String.eqb_spec a b) as [E|_];
             [ clear Ht; rewrite E in *; try rewrite (Hr eq_refl); now vm_compute
             | simpl in Ht ]
         end.
  discriminate.
Qed.

(** ** Compilation on unrecognized type tags *)

(** C6: compilation throws on a descriptor whose type tag is [__proto__].
    The lookup [schemaBuilders[field.type]] finds the prototype object that
    the table inherits, which is truthy and not callable, so the fallback
    [|| (() => z.any())] is skipped and [buildZodSchema] of ChecklistRender
    and of FormRender throws a TypeError; the switch of the form builder's
    viewer gives the same descriptor the always-pass validator. *)
Theorem C6_inherited_tag_throws :
  let f := descriptor (Some "f1") "__proto__" false None in
  ChecklistRender.buildZodSchema [f] = Throw TypeError
  /\ FormRender.buildZodSchema [f] = Throw TypeError
  /\ FormBuilder.buildZodSchema [f] !! "f1" = Some (Zod.Validator Zod.z_any).
Proof. vm_compute. repeat split. Qed.

Lemma any_always_passes (v : Value) : Zod.parse Zod.z_any v = [].
Proof. reflexivity. Qed.

Lemma not_FieldType (tag : string) :
  Field.isFieldType tag = false ->
  Forall (fun t => String.eqb tag t = false) Field.FieldType.
Proof.
  unfold Field.isFieldType. intros H. apply Forall_forall. intros t Ht.
  destruct (String.eqb tag t) eqn:E; [|reflexivity].
  rewrite <- H. symmetry. apply existsb_exists. exists t. split; [|exact E].
  now apply list_elem_of_In.
Qed.

Ltac unrecognized H :=
  apply not_FieldType in H; unfold Field.FieldType in H;
  repeat match type of H with
         | Forall _ (_ :: _) =>
             let E := fresh "E" in
             apply Forall_cons in H; destruct H as [E H]
         end.

(** The switch of the form builder's viewer is total and gives every
    unrecognized tag the always-pass validator. *)
Lemma FormBuilder_unrecognized_any (f : Field.t) :
  Field.isFieldType (Field.type f) = false ->
  FormBuilder.fieldSchema f = Zod.z_any.
Proof.
  intros H. unrecognized H.
  unfold FormBuilder.fieldSchema, FormBuilder.hasType.
  now repeat match goal with E : String.eqb _ _ = false |- _ => rewrite E; clear E end.
Qed.

(** The lookups of ChecklistRender and FormRender give an unrecognized tag
    the always-pass validator when the tag names nothing that objects
    inherit. *)
Lemma lookup_unrecognized_any (f : Field.t) :
  Field.isFieldType (Field.type f) = false ->
  Object_prototype (Field.type f) = None ->
  ChecklistRender.buildField f = Normal (Zod.Validator Zod.z_any)
  /\ FormRender.buildField f = Normal (Zod.Validator Zod.z_any).
Proof.
  intros H Hp. unrecognized H.
  unfold ChecklistRender.buildField, FormRender.buildField, lookup,
    ChecklistRender.schemaBuilders, FormRender.schemaBuilders.
  repeat match goal with E : String.eqb _ _ = false |- _ => rewrite E; clear E end.
  now rewrite Hp.
Qed.

Lemma FieldType_not_inherited (tag : string) :
  Field.isFieldType tag = true -> Object_prototype tag = None.
Proof.
  unfold Field.isFieldType, Field.FieldType. simpl. intros Ht.
  repeat match type of Ht with
         | (String.eqb ?a ?b || _)%bool = true =>
             destruct (String.eqb_spec a b) as [E|_];
             [ clear Ht; now rewrite E | simpl in Ht ]
         end.
  discriminate.
Qed.

Lemma buildField_returns (f : Field.t) :
  Object_prototype (Field.type f) = None ->
  (exists s, ChecklistRender.buildField f = Normal (Zod.Validator s))
  /\ (exists s, FormRender.buildField f = Normal (Zod.Validator s)).
Proof.
  intros Hp. unfold ChecklistRender.buildField, FormRender.buildField, lookup.
  rewrite Hp.
  destruct (ChecklistRender.schemaBuilders (Field.type f));
    destruct (FormRender.schemaBuilders (Field.type f)); eauto.
Qed.

(** Compilation returns on every field list that has no type tag among the
    names objects inherit. *)
Lemma buildZodSchema_returns (fields : list Field.t) :
  Forall (fun f => Object_prototype (Field.type f) = None) fields ->
  (exists shape, ChecklistRender.buildZodSchema fields = Normal shape)
  /\ (exists shape, FormRender.buildZodSchema fields = Normal shape).
Proof.
  unfold ChecklistRender.buildZodSchema, FormRender.buildZodSchema.
  generalize (∅ : gmap string Zod.Entry) at 1 as s1.
  generalize (∅ : gmap string Zod.Entry) as s2.
  induction fields as [|f fields IH]; intros s2 s1 H.
  - simpl. eauto.
  - apply Forall_cons in H. destruct H as [Hf H]. simpl.
    destruct (buildField_returns f Hf) as [[x1 E1] [x2 E2]].
    rewrite E1, E2.
    destruct (Field.id f) as [i|]; [destruct (String.eqb i "")|]; now apply IH.
Qed.

(** Where the fallback does work: on every field list whose type tags name
    nothing that objects inherit from [Object.prototype], [buildZodSchema]
    of ChecklistRender and of FormRender returns; a type tag outside
    [FieldType] is then given the always-pass validator, which reports no
    issue on any live value.  The compiler of the form builder's viewer is
    a function, total on every list, and gives every tag outside
    [FieldType] the always-pass validator. *)
Lemma unrecognized_tags_outside_inherited (fields : list Field.t) :
  Forall (fun f => Object_prototype (Field.type f) = None) fields ->
  ((exists shape, ChecklistRender.buildZodSchema fields = Normal shape)
   /\ (exists shape, FormRender.buildZodSchema fields = Normal shape))
  /\ (forall f, In f fields -> Field.isFieldType (Field.type f) = false ->
      ChecklistRender.buildField f = Normal (Zod.Validator Zod.z_any)
      /\ FormRender.buildField f = Normal (Zod.Validator Zod.z_any)
      /\ FormBuilder.fieldSchema f = Zod.z_any)
  /\ (forall v, Zod.parse Zod.z_any v = []).
Proof.
  intros Hp. split; [now apply buildZodSchema_returns|]. split.
  - intros f Hin Ht.
    assert (Hf : Object_prototype (Field.type f) = None).
    { rewrite Forall_forall in Hp. apply Hp. now apply list_elem_of_In. }
    destruct (lookup_unrecognized_any f Ht Hf) as [H1 H2].
    repeat split; try assumption. now apply FormBuilder_unrecognized_any.
  - exact any_always_passes.
Qed.

(** ** Facts about parsing *)

Lemma check_resumes (c : Zod.Check) (v : Value) : Zod.aborted (Zod.check c v) = false.
Proof.
  destruct c; simpl.
  - destruct (lengthOf v); [destruct (Z.leb _ _)|]; reflexivity.
  - destruct (lengthOf v); [destruct (Z.leb _ _)|]; reflexivity.
  - destruct v; try reflexivity. destruct (pattern s); reflexivity.
  - destruct v; try reflexivity; destruct (Z.leb _ _); reflexivity.
  - destruct v; try reflexivity; destruct (Z.leb _ _); reflexivity.
  - destruct (fn v); reflexivity.
Qed.

Lemma aborted_app (a b : list Zod.Issue) :
  Zod.aborted (a ++ b)%list = (Zod.aborted a || Zod.aborted b)%bool.
Proof. unfold Zod.aborted. apply existsb_app. Qed.

Lemma runChecksFrom_cons (c : Zod.Check) (cs : list Zod.Check) (v : Value)
  (issues : list Zod.Issue) (isAborted : bool) :
  Zod.runChecksFrom (c :: cs) v issues isAborted
  = if match Zod.when c with Some w => w v | None => negb isAborted end
    then Zod.runChecksFrom cs v (issues ++ Zod.check c v)%list
           (isAborted || Zod.aborted (Zod.check c v))
    else Zod.runChecksFrom cs v issues isAborted.
Proof. reflexivity. Qed.

(** On a value that has a length and passed the type test every chained
    check runs, in order, whatever the checks before it found. *)
Lemma runChecksFrom_all (cs : list Zod.Check) (v : Value) (issues : list Zod.Issue) :
  (exists n, lengthOf v = Some n) ->
  Zod.runChecksFrom cs v issues false
  = (issues ++ flat_map (fun c => Zod.check c v) cs)%list.
Proof.
  intros [n Hn]. revert issues.
  induction cs as [|c cs IH]; intros issues.
  - simpl. now rewrite app_nil_r.
  - assert (Hrun : match Zod.when c with Some w => w v | None => negb false end = true).
    { destruct c; simpl; try reflexivity; now rewrite Hn. }
    rewrite runChecksFrom_cons, Hrun, check_resumes. simpl orb.
    rewrite IH. simpl flat_map. now rewrite <- app_assoc.
Qed.

Lemma parse_string (cs : list Zod.Check) (s : string) :
  Zod.parse (Zod.ZodString cs) (VString s)
  = flat_map (fun c => Zod.check c (VString s)) cs.
Proof.
  simpl. unfold Zod.runChecks. simpl.
  rewrite runChecksFrom_all; [reflexivity|]. now eexists.
Qed.

Lemma flat_map_check_resumes (cs : list Zod.Check) (v : Value) :
  Zod.aborted (flat_map (fun c => Zod.check c v) cs) = false.
Proof.
  induction cs as [|c cs IH]; simpl; [reflexivity|].
  now rewrite aborted_app, check_resumes, IH.
Qed.

(** [schema.optional().or(z.literal(''))] on a string: the empty string
    passes through the literal; any other string gets the checks of
    [schema]. *)
Lemma union_resumed (r : list Zod.Issue) :
  Zod.aborted r = false ->
  Zod.handleUnionResults [r; [Zod.valueIssue]] = r.
Proof.
  intros H. unfold Zod.handleUnionResults. simpl.
  destruct r as [|i r]; [reflexivity|]. simpl.
  simpl in H. now rewrite H.
Qed.

Lemma parse_optional_or_empty (cs : list Zod.Check) (s : string) :
  Zod.parse (Zod.or (Zod.optional (Zod.ZodString cs)) (Zod.z_literal "")) (VString s)
  = if String.eqb s "" then []
    else flat_map (fun c => Zod.check c (VString s)) cs.
Proof.
  unfold Zod.or, Zod.optional, Zod.z_literal.
  change (Zod.parse (Zod.ZodUnion [Zod.ZodOptional (Zod.ZodString cs); Zod.ZodLiteral ""])
            (VString s))
    with (Zod.handleUnionResults
            [Zod.parse (Zod.ZodString cs) (VString s);
             if String.eqb s "" then [] else [Zod.valueIssue]]).
  rewrite parse_string.
  destruct (String.eqb s "").
  - unfold Zod.handleUnionResults. simpl.
    destruct (flat_map _ cs); reflexivity.
  - apply union_resumed, flat_map_check_resumes.
Qed.

(** A list of strings passes the element test of [z.array(z.string())], so
    only the chained checks speak. *)
Lemma parse_string_array (cs : list Zod.Check) (l : list string) :
  Zod.parse (Zod.ZodArray Zod.z_string cs) (VArray (map VString l))
  = flat_map (fun c => Zod.check c (VArray (map VString l))) cs.
Proof.
  simpl.
  assert (He : forall (items : list string) (i : nat),
             (fix each (l0 : list Value) (i0 : nat) {struct l0} : list Zod.Issue :=
                match l0 with
                | [] => []
                | x :: l' =>
                    (map (Zod.prefix (Zod.Index i0)) (Zod.parse Zod.z_string x)
                     ++ each l' (S i0))%list
                end) (map VString items) i = []).
  { induction items as [|x items IH]; intros i; simpl; [reflexivity|]. apply IH. }
  rewrite He. unfold Zod.runChecks. simpl.
  rewrite runChecksFrom_all; [reflexivity|]. now eexists.
Qed.

(** ** Date fields *)

(** C2: with [minDate = 2024-01-01] and [maxDate = 2024-12-31] the date
    validators of ChecklistRender and of the form builder's viewer reject
    [2023-12-25] and [2025-01-01] and accept [2024-06-15]; the date
    validator of FormRender never reads the two bounds and accepts all
    three. *)
Theorem C2_FormRender_date_ignores_bounds :
  let v := FieldValidation.mk None None None None None None
             (Some "2024-01-01") (Some "2024-12-31") None None None None None in
  let f := descriptor (Some "d") "date" false (Some v) in
  let on schema s := Zod.messages (Zod.parse schema (VString s)) in
  (on (ChecklistRender.date f) "2023-12-25" = [Some "Date must be on or after 2024-01-01"]
   /\ on (ChecklistRender.date f) "2024-06-15" = []
   /\ on (ChecklistRender.date f) "2025-01-01" = [Some "Date must be on or before 2024-12-31"])
  /\ (on (FormBuilder.fieldSchema f) "2023-12-25" = [Some "Date must be on or after 2024-01-01"]
      /\ on (FormBuilder.fieldSchema f) "2024-06-15" = []
      /\ on (FormBuilder.fieldSchema f) "2025-01-01" = [Some "Date must be on or before 2024-12-31"])
  /\ (on (FormRender.date f) "2023-12-25" = []
      /\ on (FormRender.date f) "2024-06-15" = []
      /\ on (FormRender.date f) "2025-01-01" = []).
Proof. vm_compute. repeat split. Qed.

Lemma len_nonempty (s : string) : s <> "" -> Z.leb 1 (Str.len s) = true.
Proof.
  intros H. destruct s; [congruence|]. unfold Str.len. simpl String.length.
  apply Z.leb_le. lia.
Qed.

Lemma eqb_empty_false (s : string) : s <> "" -> String.eqb s "" = false.
Proof. intros H. now apply String.eqb_neq. Qed.

Lemma ChecklistRender_date_eq (f : Field.t) :
  ChecklistRender.date f
  = let v := Field.validationOrEmpty f in
    if Field.required f
    then Zod.ZodString
           (dateChecks v
            ++ [Zod.MinLength 1
                  (Some (orStr (FieldValidation.requiredMessage v)
                           "This field is required"))])%list
    else Zod.or (Zod.optional (Zod.ZodString (dateChecks v))) (Zod.z_literal "").
Proof.
  unfold ChecklistRender.date, dateChecks, ifStr.
  destruct (FieldValidation.minDate _) as [a|]; [destruct (String.eqb a "")|];
    (destruct (FieldValidation.maxDate _) as [b|]; [destruct (String.eqb b "")|]);
    destruct (Field.required f); reflexivity.
Qed.

Lemma dateChecks_messages (v : FieldValidation.t) (s : string) :
  s <> "" ->
  Zod.messages (flat_map (fun c => Zod.check c (VString s)) (dateChecks v))
  = dateMessages v s.
Proof.
  intros Hs. unfold dateChecks, dateMessages, ifStr.
  destruct (FieldValidation.minDate v) as [a|]; [destruct (String.eqb a "")|];
    (destruct (FieldValidation.maxDate v) as [b|]; [destruct (String.eqb b "")|]);
    simpl; unfold onOrAfter, onOrBefore; simpl;
    rewrite ?(eqb_empty_false s Hs); simpl;
    repeat match goal with |- context [String.leb ?x ?y] => destruct (String.leb x y) end;
    reflexivity.
Qed.

(** The date validator of ChecklistRender on a non-empty value: one
    message for a value lexically below [minDate], one for a value
    lexically above [maxDate], none for a value between them, required or
    not. *)
Lemma ChecklistRender_date_messages (f : Field.t) (s : string) :
  s <> "" ->
  Zod.messages (Zod.parse (ChecklistRender.date f) (VString s))
  = dateMessages (Field.validationOrEmpty f) s.
Proof.
  intros Hs. rewrite ChecklistRender_date_eq. cbv zeta.
  destruct (Field.required f).
  - rewrite parse_string, flat_map_app. simpl flat_map.
    rewrite len_nonempty by assumption. rewrite !app_nil_r.
    now apply dateChecks_messages.
  - rewrite parse_optional_or_empty, eqb_empty_false by assumption.
    now apply dateChecks_messages.
Qed.

(** The date validator of FormRender accepts every non-empty string. *)
Lemma FormRender_date_accepts (f : Field.t) (s : string) :
  s <> "" -> Zod.parse (FormRender.date f) (VString s) = [].
Proof.
  intros Hs. unfold FormRender.date. destruct (Field.required f).
  - change (Zod.min Zod.z_string 1 ?m) with (Zod.ZodString [Zod.MinLength 1 m]).
    rewrite parse_string. simpl flat_map.
    now rewrite len_nonempty.
  - change Zod.z_string with (Zod.ZodString []).
    now rewrite parse_optional_or_empty, eqb_empty_false.
Qed.

(** ** Checklist fields *)

Lemma lengthOf_selection (l : list string) :
  lengthOf (selection l) = Some (Z.of_nat (length l)).
Proof. unfold lengthOf, selection. simpl. now rewrite length_map. Qed.

Lemma parse_selection (cs : list Zod.Check) (l : list string) :
  Zod.parse (Zod.ZodArray Zod.z_string cs) (selection l)
  = flat_map (fun c => Zod.check c (selection l)) cs.
Proof. apply parse_string_array. Qed.

Ltac accepts_finish :=
  split;
  [ let Hp := fresh "Hp" in
    intros Hp;
    first
      [ discriminate Hp
      | split;
        [ lia
        | let k := fresh "k" in
          let Hk := fresh "Hk" in
          intros k Hk; first [discriminate Hk | injection Hk as <-; lia] ] ]
  | let Ha := fresh "Ha" in
    let Hb := fresh "Hb" in
    intros [Ha Hb];
    first
      [ reflexivity
      | exfalso; lia
      | exfalso; specialize (Hb _ eq_refl); lia ] ].

Ltac checklist_cases :=
  unfold effectiveMin, ifNum, ifDefined, nullish;
  repeat match goal with
         | |- context [FieldValidation.minSelections ?v] =>
             destruct (FieldValidation.minSelections v)
         | |- context [FieldValidation.maxSelections ?v] =>
             destruct (FieldValidation.maxSelections v)
         | |- context [Field.required ?f] => destruct (Field.required f)
         | |- context [Z.ltb ?a ?b] => destruct (Z.ltb_spec a b)
         | |- context [Z.eqb ?a ?b] => destruct (Z.eqb_spec a b)
         end;
  unfold Zod.z_array;
  cbn [Zod.min Zod.max Zod.addCheck app];
  rewrite parse_selection;
  cbn [flat_map Zod.check app];
  rewrite ?lengthOf_selection;
  repeat match goal with
         | |- context [Z.leb ?a ?b] => destruct (Z.leb_spec a b)
         end;
  cbn [app];
  accepts_finish.

(** Which selections the three checklist validators accept: at least the
    effective minimum, and at most [maxSelections] when it is set -- in
    ChecklistRender and FormRender only when it is set to a non-zero
    value. *)
Lemma ChecklistRender_checklist_accepts (f : Field.t) (l : list string) :
  Zod.parse (ChecklistRender.checklist f) (selection l) = []
  <-> effectiveMin f <= Z.of_nat (length l)
      /\ (forall n, FieldValidation.maxSelections (Field.validationOrEmpty f) = Some n ->
          n <> 0 -> Z.of_nat (length l) <= n).
Proof.
  unfold ChecklistRender.checklist. checklist_cases.
Qed.

Lemma FormRender_checklist_accepts (f : Field.t) (l : list string) :
  Zod.parse (FormRender.checklist f) (selection l) = []
  <-> effectiveMin f <= Z.of_nat (length l)
      /\ (forall n, FieldValidation.maxSelections (Field.validationOrEmpty f) = Some n ->
          n <> 0 -> Z.of_nat (length l) <= n).
Proof.
  unfold FormRender.checklist. checklist_cases.
Qed.

Lemma FormBuilder_checklist_accepts (f : Field.t) (l : list string) :
  Zod.parse (FormBuilder.caseChecklist f) (selection l) = []
  <-> effectiveMin f <= Z.of_nat (length l)
      /\ (forall n, FieldValidation.maxSelections (Field.validationOrEmpty f) = Some n ->
          Z.of_nat (length l) <= n).
Proof.
  unfold FormBuilder.caseChecklist.
  unfold effectiveMin, ifDefined, nullish;
  repeat match goal with
         | |- context [FieldValidation.minSelections ?v] =>
             destruct (FieldValidation.minSelections v)
         | |- context [FieldValidation.maxSelections ?v] =>
             destruct (FieldValidation.maxSelections v)
         | |- context [Field.required ?f] => destruct (Field.required f)
         | |- context [Z.ltb ?a ?b] => destruct (Z.ltb_spec a b)
         end;
  unfold Zod.z_array;
  cbn [Zod.min Zod.max Zod.addCheck app];
  rewrite parse_selection;
  cbn [flat_map Zod.check app];
  rewrite ?lengthOf_selection;
  repeat match goal with
         | |- context [Z.leb ?a ?b] => destruct (Z.leb_spec a b)
         end;
  cbn [app];
  accepts_finish.
Qed.

(** A required checklist field without [minSelections] rejects the empty
    selection and accepts a selection of one option, unless [maxSelections]
    forbids even that. *)
Lemma required_checklist_zero_one (f : Field.t) (x : string) :
  Field.required f = true ->
  FieldValidation.minSelections (Field.validationOrEmpty f) = None ->
  (forall n, FieldValidation.maxSelections (Field.validationOrEmpty f) = Some n ->
             n <> 0 -> 1 <= n) ->
  (Zod.parse (ChecklistRender.checklist f) (selection []) <> []
   /\ Zod.parse (ChecklistRender.checklist f) (selection [x]) = [])
  /\ (Zod.parse (FormRender.checklist f) (selection []) <> []
      /\ Zod.parse (FormRender.checklist f) (selection [x]) = []).
Proof.
  intros Hr Hm Hmax.
  assert (He : effectiveMin f = 1) by (unfold effectiveMin; now rewrite Hm, Hr).
  repeat split.
  - rewrite ChecklistRender_checklist_accepts, He. simpl. lia.
  - apply ChecklistRender_checklist_accepts. rewrite He. simpl. split; [lia|].
    intros n Hn Hz. specialize (Hmax n Hn Hz). lia.
  - rewrite FormRender_checklist_accepts, He. simpl. lia.
  - apply FormRender_checklist_accepts. rewrite He. simpl. split; [lia|].
    intros n Hn Hz. specialize (Hmax n Hn Hz). lia.
Qed.

(** C5: a [maxSelections] of 0 is not enforced.  ChecklistRender and
    FormRender add the upper bound only under [if (v.maxSelections)], so a
    checklist field with [maxSelections = 0] accepts every selection, one
    of a single option included, although it is longer than
    [maxSelections]; the viewer of the form builder, which tests
    [!== undefined], accepts the empty selection only and rejects the
    selection of one option with its message. *)
Theorem C5_zero_maximum_not_enforced :
  let v := FieldValidation.mk None None None None None None None None None
             None (Some 0) None None in
  let f := descriptor (Some "c") "checklist" false (Some v) in
  (compiledBy ChecklistRender.buildField f (ChecklistRender.checklist f)
   /\ forall l, Zod.parse (ChecklistRender.checklist f) (selection l) = [])
  /\ (compiledBy FormRender.buildField f (FormRender.checklist f)
      /\ forall l, Zod.parse (FormRender.checklist f) (selection l) = [])
  /\ (forall l, Zod.parse (FormBuilder.fieldSchema f) (selection l) = [] <-> l = [])
  /\ Zod.messages (Zod.parse (FormBuilder.fieldSchema f) (selection ["a"]))
     = [Some "Select at most 0 option(s)"].
Proof.
  intros v f.
  assert (Hmin : effectiveMin f = 0) by reflexivity.
  assert (Hmax : FieldValidation.maxSelections (Field.validationOrEmpty f) = Some 0)
    by reflexivity.
  split; [|split; [|split]].
  - split; [reflexivity|]. intros l. apply ChecklistRender_checklist_accepts.
    rewrite Hmin, Hmax. split; [lia|]. intros n [= <-] Hn. now destruct Hn.
  - split; [reflexivity|]. intros l. apply FormRender_checklist_accepts.
    rewrite Hmin, Hmax. split; [lia|]. intros n [= <-] Hn. now destruct Hn.
  - intros l. change (FormBuilder.fieldSchema f) with (FormBuilder.caseChecklist f).
    rewrite FormBuilder_checklist_accepts, Hmin, Hmax. split.
    + intros [_ H]. specialize (H 0 eq_refl). destruct l; [reflexivity|].
      simpl in H. lia.
    + intros ->. split; [simpl; lia|]. intros n [= <-]. simpl. lia.
  - now vm_compute.
Qed.

(** What ChecklistRender and FormRender do enforce: a selection passes
    exactly when it has at least the effective minimum of options --
    [minSelections] when set, else 1 when the field is required, else 0 --
    and, when [maxSelections] is set to a non-zero value, at most that
    many.  In particular a required field without [minSelections] fails on
    the empty selection and passes on a selection of one option, for a
    [maxSelections] that is not negative. *)
Lemma selection_bounds_enforced (f : Field.t) (l : list string) :
  Field.type f = "checklist" ->
  (forall n, FieldValidation.maxSelections (Field.validationOrEmpty f) = Some n ->
             0 <= n) ->
  let accepted :=
    effectiveMin f <= Z.of_nat (length l)
    /\ (forall n, FieldValidation.maxSelections (Field.validationOrEmpty f) = Some n ->
        n <> 0 -> Z.of_nat (length l) <= n) in
  let zeroOne schema :=
    Field.required f = true ->
    FieldValidation.minSelections (Field.validationOrEmpty f) = None ->
    Zod.parse schema (selection []) <> []
    /\ (forall x, Zod.parse schema (selection [x]) = []) in
  (exists schema,
      compiledBy ChecklistRender.buildField f schema
      /\ (Zod.parse schema (selection l) = [] <-> accepted)
      /\ zeroOne schema)
  /\ (exists schema,
         compiledBy FormRender.buildField f schema
         /\ (Zod.parse schema (selection l) = [] <-> accepted)
         /\ zeroOne schema).
Proof.
  intros Ht Hnn accepted zeroOne.
  assert (Hone : forall n,
             FieldValidation.maxSelections (Field.validationOrEmpty f) = Some n ->
             n <> 0 -> 1 <= n).
  { intros n Hn Hz. specialize (Hnn n Hn). lia. }
  split.
  - exists (ChecklistRender.checklist f). split.
    + unfold compiledBy, ChecklistRender.buildField, lookup,
        ChecklistRender.schemaBuilders. now rewrite Ht.
    + split; [apply ChecklistRender_checklist_accepts|].
      intros Hr Hm. split.
      * apply (required_checklist_zero_one f "" Hr Hm Hone).
      * intros x. apply (required_checklist_zero_one f x Hr Hm Hone).
  - exists (FormRender.checklist f). split.
    + unfold compiledBy, FormRender.buildField, lookup,
        FormRender.schemaBuilders. now rewrite Ht.
    + split; [apply FormRender_checklist_accepts|].
      intros Hr Hm. split.
      * apply (required_checklist_zero_one f "" Hr Hm Hone).
      * intros x. apply (required_checklist_zero_one f x Hr Hm Hone).
Qed.

(** ** E-mail fields *)





(** ** Required fields on the empty string *)

Lemma email_rejects_empty : Zod.emailPattern "" = false.
Proof. now vm_compute. Qed.

Lemma phone_rejects_empty : Regex.test phoneRegex "" = false.
Proof. now vm_compute. Qed.

Lemma lengthOf_empty : lengthOf (VString "") = Some 0.
Proof. reflexivity. Qed.

Lemma onOrAfter_empty (d : string) : onOrAfter d (VString "") = true.
Proof. reflexivity. Qed.

Lemma onOrBefore_empty (d : string) : onOrBefore d (VString "") = true.
Proof. reflexivity. Qed.

Ltac on_empty :=
  unfold ifNum, ifStr;
  repeat match goal with
         | |- context [FieldValidation.minLength ?v] =>
             destruct (FieldValidation.minLength v)
         | |- context [FieldValidation.maxLength ?v] =>
             destruct (FieldValidation.maxLength v)
         | |- context [FieldValidation.minDate ?v] =>
             destruct (FieldValidation.minDate v)
         | |- context [FieldValidation.maxDate ?v] =>
             destruct (FieldValidation.maxDate v)
         | |- context [Z.eqb ?a ?b] => destruct (Z.eqb_spec a b)
         | |- context [String.eqb ?a ""] => destruct (String.eqb a "")
         end;
  unfold Zod.z_string, Zod.email, Zod.regex, Zod.refine;
  cbn [Zod.min Zod.max Zod.addCheck app];
  rewrite parse_string;
  cbn [flat_map Zod.check app];
  rewrite ?lengthOf_empty, ?email_rejects_empty, ?phone_rejects_empty,
    ?onOrAfter_empty, ?onOrBefore_empty;
  repeat match goal with
         | |- context [Z.leb ?a ?b] => destruct (Z.leb_spec a b)
         end;
  cbn [app Zod.messages map Zod.message Zod.checkIssue].


Ltac sole_finish :=
  first
    [ exfalso; lia
    | split;
      [ simpl; tauto
      | let Hl := fresh "Hl" in
        intros Hl;
        first
          [ reflexivity
          | exfalso; revert Hl;
            repeat match goal with
                   | |- context [Z.ltb ?a ?b] => destruct (Z.ltb_spec a b)
                   end;
            simpl; intros; try discriminate; lia ] ] ].

Lemma ChecklistRender_text_on_empty (f : Field.t) :
  Field.required f = true ->
  let ms := Zod.messages (Zod.parse (ChecklistRender.getStringSchema f) (VString "")) in
  In (Some (requiredText "This field is required" f)) ms
  /\ (lengthRuleHitsEmpty (Field.validationOrEmpty f) = false ->
      ms = [Some (requiredText "This field is required" f)]).
Proof.
  intros Hr. unfold ChecklistRender.getStringSchema, requiredText, lengthRuleHitsEmpty.
  rewrite Hr. cbv zeta. on_empty; sole_finish.
Qed.

Lemma FormRender_text_on_empty (f : Field.t) :
  Field.required f = true ->
  let ms := Zod.messages (Zod.parse (FormRender.getStringSchema f) (VString "")) in
  In (Some (requiredText "This field is required." f)) ms
  /\ (lengthRuleHitsEmpty (Field.validationOrEmpty f) = false ->
      ms = [Some (requiredText "This field is required." f)]).
Proof.
  intros Hr. unfold FormRender.getStringSchema, requiredText, lengthRuleHitsEmpty.
  rewrite Hr. cbv zeta. on_empty; sole_finish.
Qed.

Lemma ChecklistRender_format_on_empty (f : Field.t) :
  Field.required f = true ->
  In (Some (requiredText "This field is required" f))
    (Zod.messages (Zod.parse (ChecklistRender.email f) (VString "")))
  /\ In (Some (requiredText "This field is required" f))
       (Zod.messages (Zod.parse (ChecklistRender.phone f) (VString ""))).
Proof.
  intros Hr. unfold ChecklistRender.email, ChecklistRender.phone, requiredText.
  rewrite Hr. cbv zeta. split; on_empty; first [exfalso; lia | simpl; tauto].
Qed.

Lemma FormRender_format_on_empty (f : Field.t) :
  Field.required f = true ->
  In (Some (requiredText "This field is required." f))
    (Zod.messages (Zod.parse (FormRender.email f) (VString "")))
  /\ In (Some (requiredText "This field is required." f))
       (Zod.messages (Zod.parse (FormRender.phone f) (VString ""))).
Proof.
  intros Hr. unfold FormRender.email, FormRender.phone, requiredText.
  rewrite Hr. cbv zeta. split; on_empty; first [exfalso; lia | simpl; tauto].
Qed.

Lemma date_on_empty (f : Field.t) :
  Field.required f = true ->
  onlyRequired (ChecklistRender.date f) (requiredText "This field is required" f)
  /\ onlyRequired (FormRender.date f) (requiredText "This field is required." f).
Proof.
  intros Hr. unfold onlyRequired, ChecklistRender.date, FormRender.date, requiredText.
  rewrite Hr. cbv zeta. split; on_empty; first [exfalso; lia | reflexivity].
Qed.

Lemma choice_on_empty (f : Field.t) :
  Field.required f = true ->
  onlyRequired (ChecklistRender.radio f) (requiredText "Please select an option" f)
  /\ onlyRequired (FormRender.radio f) (requiredText "Select an option" f).
Proof.
  intros Hr. unfold onlyRequired, ChecklistRender.radio, FormRender.radio, requiredText.
  rewrite Hr. cbv zeta. split; on_empty; first [exfalso; lia | reflexivity].
Qed.

Ltac closed_tags :=
  cbn [String.eqb Ascii.eqb Bool.eqb orb andb negb].

Ltac compiled Ht :=
  unfold compiledBy, ChecklistRender.buildField, FormRender.buildField, lookup,
    ChecklistRender.schemaBuilders, FormRender.schemaBuilders;
  rewrite <- Ht; reflexivity.

(** What does hold of the required message: for every field of one of
    the seven types with [required = true], in ChecklistRender and in
    FormRender, the empty string fails and the required message -- the
    custom [requiredMessage] when it is a non-empty string, else the
    default of the type -- is among the messages reported; it is the only
    message for date, radio and select fields and for text and textarea
    fields without a length rule that the empty string breaks. *)
Lemma required_among_messages (f : Field.t) :
  Field.required f = true ->
  In (Field.type f) textLike ->
  (exists schema,
      compiledBy ChecklistRender.buildField f schema
      /\ In (Some (requiredText (ChecklistRender_requiredDefault (Field.type f)) f))
           (Zod.messages (Zod.parse schema (VString "")))
      /\ (soleRule f = true ->
          onlyRequired schema
            (requiredText (ChecklistRender_requiredDefault (Field.type f)) f)))
  /\ (exists schema,
         compiledBy FormRender.buildField f schema
         /\ In (Some (requiredText (FormRender_requiredDefault (Field.type f)) f))
              (Zod.messages (Zod.parse schema (VString "")))
         /\ (soleRule f = true ->
             onlyRequired schema
               (requiredText (FormRender_requiredDefault (Field.type f)) f))).
Proof.
  intros Hr Hin. unfold textLike in Hin. simpl in Hin.
  unfold soleRule, ChecklistRender_requiredDefault, FormRender_requiredDefault,
    isChoice.
  destruct Hin as [Ht|[Ht|[Ht|[Ht|[Ht|[Ht|[Ht|[]]]]]]]]; rewrite <- Ht; closed_tags.
  - destruct (ChecklistRender_text_on_empty f Hr) as [A B].
    destruct (FormRender_text_on_empty f Hr) as [C D].
    split; [exists (ChecklistRender.getStringSchema f) | exists (FormRender.getStringSchema f)];
      (split; [compiled Ht|]); split; try assumption; intros Hs;
      apply negb_true_iff in Hs; unfold onlyRequired; auto.
  - destruct (ChecklistRender_text_on_empty f Hr) as [A B].
    destruct (FormRender_text_on_empty f Hr) as [C D].
    split; [exists (ChecklistRender.getStringSchema f) | exists (FormRender.getStringSchema f)];
      (split; [compiled Ht|]); split; try assumption; intros Hs;
      apply negb_true_iff in Hs; unfold onlyRequired; auto.
  - destruct (ChecklistRender_format_on_empty f Hr) as [A _].
    destruct (FormRender_format_on_empty f Hr) as [C _].
    split; [exists (ChecklistRender.email f) | exists (FormRender.email f)];
      (split; [compiled Ht|]); split; try assumption; discriminate.
  - destruct (ChecklistRender_format_on_empty f Hr) as [_ A].
    destruct (FormRender_format_on_empty f Hr) as [_ C].
    split; [exists (ChecklistRender.phone f) | exists (FormRender.phone f)];
      (split; [compiled Ht|]); split; try assumption; discriminate.
  - destruct (date_on_empty f Hr) as [A C].
    split; [exists (ChecklistRender.date f) | exists (FormRender.date f)];
      (split; [compiled Ht|]); split; try (intros _; assumption);
      [rewrite A | rewrite C]; now left.
  - destruct (choice_on_empty f Hr) as [A C].
    split; [exists (ChecklistRender.radio f) | exists (FormRender.radio f)];
      (split; [compiled Ht|]); split; try (intros _; assumption);
      [rewrite A | rewrite C]; now left.
  - destruct (choice_on_empty f Hr) as [A C].
    split; [exists (ChecklistRender.select f) | exists (FormRender.select f)];
      (split; [compiled Ht|]); split; try (intros _; assumption);
      [rewrite A | rewrite C]; now left.
Qed.

(** C1: on the empty string the required message is not the only message
    and not the first.  The builders of ChecklistRender and the cases of
    the form builder's viewer chain the required check [.min(1, ...)]
    after the length and format checks, and Zod reports the issues in the
    order of the chain: a required text field with [minLength = 5]
    reports the length message first in the three compilers, and a
    required e-mail or phone field reports its format message first in
    ChecklistRender and in the viewer.  FormRender chains the required
    check first for e-mail and phone, and there the required message comes
    first. *)
Theorem C1_required_message_not_first :
  let v := FieldValidation.mk (Some 5) None None None None None None None None
             None None None None in
  let t := descriptor (Some "t") "text" true (Some v) in
  let e := descriptor (Some "e") "email" true None in
  let p := descriptor (Some "p") "phone" true None in
  let reported schema := Zod.messages (Zod.parse schema (VString "")) in
  ((compiledBy ChecklistRender.buildField t (ChecklistRender.getStringSchema t)
    /\ reported (ChecklistRender.getStringSchema t)
       = [Some "Minimum 5 characters"; Some "This field is required"])
   /\ (compiledBy FormRender.buildField t (FormRender.getStringSchema t)
       /\ reported (FormRender.getStringSchema t)
          = [Some "Minimum 5 characters"; Some "This field is required."])
   /\ reported (FormBuilder.fieldSchema t)
      = [Some "Minimum 5 characters required"; Some "This field is required"])
  /\ ((compiledBy ChecklistRender.buildField e (ChecklistRender.email e)
       /\ reported (ChecklistRender.email e)
          = [Some "Invalid email address"; Some "This field is required"])
      /\ reported (FormBuilder.fieldSchema e)
         = [Some "Invalid email address"; Some "This field is required"]
      /\ (compiledBy FormRender.buildField e (FormRender.email e)
          /\ reported (FormRender.email e)
             = [Some "This field is required."; Some "Invalid email"]))
  /\ ((compiledBy ChecklistRender.buildField p (ChecklistRender.phone p)
       /\ reported (ChecklistRender.phone p)
          = [Some "Invalid phone number"; Some "This field is required"])
      /\ reported (FormBuilder.fieldSchema p)
         = [Some "Invalid phone number"; Some "This field is required"]
      /\ (compiledBy FormRender.buildField p (FormRender.phone p)
          /\ reported (FormRender.phone p)
             = [Some "This field is required."; Some "Invalid phone"])).
Proof.
  intros v t e p reported. unfold reported, compiledBy.
  repeat match goal with |- _ /\ _ => split end;
    lazymatch goal with
    | |- Zod.messages _ = _ => vm_compute; reflexivity
    | |- _ => reflexivity
    end.
Qed.

(** ** The entries of a compiled object *)

Lemma lookup_assign {A : Type} (shape : gmap string A) (i k : string) (e : A) :
  assign shape i e !! k
  = if String.eqb i "__proto__" then shape !! k
    else if String.eqb i k then Some e else shape !! k.
Proof.
  unfold assign. destruct (String.eqb i "__proto__"); [reflexivity|].
  destruct (String.eqb_spec i k) as [->|Hne].
  - apply lookup_insert_eq.
  - now apply lookup_insert_ne.
Qed.

Section Entries.

Variable buildField : Field.t -> Completion Zod.Entry.

Lemma buildShapeWith_lookup (fields : list Field.t) (k : string) :
  forall shape0 shape,
    buildShapeWith buildField fields shape0 = Normal shape ->
    shape !! k
    = match (if keyed k then lastWithId k fields else None) with
      | Some f => entryOf (buildField f)
      | None => shape0 !! k
      end.
Proof.
  induction fields as [|f rest IH]; intros shape0 shape Hb; simpl in Hb.
  - injection Hb as <-. simpl. now destruct (keyed k).
  - simpl lastWithId. unfold idIs.
    destruct (Field.id f) as [i|].
    + destruct (String.eqb_spec i "") as [E|Hi].
      * subst i. rewrite (IH _ _ Hb).
        destruct (keyed k) eqn:Hk; [|reflexivity].
        destruct (lastWithId k rest); [reflexivity|].
        destruct (String.eqb_spec "" k) as [<-|_]; [discriminate Hk|reflexivity].
      * destruct (buildField f) as [e|err] eqn:Hf; [|discriminate Hb].
        rewrite (IH _ _ Hb). rewrite lookup_assign.
        destruct (keyed k) eqn:Hk.
        -- destruct (lastWithId k rest); [reflexivity|].
           destruct (String.eqb_spec i k) as [->|Hne].
           ++ unfold keyed in Hk. apply andb_true_iff in Hk. destruct Hk as [_ Hk].
              apply negb_true_iff in Hk. rewrite Hk, Hf. reflexivity.
           ++ now destruct (String.eqb i "__proto__").
        -- destruct (String.eqb_spec i "__proto__") as [->|Hp]; [reflexivity|].
           destruct (String.eqb_spec i k) as [->|Hne]; [|reflexivity].
           unfold keyed in Hk.
           apply eqb_empty_false in Hi. apply String.eqb_neq in Hp.
           rewrite Hi, Hp in Hk. discriminate Hk.
    + rewrite (IH _ _ Hb).
      destruct (keyed k); [|reflexivity].
      now destruct (lastWithId k rest).
Qed.

Lemma buildShapeWith_entries (fields : list Field.t) (shape : gmap string Zod.Entry)
  (k : string) :
  buildShapeWith buildField fields ∅ = Normal shape ->
  shape !! k = expectedEntry buildField fields k.
Proof.
  intros Hb. rewrite (buildShapeWith_lookup fields k _ _ Hb).
  unfold expectedEntry. destruct (keyed k); [|apply lookup_empty].
  destruct (lastWithId k fields); [reflexivity|apply lookup_empty].
Qed.

End Entries.

Lemma ChecklistRender_buildShape_eq (fields : list Field.t) (shape : gmap string Zod.Entry) :
  ChecklistRender.buildShape fields shape
  = buildShapeWith ChecklistRender.buildField fields shape.
Proof.
  revert shape. induction fields as [|f rest IH]; intros shape; simpl; [reflexivity|].
  destruct (Field.id f) as [i|]; [|apply IH].
  destruct (String.eqb i ""); [apply IH|].
  destruct (ChecklistRender.buildField f); [apply IH|reflexivity].
Qed.

Lemma FormRender_buildShape_eq (fields : list Field.t) (shape : gmap string Zod.Entry) :
  FormRender.buildShape fields shape
  = buildShapeWith FormRender.buildField fields shape.
Proof.
  revert shape. induction fields as [|f rest IH]; intros shape; simpl; [reflexivity|].
  destruct (Field.id f) as [i|]; [|apply IH].
  destruct (String.eqb i ""); [apply IH|].
  destruct (FormRender.buildField f); [apply IH|reflexivity].
Qed.

Lemma FormBuilder_buildShape_eq (fields : list Field.t) (shape : gmap string Zod.Entry) :
  Normal (FormBuilder.buildShape fields shape)
  = buildShapeWith (fun f => Normal (Zod.Validator (FormBuilder.fieldSchema f)))
      fields shape.
Proof.
  revert shape. induction fields as [|f rest IH]; intros shape; simpl; [reflexivity|].
  destruct (Field.id f) as [i|]; [|apply IH].
  destruct (String.eqb i ""); apply IH.
Qed.

(** A live value under a key that has no entry does not reach the
    validator: the parse is the same with and without it. *)
Lemma parseObject_ignores (shape : gmap string Zod.Entry) (values : gmap string Value)
  (k : string) (x : Value) :
  shape !! k = None ->
  Zod.parseObject shape (<[k := x]> values) = Zod.parseObject shape values.
Proof.
  intros Hk. unfold Zod.parseObject.
  destruct (forallb _ (map_to_list shape)); [|reflexivity].
  f_equal. apply map_eq. intros i. rewrite !map_lookup_imap.
  destruct (shape !! i) as [e|] eqn:Hi; [|reflexivity]. simpl.
  destruct (String.eqb_spec i k) as [->|Hne]; [congruence|].
  unfold Zod.parseEntry. destruct e; [|reflexivity].
  rewrite lookup_insert_ne by congruence. reflexivity.
Qed.

Lemma parseObject_no_issue (shape : gmap string Zod.Entry) (values : gmap string Value)
  (k : string) (issues : gmap string (list Zod.Issue)) :
  shape !! k = None ->
  Zod.parseObject shape values = Normal issues ->
  issues !! k = None.
Proof.
  intros Hk. unfold Zod.parseObject.
  destruct (forallb _ (map_to_list shape)); [|discriminate].
  intros H. injection H as <-. rewrite map_lookup_imap, Hk. reflexivity.
Qed.

(** Under every key [k] the compiled object holds the validator built from
    the last field whose id is [k] when [k] is a non-empty string other
    than [__proto__], and nothing otherwise -- in the form builder's viewer
    for every field list, in ChecklistRender and FormRender for every field
    list on which compilation returns.  So a field whose id is missing or
    empty contributes no entry, a later field overwrites an earlier one
    with the same id, and a live value under a key without an entry does
    not change the outcome of validation. *)
Lemma compiled_entries (fields : list Field.t) (k : string) :
  FormBuilder.buildZodSchema fields !! k
  = expectedEntry (fun f => Normal (Zod.Validator (FormBuilder.fieldSchema f))) fields k
  /\ (forall shape, ChecklistRender.buildZodSchema fields = Normal shape ->
      shape !! k = expectedEntry ChecklistRender.buildField fields k)
  /\ (forall shape, FormRender.buildZodSchema fields = Normal shape ->
      shape !! k = expectedEntry FormRender.buildField fields k)
  /\ (forall shape values x, shape !! k = None ->
      Zod.parseObject shape (<[k := x]> values) = Zod.parseObject shape values).
Proof.
  repeat split.
  - apply buildShapeWith_entries. unfold FormBuilder.buildZodSchema.
    symmetry. apply FormBuilder_buildShape_eq.
  - intros shape H. apply buildShapeWith_entries.
    now rewrite <- ChecklistRender_buildShape_eq.
  - intros shape H. apply buildShapeWith_entries.
    now rewrite <- FormRender_buildShape_eq.
  - intros shape values x H. now apply parseObject_ignores.
Qed.

Example compiled_entries_overwrite :
  let a := descriptor (Some "a") "text" true None in
  let b := descriptor (Some "") "text" true None in
  let c := descriptor None "text" true None in
  let a' := descriptor (Some "a") "checkbox" false None in
  exists shape,
    ChecklistRender.buildZodSchema [a; b; c; a'] = Normal shape
    /\ shape !! "a" = Some (Zod.Validator (ChecklistRender.checkbox a'))
    /\ shape !! "" = None.
Proof.
  intros a b c a'.
  set (shape :=
         <["a" := Zod.Validator (ChecklistRender.checkbox a')]>
           (<["a" := Zod.Validator (ChecklistRender.getStringSchema a)]>
              (∅ : gmap string Zod.Entry))).
  assert (H : ChecklistRender.buildZodSchema [a; b; c; a'] = Normal shape)
    by reflexivity.
  exists shape. split; [exact H|]. split.
  - destruct (compiled_entries [a; b; c; a'] "a") as [_ [Hc _]].
    exact (Hc shape H).
  - destruct (compiled_entries [a; b; c; a'] "") as [_ [Hc _]].
    exact (Hc shape H).
Qed.

(** C10: a required text field whose id is [__proto__] -- a non-empty
    string -- gets no entry: the assignment [shape[id] = validator] runs
    the inherited setter and creates no own property, so the three
    compilers return an object without a validator for the field, and the
    empty string under that key passes validation. *)
Theorem C10_proto_id_gets_no_entry :
  let f := descriptor (Some "__proto__") "text" true None in
  let values : gmap string Value := <["__proto__" := VString ""]> ∅ in
  FormBuilder.buildZodSchema [f] = ∅
  /\ ChecklistRender.buildZodSchema [f] = Normal ∅
  /\ FormRender.buildZodSchema [f] = Normal ∅
  /\ Zod.parseObject ∅ values = Normal ∅.
Proof. intros f values. repeat split. Qed.

(** ** Further facts on the sibling compilers *)

(** The date and e-mail cases of the form builder's viewer are the builders
    of ChecklistRender. *)
Lemma FormBuilder_date_is_ChecklistRender (f : Field.t) :
  FormBuilder.caseDate f = ChecklistRender.date f
  /\ FormBuilder.caseEmail f = ChecklistRender.email f.
Proof. split; reflexivity. Qed.

Lemma FormBuilder_date (f : Field.t) :
  Field.type f = "date" -> FormBuilder.fieldSchema f = ChecklistRender.date f.
Proof.
  intros Ht. unfold FormBuilder.fieldSchema, FormBuilder.hasType.
  now rewrite Ht.
Qed.

(** On the type tag [toString] the lookup of ChecklistRender and FormRender
    finds an inherited method that returns a string: compilation returns,
    but the object holds something that is no validator and every parse
    throws. *)
Lemma inherited_method_tag_breaks_validation (values : gmap string Value) :
  let f := descriptor (Some "f1") "toString" false None in
  exists shape,
    ChecklistRender.buildZodSchema [f] = Normal shape
    /\ FormRender.buildZodSchema [f] = Normal shape
    /\ Zod.parseObject shape values = Throw TypeError.
Proof.
  intros f. exists (<["f1" := Zod.NotAValidator]> ∅).
  repeat split.
Qed.

(** An entry that is the always-pass validator never reports an issue,
    whatever the live value under its key. *)
Lemma any_entry_never_fails (values : gmap string Value) (k : string) :
  Zod.parseEntry values k (Zod.Validator Zod.z_any) = [].
Proof. reflexivity. Qed.

(** * Further properties

    Properties of the code next to the one above: the other operations of
    the stores, the accepting paths of the file widgets and their validators,
    the number, checkbox and text validators, the phone pattern and the
    phone inputs, and the handlers of the builders. *)

(** ** The stores: deleting, other ids, order *)

Lemma getForms_setItem (w : Storage.World) (docs : list Document.t) :
  FormStore.getForms (Storage.setItem w FormStore.STORAGE_KEY (Storage.JSON_stringify docs))
  = (docs, Storage.setItem w FormStore.STORAGE_KEY (Storage.JSON_stringify docs)).
Proof.
  unfold FormStore.getForms, Storage.getItem, Storage.setItem. simpl.
  now rewrite lookup_insert_eq.
Qed.

Lemma getChecklists_setItem (w : Storage.World) (docs : list Document.t) :
  ChecklistStore.getChecklists
    (Storage.setItem w ChecklistStore.STORAGE_KEY (Storage.JSON_stringify docs))
  = (docs, Storage.setItem w ChecklistStore.STORAGE_KEY (Storage.JSON_stringify docs)).
Proof.
  unfold ChecklistStore.getChecklists, Storage.getItem, Storage.setItem. simpl.
  now rewrite lookup_insert_eq.
Qed.

Lemma getForms_deleteForm (k : string) (w : Storage.World) :
  fst (FormStore.getForms (FormStore.deleteForm k w))
  = without_id k (fst (FormStore.getForms w)).
Proof.
  unfold FormStore.deleteForm.
  destruct (FormStore.getForms w) as [forms w'] eqn:E.
  now rewrite getForms_setItem.
Qed.

Lemma getChecklists_deleteChecklist (k : string) (w : Storage.World) :
  fst (ChecklistStore.getChecklists (ChecklistStore.deleteChecklist k w))
  = without_id k (fst (ChecklistStore.getChecklists w)).
Proof.
  unfold ChecklistStore.deleteChecklist.
  destruct (ChecklistStore.getChecklists w) as [forms w'] eqn:E.
  now rewrite getChecklists_setItem.
Qed.

Lemma getForm_fst (k : string) (w : Storage.World) :
  fst (FormStore.getForm k w)
  = List.find (fun f => String.eqb (Document.id f) k) (fst (FormStore.getForms w)).
Proof. unfold FormStore.getForm. now destruct (FormStore.getForms w). Qed.

Lemma getChecklist_fst (k : string) (w : Storage.World) :
  fst (ChecklistStore.getChecklist k w)
  = List.find (fun f => String.eqb (Document.id f) k)
      (fst (ChecklistStore.getChecklists w)).
Proof.
  unfold ChecklistStore.getChecklist. now destruct (ChecklistStore.getChecklists w).
Qed.

Lemma find_without_id (k j : string) (docs : list Document.t) :
  List.find (fun f => String.eqb (Document.id f) j) (without_id k docs)
  = if String.eqb j k then None
    else List.find (fun f => String.eqb (Document.id f) j) docs.
Proof.
  induction docs as [|d docs IH]; simpl.
  - now destruct (String.eqb j k).
  - destruct (String.eqb_spec (Document.id d) k) as [E|E]; simpl.
    + rewrite IH. destruct (String.eqb_spec j k) as [->|N]; [reflexivity|].
      destruct (String.eqb_spec (Document.id d) j) as [E'|_]; [congruence|reflexivity].
    + destruct (String.eqb_spec (Document.id d) j) as [E'|E'].
      * destruct (String.eqb_spec j k) as [->|N]; [congruence|reflexivity].
      * apply IH.
Qed.

(** X1: in every state of the store, after [deleteForm k] a load by [k]
    finds nothing and a load by any other id finds what it found before;
    the list a list page shows after [handleDelete] is the stored list
    without the documents whose id is [k], in their order.  The same for
    checklists. *)
Theorem X1_delete_then_load (k j : string) (w : Storage.World) :
  (fst (FormStore.getForm j (FormStore.deleteForm k w))
   = (if String.eqb j k then None else fst (FormStore.getForm j w))
   /\ fst (FormList.handleDelete k w) = without_id k (fst (FormStore.getForms w)))
  /\ (fst (ChecklistStore.getChecklist j (ChecklistStore.deleteChecklist k w))
      = (if String.eqb j k then None else fst (ChecklistStore.getChecklist j w))
      /\ fst (ChecklistList.handleDelete k w)
         = without_id k (fst (ChecklistStore.getChecklists w))).
Proof.
  repeat split.
  - rewrite !getForm_fst, getForms_deleteForm. apply find_without_id.
  - apply getForms_deleteForm.
  - rewrite !getChecklist_fst, getChecklists_deleteChecklist. apply find_without_id.
  - apply getChecklists_deleteChecklist.
Qed.

Lemma find_insert_other {A : Type} (p : A -> bool) (l : list A) (i : nat) (d x : A) :
  l !! i = Some x -> p x = false -> p d = false ->
  List.find p (<[i := d]> l) = List.find p l.
Proof.
  revert i. induction l as [|y l IH]; intros i Hi Hx Hd; [discriminate|].
  destruct i as [|i]; simpl in *.
  - injection Hi as ->. now rewrite Hx, Hd.
  - destruct (p y); [reflexivity|]. now apply IH.
Qed.

Lemma findIndex_lookup {A : Type} (p : A -> bool) (l : list A) (i : nat) :
  Storage.findIndex p l = Some i -> exists x, l !! i = Some x /\ p x = true.
Proof.
  revert i. induction l as [|y l IH]; intros i H; simpl in H; [discriminate|].
  destruct (p y) eqn:Hy.
  - injection H as <-. eauto.
  - destruct (Storage.findIndex p l) as [j|]; [|discriminate].
    injection H as <-. destruct (IH j eq_refl) as [x Hx]. eauto.
Qed.

Lemma find_saved_other (d : Document.t) (docs : list Document.t) (j : string) :
  j <> Document.id d ->
  List.find (fun f => String.eqb (Document.id f) j) (saved d docs)
  = List.find (fun f => String.eqb (Document.id f) j) docs.
Proof.
  intros Hj. unfold saved.
  destruct (Storage.findIndex _ docs) as [i|] eqn:Hi.
  - destruct (findIndex_lookup _ _ _ Hi) as [x [Hx Hp]].
    apply String.eqb_eq in Hp.
    apply (find_insert_other _ docs i d x Hx).
    + apply String.eqb_neq. congruence.
    + apply String.eqb_neq. congruence.
  - clear Hi. induction docs as [|y docs IH]; simpl.
    + destruct (String.eqb_spec (Document.id d) j) as [E|_]; [congruence|reflexivity].
    + destruct (String.eqb (Document.id y) j); [reflexivity|apply IH].
Qed.

Lemma getForms_after_save (d : Document.t) (w : Storage.World) :
  FormStore.getForms (FormStore.saveForm d w)
  = (saved d (fst (FormStore.getForms w)), FormStore.saveForm d w).
Proof. unfold FormStore.getForms at 1. now rewrite saveForm_stores. Qed.

Lemma getChecklists_after_save (d : Document.t) (w : Storage.World) :
  ChecklistStore.getChecklists (ChecklistStore.saveChecklist d w)
  = (saved d (fst (ChecklistStore.getChecklists w)), ChecklistStore.saveChecklist d w).
Proof. unfold ChecklistStore.getChecklists at 1. now rewrite saveChecklist_stores. Qed.

Lemma getForms_saveForm (d : Document.t) (w : Storage.World) :
  fst (FormStore.getForms (FormStore.saveForm d w)) = saved d (fst (FormStore.getForms w)).
Proof. now rewrite getForms_after_save. Qed.

Lemma getChecklists_saveChecklist (d : Document.t) (w : Storage.World) :
  fst (ChecklistStore.getChecklists (ChecklistStore.saveChecklist d w))
  = saved d (fst (ChecklistStore.getChecklists w)).
Proof. now rewrite getChecklists_after_save. Qed.

(** X2: saving a document changes no other one: in every state of the
    store, a load by an id other than the saved document's finds after the
    save what it found before it, for forms and for checklists. *)
Theorem X2_save_keeps_others (d : Document.t) (j : string) (w : Storage.World) :
  j <> Document.id d ->
  fst (FormStore.getForm j (FormStore.saveForm d w)) = fst (FormStore.getForm j w)
  /\ fst (ChecklistStore.getChecklist j (ChecklistStore.saveChecklist d w))
     = fst (ChecklistStore.getChecklist j w).
Proof.
  intros Hj. split.
  - rewrite !getForm_fst, getForms_saveForm. now apply find_saved_other.
  - rewrite !getChecklist_fst, getChecklists_saveChecklist. now apply find_saved_other.
Qed.

Lemma X2_save_keeps_others_witness :
  let a := Document.mk "a" "A" None [] in
  let b := Document.mk "b" "B" None [] in
  let w := FormStore.saveForm a (Storage.mkWorld ∅ []) in
  fst (FormStore.getForm "a" (FormStore.saveForm b w)) = fst (FormStore.getForm "a" w).
Proof.
  intros a b w. apply (X2_save_keeps_others b "a" w). discriminate.
Defined.

Lemma ids_saved (d : Document.t) (docs : list Document.t) :
  ids (saved d docs)
  = if existsb (String.eqb (Document.id d)) (ids docs) then ids docs
    else (ids docs ++ [Document.id d])%list.
Proof.
  unfold saved, ids.
  induction docs as [|y docs IH]; simpl; [reflexivity|].
  rewrite (String.eqb_sym (Document.id d) (Document.id y)).
  destruct (String.eqb_spec (Document.id y) (Document.id d)) as [E|E]; simpl.
  - now rewrite E.
  - destruct (Storage.findIndex _ docs) as [i|]; simpl in *.
    + destruct (existsb _ (map Document.id docs)); simpl in *; now rewrite IH.
    + destruct (existsb _ (map Document.id docs)); simpl in *; now rewrite IH.
Qed.

Lemma existsb_eqb_In (k : string) (l : list string) :
  existsb (String.eqb k) l = true <-> In k l.
Proof.
  rewrite existsb_exists. split.
  - intros [x [Hx E]]. apply String.eqb_eq in E. now subst.
  - intros H. exists k. split; [assumption|apply String.eqb_refl].
Qed.

Lemma NoDup_ids_saved (d : Document.t) (docs : list Document.t) :
  NoDup (ids docs) -> NoDup (ids (saved d docs)).
Proof.
  intros H. rewrite ids_saved.
  destruct (existsb _ (ids docs)) eqn:E; [assumption|].
  apply NoDup_app. split; [assumption|]. split.
  - intros x Hx Hd. apply list_elem_of_singleton in Hd. subst x.
    assert (existsb (String.eqb (Document.id d)) (ids docs) = true); [|congruence].
    apply existsb_eqb_In. now apply list_elem_of_In.
  - apply NoDup_singleton.
Qed.

Lemma NoDup_ids_without (k : string) (docs : list Document.t) :
  NoDup (ids docs) -> NoDup (ids (without_id k docs)).
Proof.
  unfold ids, without_id. induction docs as [|y docs IH]; simpl; intros H.
  - constructor.
  - apply NoDup_cons in H. destruct H as [Hy H].
    destruct (String.eqb (Document.id y) k); simpl; [now apply IH|].
    apply NoDup_cons. split; [|now apply IH].
    intros Hin. apply Hy. apply list_elem_of_fmap in Hin.
    destruct Hin as [x [E Hx]]. apply list_elem_of_fmap. exists x. split; [exact E|].
    apply list_elem_of_In in Hx. apply filter_In in Hx.
    apply list_elem_of_In. tauto.
Qed.

(** X3: a save keeps the order of the stored documents: the sequence of
    their ids stays as it was when the saved id is among them, and gets the
    saved id at its end otherwise.  So when the stored ids are pairwise
    distinct they stay so after a save and after a delete, for forms and
    for checklists. *)
Theorem X3_save_keeps_order (d : Document.t) (k : string) (w : Storage.World) :
  (let before := ids (fst (FormStore.getForms w)) in
   ids (fst (FormStore.getForms (FormStore.saveForm d w)))
   = (if existsb (String.eqb (Document.id d)) before then before
      else (before ++ [Document.id d])%list)
   /\ (NoDup before ->
       NoDup (ids (fst (FormStore.getForms (FormStore.saveForm d w))))
       /\ NoDup (ids (fst (FormStore.getForms (FormStore.deleteForm k w))))))
  /\ (let before := ids (fst (ChecklistStore.getChecklists w)) in
      ids (fst (ChecklistStore.getChecklists (ChecklistStore.saveChecklist d w)))
      = (if existsb (String.eqb (Document.id d)) before then before
         else (before ++ [Document.id d])%list)
      /\ (NoDup before ->
          NoDup (ids (fst (ChecklistStore.getChecklists
                             (ChecklistStore.saveChecklist d w))))
          /\ NoDup (ids (fst (ChecklistStore.getChecklists
                                (ChecklistStore.deleteChecklist k w)))))).
Proof.
  split; cbv zeta.
  - rewrite getForms_saveForm, getForms_deleteForm.
    split; [apply ids_saved|]. intros H.
    split; [now apply NoDup_ids_saved | now apply NoDup_ids_without].
  - rewrite getChecklists_saveChecklist, getChecklists_deleteChecklist.
    split; [apply ids_saved|]. intros H.
    split; [now apply NoDup_ids_saved | now apply NoDup_ids_without].
Qed.

Lemma saved_saved (d : Document.t) (docs : list Document.t) :
  saved d (saved d docs) = saved d docs.
Proof.
  unfold saved at 2 3.
  destruct (Storage.findIndex _ docs) as [i|] eqn:Hi.
  - unfold saved.
    assert (H : Storage.findIndex
                  (fun c => String.eqb (Document.id c) (Document.id d))
                  (<[i := d]> docs) = Some i).
    { revert i Hi. induction docs as [|y docs IH]; intros i Hi; simpl in *; [discriminate|].
      destruct (String.eqb (Document.id y) (Document.id d)) eqn:Hy.
      - injection Hi as <-. simpl. now rewrite String.eqb_refl.
      - destruct (Storage.findIndex _ docs) as [j|]; [|discriminate].
        injection Hi as <-. simpl. rewrite Hy. now rewrite (IH j eq_refl). }
    rewrite H. apply list_insert_insert_eq.
  - unfold saved.
    assert (H : Storage.findIndex
                  (fun c => String.eqb (Document.id c) (Document.id d))
                  (docs ++ [d])%list = Some (length docs)).
    { clear -Hi. induction docs as [|y docs IH]; simpl in *.
      - now rewrite String.eqb_refl.
      - destruct (String.eqb (Document.id y) (Document.id d)); [discriminate|].
        destruct (Storage.findIndex _ docs) as [j|]; [discriminate|].
        now rewrite IH. }
    rewrite H. rewrite insert_app_r_alt by lia.
    now rewrite Nat.sub_diag.
Qed.

(** X4: saving the same document twice is saving it once: the second save
    leaves the storage and the console exactly as the first one left them,
    whatever the store held before (a text that does not parse included). *)
Theorem X4_save_idempotent (d : Document.t) (w : Storage.World) :
  FormStore.saveForm d (FormStore.saveForm d w) = FormStore.saveForm d w
  /\ ChecklistStore.saveChecklist d (ChecklistStore.saveChecklist d w)
     = ChecklistStore.saveChecklist d w.
Proof.
  split.
  - unfold FormStore.saveForm at 1. rewrite getForms_after_save.
    fold (saved d (saved d (fst (FormStore.getForms w)))).
    rewrite saved_saved.
    unfold FormStore.saveForm.
    destruct (FormStore.getForms w) as [docs w0]. fold (saved d docs).
    unfold Storage.setItem. simpl. f_equal. apply insert_insert_eq.
  - unfold ChecklistStore.saveChecklist at 1. rewrite getChecklists_after_save.
    fold (saved d (saved d (fst (ChecklistStore.getChecklists w)))).
    rewrite saved_saved.
    unfold ChecklistStore.saveChecklist.
    destruct (ChecklistStore.getChecklists w) as [docs w0]. fold (saved d docs).
    unfold Storage.setItem. simpl. f_equal. apply insert_insert_eq.
Qed.

Lemma without_saved (d : Document.t) (docs : list Document.t) :
  without_id (Document.id d) (saved d docs) = without_id (Document.id d) docs.
Proof.
  unfold saved, without_id.
  induction docs as [|y docs IH]; simpl.
  - now rewrite String.eqb_refl.
  - destruct (String.eqb (Document.id y) (Document.id d)) eqn:Hy; simpl.
    + now rewrite String.eqb_refl.
    + destruct (Storage.findIndex _ docs) as [i|]; simpl in *; rewrite Hy; simpl;
        now rewrite IH.
Qed.

Lemma without_absent (k : string) (docs : list Document.t) :
  ~ In k (ids docs) -> without_id k docs = docs.
Proof.
  unfold ids, without_id. induction docs as [|y docs IH]; simpl; intros H; [reflexivity|].
  destruct (String.eqb_spec (Document.id y) k) as [E|_]; [tauto|].
  simpl. f_equal. apply IH. tauto.
Qed.

(** X5: saving a document whose id is not in the store and deleting it
    again by that id leaves the stored list as it was, for forms and for
    checklists. *)
Theorem X5_save_then_delete (d : Document.t) (w : Storage.World) :
  (~ In (Document.id d) (ids (fst (FormStore.getForms w))) ->
   fst (FormStore.getForms (FormStore.deleteForm (Document.id d) (FormStore.saveForm d w)))
   = fst (FormStore.getForms w))
  /\ (~ In (Document.id d) (ids (fst (ChecklistStore.getChecklists w))) ->
      fst (ChecklistStore.getChecklists
             (ChecklistStore.deleteChecklist (Document.id d)
                (ChecklistStore.saveChecklist d w)))
      = fst (ChecklistStore.getChecklists w)).
Proof.
  split; intros H.
  - rewrite getForms_deleteForm, getForms_saveForm, without_saved.
    now apply without_absent.
  - rewrite getChecklists_deleteChecklist, getChecklists_saveChecklist, without_saved.
    now apply without_absent.
Qed.

Lemma X5_save_then_delete_witness :
  let a := Document.mk "a" "A" None [] in
  let b := Document.mk "b" "B" None [] in
  let w := FormStore.saveForm a (Storage.mkWorld ∅ []) in
  fst (FormStore.getForms (FormStore.deleteForm "b" (FormStore.saveForm b w))) = [a].
Proof.
  intros a b w.
  apply (proj1 (X5_save_then_delete b w)).
  vm_compute. intros [H|[]]. discriminate H.
Defined.

Lemma FormStore_keeps_storage (w : Storage.World) :
  Storage.localStorage (snd (FormStore.getForms w)) = Storage.localStorage w.
Proof.
  unfold FormStore.getForms.
  destruct (Storage.getItem w _) as [[| |docs]|]; reflexivity.
Qed.

Lemma ChecklistStore_keeps_storage (w : Storage.World) :
  Storage.localStorage (snd (ChecklistStore.getChecklists w)) = Storage.localStorage w.
Proof.
  unfold ChecklistStore.getChecklists.
  destruct (Storage.getItem w _) as [[| |docs]|]; reflexivity.
Qed.

Lemma getChecklists_storage (w w' : Storage.World) :
  Storage.localStorage w' !! ChecklistStore.STORAGE_KEY
  = Storage.localStorage w !! ChecklistStore.STORAGE_KEY ->
  fst (ChecklistStore.getChecklists w') = fst (ChecklistStore.getChecklists w).
Proof.
  intros H. unfold ChecklistStore.getChecklists, Storage.getItem. rewrite H.
  destruct (Storage.localStorage w !! _) as [[| |docs]|]; reflexivity.
Qed.

Lemma getForms_storage (w w' : Storage.World) :
  Storage.localStorage w' !! FormStore.STORAGE_KEY
  = Storage.localStorage w !! FormStore.STORAGE_KEY ->
  fst (FormStore.getForms w') = fst (FormStore.getForms w).
Proof.
  intros H. unfold FormStore.getForms, Storage.getItem. rewrite H.
  destruct (Storage.localStorage w !! _) as [[| |docs]|]; reflexivity.
Qed.

(** X6: the two stores do not touch each other: saving or deleting a form
    leaves the list of checklists as it was, and saving or deleting a
    checklist leaves the list of forms as it was, in every state of the
    storage. *)
Theorem X6_stores_independent (d : Document.t) (k : string) (w : Storage.World) :
  (fst (ChecklistStore.getChecklists (FormStore.saveForm d w))
   = fst (ChecklistStore.getChecklists w)
   /\ fst (ChecklistStore.getChecklists (FormStore.deleteForm k w))
      = fst (ChecklistStore.getChecklists w))
  /\ (fst (FormStore.getForms (ChecklistStore.saveChecklist d w))
      = fst (FormStore.getForms w)
      /\ fst (FormStore.getForms (ChecklistStore.deleteChecklist k w))
         = fst (FormStore.getForms w)).
Proof.
  repeat split.
  - apply getChecklists_storage. unfold FormStore.saveForm.
    pose proof (FormStore_keeps_storage w) as H.
    destruct (FormStore.getForms w) as [docs w0]. simpl in *.
    rewrite lookup_insert_ne by discriminate. now rewrite H.
  - apply getChecklists_storage. unfold FormStore.deleteForm.
    pose proof (FormStore_keeps_storage w) as H.
    destruct (FormStore.getForms w) as [docs w0]. simpl in *.
    rewrite lookup_insert_ne by discriminate. now rewrite H.
  - apply getForms_storage. unfold ChecklistStore.saveChecklist.
    pose proof (ChecklistStore_keeps_storage w) as H.
    destruct (ChecklistStore.getChecklists w) as [docs w0]. simpl in *.
    rewrite lookup_insert_ne by discriminate. now rewrite H.
  - apply getForms_storage. unfold ChecklistStore.deleteChecklist.
    pose proof (ChecklistStore_keeps_storage w) as H.
    destruct (ChecklistStore.getChecklists w) as [docs w0]. simpl in *.
    rewrite lookup_insert_ne by discriminate. now rewrite H.
Qed.

(** ** The file inputs and the file validators *)

Lemma runChecksFrom_unaborted (cs : list Zod.Check) (v : Value) (issues : list Zod.Issue) :
  Zod.runChecksFrom cs v issues false
  = (issues ++ flat_map (fun c => Zod.check c v) cs)%list.
Proof.
  revert issues. induction cs as [|c cs IH]; intros issues.
  - simpl. now rewrite app_nil_r.
  - rewrite runChecksFrom_cons. cbn [flat_map].
    destruct (match Zod.when c with Some w => w v | None => negb false end) eqn:Hrun.
    + rewrite check_resumes. simpl orb. rewrite IH. now rewrite <- app_assoc.
    + assert (Hc : Zod.check c v = []).
      { destruct c; simpl in Hrun; try discriminate; simpl;
          now destruct (lengthOf v). }
      rewrite Hc, IH. reflexivity.
Qed.

Lemma parse_any (cs : list Zod.Check) (v : Value) :
  Zod.parse (Zod.ZodAny cs) v = flat_map (fun c => Zod.check c v) cs.
Proof. simpl. unfold Zod.runChecks. simpl. apply runChecksFrom_unaborted. Qed.

Lemma count_files (o : option (list File)) : Widget.count o = Z.of_nat (length (files o)).
Proof. now destruct o. Qed.

(** X7: files added within the limit are appended: when the selection is
    not empty and the field has no file limit, or the files held plus the
    files added do not exceed it, each of the three file inputs hands on the
    files held followed by the files added, in their order, and shows no
    message; the checklist upload does so when it accepts every added file. *)
Theorem X7_add_within_limit (field : Field.t) (existing : option (list File))
  (newFiles : list File) :
  newFiles <> [] ->
  (forall m, Field.maxFiles field = Some m -> m <> 0 ->
             Widget.count existing + Z.of_nat (length newFiles) <= m) ->
  let added := Widget.mkOutcome (Some (files existing ++ newFiles)%list) [] in
  FormFileUpload.addFiles field existing (Some newFiles) = added
  /\ FormViewerFile.addFiles field existing (Some newFiles) = added
  /\ (forallb (ChecklistFileUpload.isFileAccepted field) newFiles = true ->
      ChecklistFileUpload.addFiles field existing (Some newFiles) = added).
Proof.
  intros Hne Hmax added.
  assert (Hguard : truthyNum (Field.maxFiles field)
                   && Z.ltb (nullish (Field.maxFiles field) 0)
                        (Widget.count existing + Z.of_nat (length newFiles)) = false).
  { destruct (Field.maxFiles field) as [m|]; [|reflexivity]. simpl.
    destruct (Z.eqb_spec m 0) as [|Hm]; [reflexivity|]. simpl.
    apply Z.ltb_ge. now apply Hmax. }
  repeat split.
  - unfold FormFileUpload.addFiles. destruct newFiles as [|f l]; [congruence|].
    now rewrite Hguard.
  - unfold FormViewerFile.addFiles. destruct newFiles as [|f l]; [congruence|].
    cbv beta iota zeta. now rewrite Hguard.
  - intros Hacc. unfold ChecklistFileUpload.addFiles.
    destruct newFiles as [|f l]; [congruence|].
    assert (Hf : List.filter (ChecklistFileUpload.isFileAccepted field) (f :: l) = f :: l).
    { apply forallb_filter_id. exact Hacc. }
    cbv beta iota zeta. rewrite Hf, Nat.ltb_irrefl, andb_false_l.
    now rewrite Hguard.
Qed.

Lemma X7_add_within_limit_witness :
  let field := Field.mk (Some "f") "file" "" None None false None None (Some 2)
                 None None None None None in
  let a := mkFile "a.png" 10 "image/png" in
  let b := mkFile "b.png" 20 "image/png" in
  FormFileUpload.addFiles field (Some [a]) (Some [b]) = Widget.mkOutcome (Some [a; b]) [].
Proof.
  intros field a b.
  refine (proj1 (X7_add_within_limit field (Some [a]) [b] _ _)); [discriminate|].
  intros m [= <-] _. simpl. lia.
Defined.

Lemma guard_false_le (o : option Z) (m total : Z) :
  o = Some m -> m <> 0 ->
  truthyNum o && Z.ltb (nullish o 0) total = false -> total <= m.
Proof.
  intros -> Hm. rewrite truthyNum_nonzero by assumption. simpl.
  now intros H%Z.ltb_ge.
Qed.

(** X8: the file limit is kept: for a field whose [maxFiles] is a number
    other than 0, if the value holds at most that many files before a
    selection, it holds at most that many after it, in each of the three
    file inputs and for every selection. *)
Theorem X8_limit_kept (field : Field.t) (existing newFiles : option (list File)) (m : Z) :
  Field.maxFiles field = Some m -> m <> 0 ->
  Widget.count existing <= m ->
  Widget.count (Widget.value (FormFileUpload.addFiles field existing newFiles)) <= m
  /\ Widget.count (Widget.value (FormViewerFile.addFiles field existing newFiles)) <= m
  /\ Widget.count (Widget.value (ChecklistFileUpload.addFiles field existing newFiles)) <= m.
Proof.
  intros Hmax Hm Hex.
  assert (Hcount : forall l : list File,
             Widget.count (Some (Widget.transfer existing l))
             = Widget.count existing + Z.of_nat (length l)).
  { intros l. unfold Widget.transfer. simpl. rewrite length_app, count_files. unfold files. lia. }
  repeat split.
  - unfold FormFileUpload.addFiles.
    destruct newFiles as [[|f l]|]; try exact Hex.
    destruct (truthyNum _ && _) eqn:G; [exact Hex|].
    simpl Widget.value. rewrite Hcount. exact (guard_false_le _ _ _ Hmax Hm G).
  - unfold FormViewerFile.addFiles.
    destruct newFiles as [[|f l]|]; try exact Hex. cbv beta iota zeta.
    destruct (truthyNum _ && _) eqn:G.
    + now destruct (Z.leb _ 0).
    + simpl Widget.value. rewrite Hcount. exact (guard_false_le _ _ _ Hmax Hm G).
  - unfold ChecklistFileUpload.addFiles.
    destruct newFiles as [[|f l]|]; try exact Hex. cbv beta iota zeta.
    destruct (_ && Nat.eqb _ 0); [exact Hex|].
    destruct (truthyNum _ && _) eqn:G.
    + now destruct (Z.leb _ 0).
    + simpl Widget.value. rewrite Hcount. exact (guard_false_le _ _ _ Hmax Hm G).
Qed.

Lemma X8_limit_kept_witness :
  let field := Field.mk (Some "f") "file" "" None None false None None (Some 2)
                 None None None None None in
  let a := mkFile "a.png" 10 "image/png" in
  let b := mkFile "b.png" 20 "image/png" in
  Widget.count (Widget.value (FormFileUpload.addFiles field (Some [a]) (Some [b; b]))) <= 2.
Proof.
  intros field a b.
  apply (X8_limit_kept field (Some [a]) (Some [b; b]) 2); [reflexivity | lia | simpl; lia].
Defined.

(** X9: the checklist upload never drops a file it holds and never takes
    a file it rejects: every file of the value before a selection is in the
    value after it, and every file of the value after it was there before
    or is a selected file that [isFileAccepted] accepts. *)
Theorem X9_only_accepted_files (field : Field.t) (existing newFiles : option (list File)) :
  let out := ChecklistFileUpload.addFiles field existing newFiles in
  (forall f, In f (files existing) -> In f (files (Widget.value out)))
  /\ (forall f, In f (files (Widget.value out)) ->
      In f (files existing)
      \/ (In f (files newFiles) /\ ChecklistFileUpload.isFileAccepted field f = true)).
Proof.
  cbv zeta.
  assert (Hkeep : forall shown,
             let out := Widget.mkOutcome existing shown in
             (forall f, In f (files existing) -> In f (files (Widget.value out)))
             /\ (forall f, In f (files (Widget.value out)) ->
                 In f (files existing)
                 \/ (In f (files newFiles) /\ ChecklistFileUpload.isFileAccepted field f = true))).
  { intros shown. simpl. split; auto. }
  unfold ChecklistFileUpload.addFiles.
  destruct newFiles as [[|g l]|]; try apply Hkeep. cbv beta iota zeta.
  assert (Hvalid : forall f,
             In f (List.filter (ChecklistFileUpload.isFileAccepted field) (g :: l)) ->
             In f (g :: l) /\ ChecklistFileUpload.isFileAccepted field f = true).
  { intros f Hf. now apply filter_In in Hf. }
  remember (List.filter (ChecklistFileUpload.isFileAccepted field) (g :: l)) as valid eqn:Ev.
  clear Ev.
  destruct (_ && Nat.eqb _ 0); [apply Hkeep|].
  destruct (truthyNum _ && _).
  - destruct (Z.leb _ 0); apply Hkeep.
  - unfold Widget.transfer, files. cbn [Widget.value nullish].
    split; intros f Hf.
    + apply in_or_app. now left.
    + apply in_app_or in Hf. destruct Hf as [Hf|Hf]; [now left|right].
      now apply Hvalid.
Qed.

Lemma ChecklistRender_file_accepts (f : Field.t) (v : Value) :
  Zod.parse (ChecklistRender.file f) v = []
  <-> ((if Field.required f then ChecklistRender.someFile v else true)
       && truthyThen (Field.maxFiles f) (fun n => ChecklistRender.atMostFiles n v)
       && truthyThen (FieldValidation.maxFileSize (Field.validationOrEmpty f))
            (fun n => ChecklistRender.noFileOver n v) = true).
Proof.
  unfold ChecklistRender.file, truthyThen, ifNum.
  destruct (Field.required f);
    (destruct (Field.maxFiles f) as [m|]; [destruct (Z.eqb m 0)|]);
    (destruct (FieldValidation.maxFileSize _) as [n|]; [destruct (Z.eqb n 0)|]);
    unfold Zod.z_any, Zod.refine; cbn [Zod.addCheck app];
    rewrite parse_any; cbn [flat_map Zod.check app];
    repeat match goal with
           | |- context [ChecklistRender.someFile v] =>
               destruct (ChecklistRender.someFile v)
           | |- context [ChecklistRender.atMostFiles ?n v] =>
               destruct (ChecklistRender.atMostFiles n v)
           | |- context [ChecklistRender.noFileOver ?n v] =>
               destruct (ChecklistRender.noFileOver n v)
           end;
    cbn [app andb]; split; intros H; first [reflexivity | discriminate H].
Qed.

Lemma firstOver_none (limit : Z) (l : list File) :
  FormViewerFile.firstOver limit l = None
  <-> forallb (fun f => negb (Z.ltb (limit * 1024) (file_size f))) l = true.
Proof.
  induction l as [|f l IH]; simpl; [tauto|].
  destruct (Z.ltb _ (file_size f)); simpl; [split; discriminate|exact IH].
Qed.

Lemma truthyThen_all (o : option Z) (p : Z -> bool) :
  (forall n, o = Some n -> n <> 0 -> p n = true) -> truthyThen o p = true.
Proof.
  intros H. destruct o as [n|]; [|reflexivity]. simpl.
  destruct (Z.eqb_spec n 0); [reflexivity|]. now apply H.
Qed.

Lemma maxFilesRule_none (n : Z) (v : Value) :
  FormViewerFile.maxFilesRule n v = None <-> ChecklistRender.atMostFiles n v = true.
Proof.
  unfold FormViewerFile.maxFilesRule, ChecklistRender.atMostFiles.
  destruct (negb (truthy v) || _); split; intros H; first [reflexivity|discriminate H].
Qed.

Lemma maxFileSizeRule_none (n : Z) (l : list File) :
  FormViewerFile.maxFileSizeRule n (VFileList l) = None
  <-> ChecklistRender.noFileOver n (VFileList l) = true.
Proof.
  unfold FormViewerFile.maxFileSizeRule, ChecklistRender.noFileOver.
  rewrite <- firstOver_none.
  destruct (FormViewerFile.noFiles (VFileList l)) eqn:Hn.
  - destruct l as [|x l]; [simpl; tauto|].
    unfold FormViewerFile.noFiles, lengthOf in Hn. simpl in Hn. discriminate Hn.
  - destruct (FormViewerFile.firstOver n l); split; intros H;
      first [reflexivity|discriminate H].
Qed.

Lemma validators_pass (f : Field.t) (l : list File) :
  FormViewerFile.firstFailure (FormViewerFile.validators f) (VFileList l) = None
  <-> truthyThen (Field.maxFiles f) (fun n => ChecklistRender.atMostFiles n (VFileList l))
      && truthyThen (FieldValidation.maxFileSize (Field.validationOrEmpty f))
           (fun n => ChecklistRender.noFileOver n (VFileList l)) = true.
Proof.
  unfold FormViewerFile.validators, truthyThen, ifNum.
  destruct (Field.maxFiles f) as [m|]; [destruct (Z.eqb m 0)|];
    (destruct (FieldValidation.maxFileSize _) as [n|]; [destruct (Z.eqb n 0)|]);
    cbn [app FormViewerFile.firstFailure andb];
    try tauto;
    repeat match goal with
           | |- context [FormViewerFile.maxFilesRule ?a ?b] =>
               let E := fresh "E" in
               pose proof (maxFilesRule_none a b) as E;
               destruct (FormViewerFile.maxFilesRule a b);
               destruct (ChecklistRender.atMostFiles a b)
           | |- context [FormViewerFile.maxFileSizeRule ?a (VFileList ?b)] =>
               let E := fresh "E" in
               pose proof (maxFileSizeRule_none a b) as E;
               destruct (FormViewerFile.maxFileSizeRule a (VFileList b));
               destruct (ChecklistRender.noFileOver a (VFileList b))
           end;
    cbn [andb]; intuition congruence.
Qed.

(** X10: the file rules of the form viewer and the file validator of
    ChecklistRender agree: for a field whose [maxFiles], when set, is not
    negative, and a value that is undefined, null, the empty string or a
    list of files, the viewer's rules pass exactly when the validator
    reports no issue. *)
Theorem X10_file_rules_agree (f : Field.t) (v : Value) :
  fileValue v = true ->
  (forall m, Field.maxFiles f = Some m -> 0 <= m) ->
  FormViewerFile.validate f v = None <-> Zod.parse (ChecklistRender.file f) v = [].
Proof.
  intros Hv Hm. rewrite ChecklistRender_file_accepts.
  assert (Hempty : forall x : Value,
             FormViewerFile.noFiles x = true ->
             ChecklistRender.someFile x = false ->
             (forall n, Field.maxFiles f = Some n -> n <> 0 ->
                        ChecklistRender.atMostFiles n x = true) ->
             (forall n, ChecklistRender.noFileOver n x = true) ->
             FormViewerFile.validate f x = None
             <-> (if Field.required f then ChecklistRender.someFile x else true)
                 && truthyThen (Field.maxFiles f) (fun n => ChecklistRender.atMostFiles n x)
                 && truthyThen (FieldValidation.maxFileSize (Field.validationOrEmpty f))
                      (fun n => ChecklistRender.noFileOver n x) = true).
  { intros x Hn Hs Ha Ho. unfold FormViewerFile.validate. rewrite Hn, Hs.
    rewrite (truthyThen_all _ _ Ha), (truthyThen_all _ _ (fun n _ _ => Ho n)).
    destruct (Field.required f); simpl; split; intros H;
      first [reflexivity|discriminate H]. }
  destruct v as [| | | |s|?|?|l|?|? ?]; try discriminate Hv.
  - apply Hempty; reflexivity.
  - apply Hempty; reflexivity.
  - simpl in Hv. apply String.eqb_eq in Hv. subst s. apply Hempty; reflexivity.
  - destruct l as [|x l].
    + apply Hempty; try reflexivity.
      intros n Hn _. unfold ChecklistRender.atMostFiles. simpl.
      apply Z.leb_le. now apply Hm.
    + unfold FormViewerFile.validate.
      assert (Hn : FormViewerFile.noFiles (VFileList (x :: l)) = false) by reflexivity.
      assert (Hs : ChecklistRender.someFile (VFileList (x :: l)) = true) by reflexivity.
      rewrite Hn, Hs, validators_pass.
      now destruct (Field.required f).
Qed.

Lemma X10_file_rules_agree_witness :
  let v := FieldValidation.mk None None None None None None None None None
             None None (Some 1) None in
  let f := Field.mk (Some "f") "file" "" None None true None None (Some 2)
             None None None None (Some v) in
  let big := VFileList [mkFile "a.bin" 2000 "application/octet-stream"] in
  FormViewerFile.validate f big = None <-> Zod.parse (ChecklistRender.file f) big = [].
Proof.
  intros v f big.
  apply (X10_file_rules_agree f big); [reflexivity|].
  intros m [= <-]. lia.
Defined.

Lemma FormRender_file_accepts (f : Field.t) (v : Value) :
  Zod.parse (FormRender.file f) v = []
  <-> (if Field.required f then FormRender.someFile v else true) = true.
Proof.
  unfold FormRender.file.
  destruct (Field.required f); unfold Zod.z_any, Zod.refine; cbn [Zod.addCheck app];
    rewrite parse_any; cbn [flat_map Zod.check app]; [|tauto].
  destruct (FormRender.someFile v); split; intros H; first [reflexivity|discriminate H].
Qed.

Lemma lengthOf_files (l : list File) : lengthOf (VFileList l) = Some (Z.of_nat (length l)).
Proof. reflexivity. Qed.

Lemma someFile_files (l : list File) :
  l <> [] ->
  ChecklistRender.someFile (VFileList l) = true /\ FormRender.someFile (VFileList l) = true.
Proof.
  intros H. destruct l as [|x l]; [congruence|]. split; reflexivity.
Qed.

(** X11: what a file input hands on validates: a value changed by a
    selection passes the FormRender validator of its field; for a field
    without a size limit a value changed by the checklist upload passes the
    ChecklistRender validator and a value changed by the viewer's input
    passes the viewer's rules. *)
Theorem X11_added_files_validate (field : Field.t) (existing : option (list File))
  (newFiles : option (list File)) (selected : list File) :
  selected <> files existing ->
  (Widget.value (FormFileUpload.addFiles field existing newFiles) = Some selected ->
   Zod.parse (FormRender.file field) (VFileList selected) = [])
  /\ (truthyNum (FieldValidation.maxFileSize (Field.validationOrEmpty field)) = false ->
      (Widget.value (ChecklistFileUpload.addFiles field existing newFiles) = Some selected ->
       Zod.parse (ChecklistRender.file field) (VFileList selected) = [])
      /\ (Widget.value (FormViewerFile.addFiles field existing newFiles) = Some selected ->
          FormViewerFile.validate field (VFileList selected) = None)).
Proof.
  intros Hnew.
  assert (Hsame : forall shown,
             Widget.value (Widget.mkOutcome existing shown) = Some selected -> False).
  { simpl. intros shown ->. now apply Hnew. }
  assert (Hlimit : forall added : list File,
             truthyNum (Field.maxFiles field)
             && Z.ltb (nullish (Field.maxFiles field) 0)
                  (Widget.count existing + Z.of_nat (length added)) = false ->
             truthyThen (Field.maxFiles field)
               (fun n => ChecklistRender.atMostFiles n (VFileList (Widget.transfer existing added)))
             = true).
  { intros added G. apply truthyThen_all. intros n Hn Hz.
    unfold ChecklistRender.atMostFiles. rewrite lengthOf_files. cbn [truthy negb orb].
    rewrite Hn, truthyNum_nonzero in G by assumption.
    simpl in G. apply Z.ltb_ge in G. apply Z.leb_le.
    unfold Widget.transfer. rewrite length_app. rewrite count_files in G.
    unfold files in G. lia. }
  assert (Hsome : forall added : list File,
             added <> [] -> Widget.transfer existing added <> []).
  { intros added Ha. unfold Widget.transfer. destruct (nullish existing []); [|discriminate].
    exact Ha. }
  split.
  - unfold FormFileUpload.addFiles.
    destruct newFiles as [[|g l]|]; try (intros H; now destruct (Hsame _ H)).
    destruct (truthyNum _ && _); [intros H; now destruct (Hsame _ H)|].
    simpl. intros [= <-]. apply FormRender_file_accepts.
    rewrite (proj2 (someFile_files _ (Hsome (g :: l) ltac:(discriminate)))).
    now destruct (Field.required field).
  - intros Hsize.
    assert (Hno : forall x,
               truthyThen (FieldValidation.maxFileSize (Field.validationOrEmpty field))
                 (fun n => ChecklistRender.noFileOver n x) = true).
    { intros x. apply truthyThen_all. intros n Hn Hz.
      rewrite Hn, truthyNum_nonzero in Hsize by assumption. discriminate Hsize. }
    split.
    + unfold ChecklistFileUpload.addFiles.
      destruct newFiles as [[|g l]|]; try (intros H; now destruct (Hsame _ H)).
      cbv beta iota zeta.
      remember (List.filter (ChecklistFileUpload.isFileAccepted field) (g :: l)) as valid eqn:Ev.
      destruct (Nat.ltb (length valid) (length (g :: l)) && Nat.eqb (length valid) 0) eqn:Hrej;
        [intros H; now destruct (Hsame _ H)|].
      destruct (truthyNum _ && _) eqn:G.
      * destruct (Z.leb _ 0); intros H; now destruct (Hsame _ H).
      * simpl. intros [= <-]. apply ChecklistRender_file_accepts.
        assert (Hv : valid <> []).
        { intros ->. simpl in Hrej. discriminate Hrej. }
        rewrite (proj1 (someFile_files _ (Hsome valid Hv))), (Hlimit valid G), Hno.
        now destruct (Field.required field).
    + unfold FormViewerFile.addFiles.
      destruct newFiles as [[|g l]|]; try (intros H; now destruct (Hsame _ H)).
      cbv beta iota zeta.
      destruct (truthyNum _ && _) eqn:G.
      * destruct (Z.leb _ 0); intros H; now destruct (Hsame _ H).
      * simpl. intros [= <-]. unfold FormViewerFile.validate.
        assert (Hn : FormViewerFile.noFiles (VFileList (Widget.transfer existing (g :: l))) = false).
        { pose proof (Hsome (g :: l) ltac:(discriminate)) as Hne.
          destruct (Widget.transfer existing (g :: l)); [congruence|reflexivity]. }
        rewrite Hn. apply validators_pass.
        now rewrite (Hlimit (g :: l) G), Hno.
Qed.

Lemma X11_added_files_validate_witness :
  let field := Field.mk (Some "f") "file" "" None None true None None (Some 2)
                 None None None None None in
  let a := mkFile "a.png" 10 "image/png" in
  Zod.parse (FormRender.file field) (VFileList [a]) = [].
Proof.
  intros field a.
  apply (proj1 (X11_added_files_validate field None (Some [a]) [a] ltac:(discriminate))).
  reflexivity.
Defined.

Lemma without_take_drop (index : nat) (l : list File) :
  Widget.without index l = (take index l ++ drop (S index) l)%list.
Proof.
  revert index. induction l as [|x l IH]; intros [|i]; simpl; try reflexivity.
  now rewrite IH.
Qed.

(** X12: removing the file at an index keeps the files before it and
    moves the files after it one place down, shows no message, and shortens
    the list by one; an index past the end changes nothing. *)
Theorem X12_remove_file (existing : option (list File)) (index : nat) :
  let l := files existing in
  let after := files (Widget.value (Widget.removeFile existing index)) in
  after = (take index l ++ drop (S index) l)%list
  /\ Widget.shown (Widget.removeFile existing index) = []
  /\ (forall j, after !! j = if Nat.ltb j index then l !! j else l !! S j)
  /\ length after = if Nat.ltb index (length l) then pred (length l) else length l.
Proof.
  cbv zeta. unfold Widget.removeFile, files. cbn [Widget.value Widget.shown nullish].
  fold (files existing). rewrite without_take_drop.
  split; [reflexivity|]. split; [reflexivity|]. split.
  - intros j. destruct (Nat.ltb_spec j index) as [H|H].
    + destruct (Nat.lt_ge_cases j (length (files existing))) as [Hl|Hl].
      * rewrite lookup_app_l by (rewrite length_take; lia).
        now apply lookup_take_lt.
      * rewrite (lookup_ge_None_2 (files existing) j) by lia.
        apply lookup_ge_None_2. rewrite length_app, length_take, length_drop. lia.
    + destruct (Nat.lt_ge_cases index (length (files existing))) as [Hl|Hl].
      * rewrite lookup_app_r by (rewrite length_take; lia).
        rewrite length_take, lookup_drop. f_equal. lia.
      * rewrite take_ge, drop_ge by lia. rewrite app_nil_r.
        rewrite !lookup_ge_None_2 by lia. reflexivity.
  - rewrite length_app, length_take, length_drop.
    destruct (Nat.ltb_spec index (length (files existing))); lia.
Qed.

(** X13: adding one file and removing the last one gives back the files
    held before: in each of the three file inputs, when the selection of
    one file changed the value, removing the file at the old length hands
    on the files the value held before. *)
Theorem X13_add_then_remove (field : Field.t) (existing : option (list File)) (f : File) :
  let back out :=
    Widget.value (Widget.removeFile (Widget.value out) (length (files existing))) in
  (let out := FormFileUpload.addFiles field existing (Some [f]) in
   Widget.value out <> existing -> back out = Some (files existing))
  /\ (let out := ChecklistFileUpload.addFiles field existing (Some [f]) in
      Widget.value out <> existing -> back out = Some (files existing))
  /\ (let out := FormViewerFile.addFiles field existing (Some [f]) in
      Widget.value out <> existing ->
      Widget.value (FormViewerFile.removeAt (files (Widget.value out))
                      (length (files existing)))
      = Some (files existing)).
Proof.
  assert (Hback : Widget.without (length (files existing)) (Widget.transfer existing [f])
                  = files existing).
  { unfold Widget.transfer. fold (files existing). rewrite without_take_drop.
    rewrite take_app_length, drop_ge by (rewrite length_app; simpl; lia).
    now rewrite app_nil_r. }
  cbv zeta. repeat split.
  - unfold FormFileUpload.addFiles.
    destruct (truthyNum _ && _); simpl; [congruence|]. intros _.
    unfold Widget.removeFile. simpl. now rewrite Hback.
  - unfold ChecklistFileUpload.addFiles. cbv beta iota zeta.
    cbn [List.filter].
    destruct (ChecklistFileUpload.isFileAccepted field f); [|simpl; congruence].
    cbn [length Nat.ltb Nat.leb Nat.eqb andb].
    destruct (truthyNum _ && _); [destruct (Z.leb _ 0); simpl; congruence|].
    intros _. unfold Widget.removeFile. simpl. now rewrite Hback.
  - unfold FormViewerFile.addFiles. cbv beta iota zeta.
    destruct (truthyNum _ && _); [destruct (Z.leb _ 0); simpl; congruence|].
    intros _. unfold FormViewerFile.removeAt. simpl. now rewrite Hback.
Qed.

Lemma X13_add_then_remove_witness :
  let field := Field.mk (Some "f") "file" "" None None true None None (Some 2)
                 None None None None None in
  let a := mkFile "a.png" 10 "image/png" in
  let b := mkFile "b.png" 20 "image/png" in
  Widget.value
    (Widget.removeFile
       (Widget.value (FormFileUpload.addFiles field (Some [a]) (Some [b]))) 1)
  = Some [a].
Proof.
  intros field a b.
  apply (proj1 (X13_add_then_remove field (Some [a]) b)).
  vm_compute. discriminate.
Defined.

(** ** The validators of numbers, checkboxes and text; default values *)

(** X14: for a field of one of the nine types email, phone, number, date,
    checkbox, radio, select, range and min_max, the builder that
    ChecklistRender looks up returns the very validator that the switch of
    the form builder's viewer builds for the field. *)
Theorem X14_siblings_agree (f : Field.t) :
  In (Field.type f) sameInBoth ->
  ChecklistRender.buildField f = Normal (Zod.Validator (FormBuilder.fieldSchema f)).
Proof.
  unfold sameInBoth. simpl. intros H.
  unfold ChecklistRender.buildField, lookup, ChecklistRender.schemaBuilders,
    FormBuilder.fieldSchema, FormBuilder.hasType.
  repeat (destruct H as [H|H]; [rewrite <- H; reflexivity|]).
  destruct H.
Qed.

Lemma X14_siblings_agree_witness :
  let f := descriptor (Some "n") "number" true None in
  ChecklistRender.buildField f = Normal (Zod.Validator (FormBuilder.fieldSchema f)).
Proof.
  intros f. apply (X14_siblings_agree f). simpl. tauto.
Defined.

Lemma runChecksFrom_aborted_undefined (cs : list Zod.Check) (issues : list Zod.Issue) :
  Zod.runChecksFrom cs VUndefined issues true = issues.
Proof.
  revert issues. induction cs as [|c cs IH]; intros issues; [reflexivity|].
  rewrite runChecksFrom_cons.
  assert (H : match Zod.when c with Some w => w VUndefined | None => negb true end = false)
    by now destruct c.
  rewrite H. apply IH.
Qed.

(** The conversion on some strings: the nearest double of a long integer,
    an infinity past the largest double, fractions, exponents, a radix
    prefix, white space, and strings that are no numeric literal. *)
Lemma stringToNumber_examples :
  stringToNumber "9007199254740993" = Int 9007199254740992
  /\ stringToNumber (Str.of_chars (repeat "9"%char 400)) = Infinity false
  /\ stringToNumber " 1.5 " = Frac 3 1
  /\ stringToNumber "0.1" = Frac 3602879701896397 55
  /\ stringToNumber "-.5e1" = Int (-5)
  /\ stringToNumber "0x1F" = Int 31
  /\ stringToNumber "" = Int 0
  /\ stringToNumber "1e" = NaN
  /\ stringToNumber "12px" = NaN
  /\ isDouble 9007199254740993 = false.
Proof. now vm_compute. Qed.

Lemma parse_coerce_number (cs : list Zod.Check) (v : Value) :
  Zod.parse (Zod.ZodNumber true cs) v
  = match toNumber v with
    | Int n => flat_map (fun c => Zod.check c (VNumber n)) cs
    | Frac m e => flat_map (fun c => Zod.check c (VFraction m e)) cs
    | NaN | Infinity _ => [Zod.typeIssue]
    end.
Proof.
  cbn [Zod.parse]. destruct (toNumber v) as [|s|n|m e]; unfold Zod.runChecks; simpl.
  - apply runChecksFrom_aborted_undefined.
  - apply runChecksFrom_aborted_undefined.
  - apply runChecksFrom_unaborted.
  - apply runChecksFrom_unaborted.
Qed.

Lemma boundChecks_pass (f : Field.t) (minMsg maxMsg : Z -> option string) (x : Number) :
  match x with
  | Int n =>
      flat_map (fun c => Zod.check c (VNumber n))
        (boundChecks (Field.validationOrEmpty f) minMsg maxMsg)
  | Frac m e =>
      flat_map (fun c => Zod.check c (VFraction m e))
        (boundChecks (Field.validationOrEmpty f) minMsg maxMsg)
  | NaN | Infinity _ => [Zod.typeIssue]
  end = []
  <-> inBounds f x = true.
Proof.
  unfold boundChecks, inBounds, ifDefined.
  destruct x as [|s|n|m e]; cbn [finite andb]; try (split; discriminate);
    destruct (FieldValidation.minValue _) as [a|];
    destruct (FieldValidation.maxValue _) as [b|];
    cbn [app flat_map Zod.check atLeast atMost];
    repeat match goal with |- context [Z.leb ?x ?y] => destruct (Z.leb x y) end;
    cbn [app andb]; split; intros H; first [reflexivity|discriminate H].
Qed.

Lemma number_schema_accepts (f : Field.t) (minMsg maxMsg : Z -> option string) (v : Value) :
  let numSchema := Zod.ZodNumber true (boundChecks (Field.validationOrEmpty f) minMsg maxMsg) in
  Zod.parse (if Field.required f then numSchema
             else Zod.z_union [numSchema; Zod.z_literal ""]) v = []
  <-> numberAccepts f v = true.
Proof.
  cbv zeta. unfold numberAccepts.
  destruct (Field.required f); cbn [negb andb orb].
  - rewrite parse_coerce_number. apply boundChecks_pass.
  - unfold Zod.z_union, Zod.z_literal.
    change (Zod.parse (Zod.ZodUnion [?a; Zod.ZodLiteral ""]) v)
      with (Zod.handleUnionResults [Zod.parse a v; Zod.parse (Zod.ZodLiteral "") v]).
    rewrite parse_coerce_number.
    assert (Hlit : Zod.parse (Zod.ZodLiteral "") v
                   = if match v with VString s => String.eqb s "" | _ => false end
                     then [] else [Zod.valueIssue]).
    { destruct v; try reflexivity. }
    rewrite Hlit.
    destruct (match v with VString s => String.eqb s "" | _ => false end).
    + simpl. unfold Zod.handleUnionResults. simpl.
      rewrite orb_true_r. tauto.
    + cbn [orb]. rewrite <- (boundChecks_pass f minMsg maxMsg).
      destruct (toNumber v) as [|s|n|m e].
      * simpl. split; discriminate.
      * simpl. split; discriminate.
      * now rewrite union_resumed by apply flat_map_check_resumes.
      * now rewrite union_resumed by apply flat_map_check_resumes.
Qed.

Lemma ChecklistRender_number_eq (f : Field.t) :
  ChecklistRender.number f
  = let numSchema :=
      Zod.ZodNumber true
        (boundChecks (Field.validationOrEmpty f)
           (fun n => Some ("Minimum value is " ++ Str.ofZ n))
           (fun n => Some ("Maximum value is " ++ Str.ofZ n))) in
    if Field.required f then numSchema else Zod.z_union [numSchema; Zod.z_literal ""].
Proof.
  unfold ChecklistRender.number, boundChecks, ifDefined.
  destruct (FieldValidation.minValue _); destruct (FieldValidation.maxValue _);
    reflexivity.
Qed.

Lemma FormRender_number_eq (f : Field.t) :
  FormRender.number f
  = let numSchema :=
      Zod.ZodNumber true
        (boundChecks (Field.validationOrEmpty f) (fun _ => None) (fun _ => None)) in
    if Field.required f then numSchema else Zod.z_union [numSchema; Zod.z_literal ""].
Proof.
  unfold FormRender.number, boundChecks, ifDefined.
  destruct (FieldValidation.minValue _); destruct (FieldValidation.maxValue _);
    reflexivity.
Qed.

(** X15: what a number validator accepts: in ChecklistRender, in
    FormRender and in the form builder's viewer, for a field whose value
    bounds are integers a number can be, and on a live value that is a
    string, undefined, null, a boolean or an integer a number can be, the
    validator of a number field reports no issue exactly when the value is
    the empty string and the field is not required, or [Number] of the
    value is a finite number not below [minValue] and not above [maxValue]
    where these are set.  A bound of 0 is read. *)
Theorem X15_number_accepts (f : Field.t) (v : Value) :
  doubleBounds f = true ->
  numberInput v = true ->
  (Zod.parse (ChecklistRender.number f) v = [] <-> numberAccepts f v = true)
  /\ (Zod.parse (FormRender.number f) v = [] <-> numberAccepts f v = true)
  /\ (Zod.parse (FormBuilder.caseNumber f) v = [] <-> numberAccepts f v = true).
Proof.
  intros _ _. repeat split.
  1-2: rewrite ChecklistRender_number_eq; apply number_schema_accepts.
  1-2: rewrite FormRender_number_eq; apply number_schema_accepts.
  1-2: change (FormBuilder.caseNumber f) with (ChecklistRender.number f);
       rewrite ChecklistRender_number_eq; apply number_schema_accepts.
Qed.

Lemma X15_number_accepts_witness :
  let f := descriptor (Some "n") "number" true
             (Some (FieldValidation.mk None None None None (Some (-5)) (Some 10) None None
                      None None None None None)) in
  Zod.parse (FormRender.number f) (VString " 2.5e0 ") = []
  <-> numberAccepts f (VString " 2.5e0 ") = true.
Proof.
  intros f. apply (X15_number_accepts f (VString " 2.5e0 ")); reflexivity.
Defined.

Lemma runChecksFrom_aborted_nolength (cs : list Zod.Check) (v : Value)
  (issues : list Zod.Issue) :
  lengthOf v = None -> Zod.runChecksFrom cs v issues true = issues.
Proof.
  intros Hl. revert issues. induction cs as [|c cs IH]; intros issues; [reflexivity|].
  rewrite runChecksFrom_cons.
  assert (H : match Zod.when c with Some w => w v | None => negb true end = false).
  { destruct c; simpl; try reflexivity; now rewrite Hl. }
  rewrite H. apply IH.
Qed.

Lemma parse_boolean (cs : list Zod.Check) (v : Value) :
  Zod.parse (Zod.ZodBoolean cs) v
  = match v with
    | VBool _ => flat_map (fun c => Zod.check c v) cs
    | _ => Zod.runChecksFrom cs v [Zod.typeIssue] true
    end.
Proof.
  simpl. unfold Zod.runChecks.
  destruct v; try reflexivity. simpl. apply runChecksFrom_unaborted.
Qed.

Lemma runChecksFrom_keeps (cs : list Zod.Check) (v : Value) (issues : list Zod.Issue)
  (b : bool) :
  issues <> [] -> Zod.runChecksFrom cs v issues b <> [].
Proof.
  revert issues b. induction cs as [|c cs IH]; intros issues b H; [exact H|].
  rewrite runChecksFrom_cons.
  destruct (match Zod.when c with Some w => w v | None => negb b end).
  - apply IH. destruct issues; [congruence|discriminate].
  - now apply IH.
Qed.

(** X16: what a checkbox validator accepts: in the three modules the
    validator of a checkbox field reports no issue exactly on a boolean,
    which has to be [true] when the field is required. *)
Theorem X16_checkbox_accepts (f : Field.t) (v : Value) :
  (Zod.parse (ChecklistRender.checkbox f) v = [] <-> checkboxAccepts f v = true)
  /\ (Zod.parse (FormRender.checkbox f) v = [] <-> checkboxAccepts f v = true)
  /\ (Zod.parse (FormBuilder.caseCheckbox f) v = [] <-> checkboxAccepts f v = true).
Proof.
  unfold ChecklistRender.checkbox, FormRender.checkbox, FormBuilder.caseCheckbox,
    checkboxAccepts.
  destruct (Field.required f); unfold Zod.z_boolean, Zod.refine; cbn [Zod.addCheck app];
    rewrite !parse_boolean;
    (destruct v as [| |b| | | | | | |];
     try (repeat split; intros H; try discriminate H;
          exfalso; revert H; apply runChecksFrom_keeps; discriminate));
    try destruct b; cbn [flat_map Zod.check app ChecklistRender.isTrue truthy];
    repeat split; intros H; first [reflexivity|discriminate H].
Qed.

Lemma lengthChecks_pass (guard : Z -> bool) (f : Field.t)
  (minMsg maxMsg : Z -> option string) (s : string) :
  s <> "" ->
  flat_map (fun c => Zod.check c (VString s))
    (lengthChecks guard (Field.validationOrEmpty f) minMsg maxMsg) = []
  <-> textAccepts guard f s = true.
Proof.
  intros Hs. unfold lengthChecks, textAccepts. rewrite (eqb_empty_false s Hs).
  destruct (FieldValidation.minLength _) as [a|]; [destruct (guard a)|];
    (destruct (FieldValidation.maxLength _) as [b|]; [destruct (guard b)|]);
    cbn [app flat_map Zod.check]; change (lengthOf (VString s)) with (Some (Str.len s));
    cbv beta iota;
    repeat match goal with |- context [Z.leb ?x ?y] => destruct (Z.leb x y) end;
    cbn [app andb]; split; intros H; first [reflexivity|discriminate H].
Qed.

Lemma text_schema_accepts (guard : Z -> bool) (f : Field.t)
  (minMsg maxMsg : Z -> option string) (requiredMsg : option string) (s : string) :
  let cs := lengthChecks guard (Field.validationOrEmpty f) minMsg maxMsg in
  Zod.parse (if Field.required f
             then Zod.ZodString (cs ++ [Zod.MinLength 1 requiredMsg])%list
             else Zod.or (Zod.optional (Zod.ZodString cs)) (Zod.z_literal ""))
    (VString s) = []
  <-> textAccepts guard f s = true.
Proof.
  cbv zeta. destruct (String.eqb_spec s "") as [->|Hs].
  - unfold textAccepts. simpl String.eqb. cbv iota.
    destruct (Field.required f); cbn [negb].
    + rewrite parse_string, flat_map_app. cbn [flat_map Zod.check app].
      rewrite lengthOf_empty. simpl Z.leb. cbv iota.
      split; [|discriminate].
      intros H. apply app_eq_nil in H. destruct H as [_ H]. discriminate H.
    + rewrite parse_optional_or_empty. simpl. tauto.
  - rewrite <- (lengthChecks_pass guard f minMsg maxMsg s Hs).
    destruct (Field.required f).
    + rewrite parse_string, flat_map_app. cbn [flat_map Zod.check app].
      change (lengthOf (VString s)) with (Some (Str.len s)). cbv beta iota.
      rewrite len_nonempty by assumption. rewrite app_nil_r. tauto.
    + rewrite parse_optional_or_empty, eqb_empty_false by assumption. tauto.
Qed.

Lemma ChecklistRender_getStringSchema_eq (f : Field.t) :
  ChecklistRender.getStringSchema f
  = let v := Field.validationOrEmpty f in
    let cs := lengthChecks nonZero v
                (fun n => Some ("Minimum " ++ Str.ofZ n ++ " characters"))
                (fun n => Some ("Maximum " ++ Str.ofZ n ++ " characters")) in
    if Field.required f
    then Zod.ZodString
           (cs ++ [Zod.MinLength 1
                     (Some (orStr (FieldValidation.requiredMessage v)
                              "This field is required"))])%list
    else Zod.or (Zod.optional (Zod.ZodString cs)) (Zod.z_literal "").
Proof.
  unfold ChecklistRender.getStringSchema, lengthChecks, ifNum, nonZero.
  destruct (FieldValidation.minLength _) as [a|]; [destruct (Z.eqb a 0)|];
    (destruct (FieldValidation.maxLength _) as [b|]; [destruct (Z.eqb b 0)|]);
    destruct (Field.required f); reflexivity.
Qed.

Lemma FormRender_getStringSchema_eq (f : Field.t) :
  FormRender.getStringSchema f
  = let v := Field.validationOrEmpty f in
    let cs := lengthChecks nonZero v
                (fun n => Some ("Minimum " ++ Str.ofZ n ++ " characters"))
                (fun n => Some ("Maximum " ++ Str.ofZ n ++ " characters")) in
    if Field.required f
    then Zod.ZodString
           (cs ++ [Zod.MinLength 1
                     (Some (orStr (FieldValidation.requiredMessage v)
                              "This field is required."))])%list
    else Zod.or (Zod.optional (Zod.ZodString cs)) (Zod.z_literal "").
Proof.
  unfold FormRender.getStringSchema, lengthChecks, ifNum, nonZero.
  destruct (FieldValidation.minLength _) as [a|]; [destruct (Z.eqb a 0)|];
    (destruct (FieldValidation.maxLength _) as [b|]; [destruct (Z.eqb b 0)|]);
    destruct (Field.required f); reflexivity.
Qed.

Lemma FormBuilder_caseText_eq (f : Field.t) :
  FormBuilder.caseText f
  = let v := Field.validationOrEmpty f in
    let cs := lengthChecks nonNegative v
                (fun n => Some ("Minimum " ++ Str.ofZ n ++ " characters required"))
                (fun n => Some ("Maximum " ++ Str.ofZ n ++ " characters allowed")) in
    if Field.required f
    then Zod.ZodString
           (cs ++ [Zod.MinLength 1
                     (Some (orStr (FieldValidation.requiredMessage v)
                              "This field is required"))])%list
    else Zod.or (Zod.optional (Zod.ZodString cs)) (Zod.z_literal "").
Proof.
  unfold FormBuilder.caseText, lengthChecks, nonNegative.
  destruct (FieldValidation.minLength _) as [a|]; [destruct (Z.leb 0 a)|];
    (destruct (FieldValidation.maxLength _) as [b|]; [destruct (Z.leb 0 b)|]);
    destruct (Field.required f); reflexivity.
Qed.

(** X17: what a text validator accepts of a string: the empty string
    exactly when the field is not required, and a non-empty string exactly
    when its length respects the bounds the builder reads.  ChecklistRender
    and FormRender read a bound only when it is not 0; the form builder's
    viewer reads every bound that is not negative. *)
Theorem X17_text_accepts (f : Field.t) (s : string) :
  (Zod.parse (ChecklistRender.getStringSchema f) (VString s) = []
   <-> textAccepts nonZero f s = true)
  /\ (Zod.parse (FormRender.getStringSchema f) (VString s) = []
      <-> textAccepts nonZero f s = true)
  /\ (Zod.parse (FormBuilder.caseText f) (VString s) = []
      <-> textAccepts nonNegative f s = true).
Proof.
  rewrite ChecklistRender_getStringSchema_eq, FormRender_getStringSchema_eq,
    FormBuilder_caseText_eq.
  repeat split; apply text_schema_accepts || (intros H; now apply text_schema_accepts in H).
Qed.

Lemma or_literal_empty (a : Zod.Schema) :
  Zod.parse (Zod.ZodUnion [a; Zod.ZodLiteral ""]) (VString "") = [].
Proof.
  change (Zod.parse (Zod.ZodUnion [a; Zod.ZodLiteral ""]) (VString ""))
    with (Zod.handleUnionResults [Zod.parse a (VString ""); []]).
  unfold Zod.handleUnionResults. simpl. now rewrite orb_true_r.
Qed.

Lemma untouched_checklist (f : Field.t) :
  Field.type f = "checklist" -> untouchedPasses f = true ->
  effectiveMin f <= 0
  /\ (forall n, FieldValidation.maxSelections (Field.validationOrEmpty f) = Some n -> 0 <= n).
Proof.
  intros Ht H. unfold untouchedPasses in H. rewrite Ht in H. simpl in H.
  apply andb_true_iff in H. destruct H as [_ H].
  apply andb_true_iff in H. destruct H as [Hmin Hmax].
  apply Z.leb_le in Hmin. split; [exact Hmin|].
  intros n Hn. rewrite Hn in Hmax. now apply Z.leb_le.
Qed.

Lemma untouched_optional_field (f : Field.t) :
  untouchedPasses f = true ->
  (exists schema,
      compiledBy ChecklistRender.buildField f schema
      /\ Zod.parse schema (ChecklistRender.getDefaultValue (Field.type f)) = [])
  /\ (exists schema,
         compiledBy FormRender.buildField f schema
         /\ Zod.parse schema (FormRender.getDefaultValue (Field.type f)) = [])
  /\ Zod.parse (FormBuilder.fieldSchema f) (FormBuilder.defaultValueOf f) = [].
Proof.
  intros H. pose proof H as H0. unfold untouchedPasses in H0.
  apply andb_true_iff in H0. destruct H0 as [H0 _].
  apply andb_true_iff in H0. destruct H0 as [Hr Ht].
  apply negb_true_iff in Hr.
  unfold Field.isFieldType, Field.FieldType in Ht. simpl in Ht.
  unfold compiledBy, ChecklistRender.buildField, FormRender.buildField, lookup,
    ChecklistRender.schemaBuilders, FormRender.schemaBuilders,
    ChecklistRender.getDefaultValue, FormRender.getDefaultValue,
    ChecklistRender.defaults, FormRender.defaults,
    FormBuilder.fieldSchema, FormBuilder.defaultValueOf, FormBuilder.hasType.
  repeat match type of Ht with
         | (String.eqb ?a ?b || _)%bool = true =>
             destruct (String.eqb_spec a b) as [E|_]; [ clear Ht | simpl in Ht ]
         end; try discriminate Ht.
  all: rewrite E; cbn [String.eqb Ascii.eqb Bool.eqb orb andb negb Object_prototype].
  all: (split; [eexists; split; [reflexivity|] | split; [eexists; split; [reflexivity|] | ]]).
  all: try (unfold ChecklistRender.getStringSchema, ChecklistRender.email,
              ChecklistRender.phone, ChecklistRender.number, ChecklistRender.date,
              ChecklistRender.radio, ChecklistRender.select, ChecklistRender.radio,
              FormRender.getStringSchema, FormRender.email, FormRender.phone,
              FormRender.number, FormRender.date,
              FormBuilder.caseText, FormBuilder.caseEmail, FormBuilder.casePhone,
              FormBuilder.caseNumber, FormBuilder.caseDate, FormBuilder.caseSelect;
            rewrite Hr; cbv zeta; apply or_literal_empty).
  all: try (unfold ChecklistRender.checkbox, FormRender.checkbox, FormBuilder.caseCheckbox,
              FormRender.radio, FormRender.select, FormRender.radio;
            rewrite Hr; reflexivity).
  all: try reflexivity.
  all: try (apply ChecklistRender_file_accepts; rewrite Hr;
            rewrite !truthyThen_all by reflexivity; reflexivity).
  all: try (apply FormRender_file_accepts; now rewrite Hr).
  all: destruct (untouched_checklist f E H) as [Hmin Hmax];
       change (VArray []) with (selection []).
  - apply ChecklistRender_checklist_accepts. split; [exact Hmin|].
    intros n Hn _. now apply Hmax.
  - apply FormRender_checklist_accepts. split; [exact Hmin|].
    intros n Hn _. now apply Hmax.
  - apply FormBuilder_checklist_accepts. split; [exact Hmin|].
    intros n Hn. now apply Hmax.
Qed.

(** X18: a field left as it starts validates when it is optional: for a
    field that is not required, of a recognized type (a checklist without a
    positive minimum and without a negative maximum of selections), each of
    the three modules compiles a validator that reports no issue on the
    default value the module gives the field. *)
Theorem X18_untouched_optional (f : Field.t) :
  untouchedPasses f = true ->
  (exists schema,
      compiledBy ChecklistRender.buildField f schema
      /\ Zod.parse schema (ChecklistRender.getDefaultValue (Field.type f)) = [])
  /\ (exists schema,
         compiledBy FormRender.buildField f schema
         /\ Zod.parse schema (FormRender.getDefaultValue (Field.type f)) = [])
  /\ Zod.parse (FormBuilder.fieldSchema f) (FormBuilder.defaultValueOf f) = [].
Proof. exact (untouched_optional_field f). Qed.

Lemma X18_untouched_optional_witness :
  let f := descriptor (Some "n") "checklist" false None in
  Zod.parse (FormBuilder.fieldSchema f) (FormBuilder.defaultValueOf f) = [].
Proof.
  intros f. apply (X18_untouched_optional f). reflexivity.
Defined.

Lemma assignAll_lookup {A : Type} (entry : Field.t -> A) (fields : list Field.t)
  (k : string) :
  forall acc,
    assignAll entry fields acc !! k
    = match (if keyed k then lastWithId k fields else None) with
      | Some f => Some (entry f)
      | None => acc !! k
      end.
Proof.
  induction fields as [|f rest IH]; intros acc; simpl.
  - now destruct (keyed k).
  - unfold idIs. destruct (Field.id f) as [i|].
    + destruct (String.eqb_spec i "") as [E|Hi].
      * subst i. rewrite IH.
        destruct (keyed k) eqn:Hk; [|reflexivity].
        destruct (lastWithId k rest); [reflexivity|].
        destruct (String.eqb_spec "" k) as [<-|_]; [discriminate Hk|reflexivity].
      * rewrite IH, lookup_assign.
        destruct (keyed k) eqn:Hk.
        -- destruct (lastWithId k rest); [reflexivity|].
           destruct (String.eqb_spec i k) as [->|Hne].
           ++ unfold keyed in Hk. apply andb_true_iff in Hk. destruct Hk as [_ Hk].
              apply negb_true_iff in Hk. now rewrite Hk.
           ++ now destruct (String.eqb i "__proto__").
        -- destruct (String.eqb_spec i "__proto__") as [->|Hp]; [reflexivity|].
           destruct (String.eqb_spec i k) as [->|Hne]; [|reflexivity].
           unfold keyed in Hk.
           apply eqb_empty_false in Hi. apply String.eqb_neq in Hp.
           rewrite Hi, Hp in Hk. discriminate Hk.
    + rewrite IH. destruct (keyed k); [|reflexivity].
      now destruct (lastWithId k rest).
Qed.

Lemma ChecklistRender_defaultValuesFrom_eq (fields : list Field.t) (acc : gmap string Value) :
  ChecklistRender.defaultValuesFrom fields acc
  = assignAll (fun f => ChecklistRender.getDefaultValue (Field.type f)) fields acc.
Proof.
  revert acc. induction fields as [|f rest IH]; intros acc; simpl; [reflexivity|].
  destruct (Field.id f) as [i|]; [|apply IH]. destruct (String.eqb i ""); apply IH.
Qed.

Lemma FormBuilder_defaultValuesFrom_eq (fields : list Field.t) (acc : gmap string Value) :
  FormBuilder.defaultValuesFrom fields acc = assignAll FormBuilder.defaultValueOf fields acc.
Proof.
  revert acc. induction fields as [|f rest IH]; intros acc; simpl; [reflexivity|].
  destruct (Field.id f) as [i|]; [|apply IH]. destruct (String.eqb i ""); apply IH.
Qed.

Lemma FormRender_defaultValues_lookup (fields : list Field.t) (k : string) :
  Forall (fun f => Field.id f <> None) fields ->
  forall acc : gmap string Value,
    fold_left
      (fun values f =>
         <[FormRender.keyOf (Field.id f) := FormRender.getDefaultValue (Field.type f)]> values)
      fields acc !! k
    = match lastWithId k fields with
      | Some f => Some (FormRender.getDefaultValue (Field.type f))
      | None => acc !! k
      end.
Proof.
  induction fields as [|f rest IH]; intros Hid acc; [reflexivity|].
  apply Forall_cons in Hid. destruct Hid as [Hf Hid]. simpl.
  rewrite (IH Hid). destruct (lastWithId k rest); [reflexivity|].
  unfold idIs. destruct (Field.id f) as [i|]; [|congruence]. simpl.
  destruct (String.eqb_spec i k) as [->|Hne].
  - apply lookup_insert_eq.
  - now apply lookup_insert_ne.
Qed.

Lemma lastWithId_In (k : string) (fields : list Field.t) (f : Field.t) :
  lastWithId k fields = Some f -> In f fields /\ Field.id f = Some k.
Proof.
  induction fields as [|g rest IH]; simpl; [discriminate|].
  destruct (lastWithId k rest) as [h|].
  - intros [= ->]. destruct (IH eq_refl). tauto.
  - unfold idIs. destruct (Field.id g) as [i|] eqn:Ei; [|discriminate].
    destruct (String.eqb_spec i k) as [->|]; [|discriminate].
    intros [= ->]. tauto.
Qed.

(** A compiled object in which every entry is a validator that accepts the
    value under its key validates without an issue. *)

Lemma parseObject_all_pass (shape : gmap string Zod.Entry) (values : gmap string Value) :
  (forall k e, shape !! k = Some e ->
     exists s, e = Zod.Validator s
               /\ Zod.parse s (nullish (values !! k) VUndefined) = []) ->
  validatesTo shape values.
Proof.
  intros H. unfold validatesTo, Zod.parseObject.
  assert (Hall : forallb (fun kv => Zod.isValidator (snd kv)) (map_to_list shape) = true).
  { apply forallb_forall. intros [k e] Hin. apply list_elem_of_In in Hin.
    apply elem_of_map_to_list in Hin. destruct (H k e Hin) as [s [-> _]]. reflexivity. }
  rewrite Hall. eexists. split; [reflexivity|].
  intros k l. rewrite map_lookup_imap.
  destruct (shape !! k) as [e|] eqn:Hk; [|discriminate]. simpl.
  intros [= <-]. destruct (H k e Hk) as [s [-> Hs]]. simpl. now rewrite Hs.
Qed.

Lemma untouched_recognized (f : Field.t) :
  untouchedPasses f = true -> Object_prototype (Field.type f) = None.
Proof.
  unfold untouchedPasses. intros H.
  apply andb_true_iff in H. destruct H as [H _].
  apply andb_true_iff in H. destruct H as [_ H].
  now apply FieldType_not_inherited.
Qed.

(** X19: a form of optional fields validates untouched: when every field
    is not required and of a recognized type (a checklist without a
    positive minimum and without a negative maximum of selections), the
    validation each module compiles for the fields returns, on the default
    values the module builds for them, without an issue under any key (in
    FormRender for fields that all have an id). *)
Theorem X19_untouched_form_validates (fields : list Field.t) :
  Forall (fun f => untouchedPasses f = true) fields ->
  (exists shape,
      ChecklistRender.buildZodSchema fields = Normal shape
      /\ validatesTo shape (ChecklistRender.defaultValues fields))
  /\ validatesTo (FormBuilder.buildZodSchema fields) (FormBuilder.defaultValues fields)
  /\ (Forall (fun f => Field.id f <> None) fields ->
      exists shape,
        FormRender.buildZodSchema fields = Normal shape
        /\ validatesTo shape (FormRender.defaultValues fields)).
Proof.
  intros Hall.
  assert (Hret : Forall (fun f => Object_prototype (Field.type f) = None) fields).
  { eapply Forall_impl; [exact Hall|]. intros f. apply untouched_recognized. }
  destruct (buildZodSchema_returns fields Hret) as [[shape1 H1] [shape2 H2]].
  assert (Hin : forall k f, lastWithId k fields = Some f -> untouchedPasses f = true).
  { intros k f Hk. apply lastWithId_In in Hk. destruct Hk as [Hk _].
    rewrite Forall_forall in Hall. apply Hall. now apply list_elem_of_In. }
  repeat split.
  - exists shape1. split; [exact H1|]. apply parseObject_all_pass. intros k e Hk.
    destruct (compiled_entries fields k) as [_ [Hc _]]. rewrite (Hc _ H1) in Hk.
    unfold expectedEntry in Hk.
    destruct (keyed k) eqn:Hkey; [|discriminate].
    destruct (lastWithId k fields) as [f|] eqn:Hl; [|discriminate].
    destruct (untouched_optional_field f (Hin _ _ Hl)) as [[s [Hs Hp]] _].
    unfold compiledBy in Hs. rewrite Hs in Hk. injection Hk as <-.
    exists s. split; [reflexivity|].
    unfold ChecklistRender.defaultValues.
    rewrite ChecklistRender_defaultValuesFrom_eq, assignAll_lookup, Hkey, Hl.
    exact Hp.
  - apply parseObject_all_pass. intros k e Hk.
    destruct (compiled_entries fields k) as [Hc _]. rewrite Hc in Hk.
    unfold expectedEntry in Hk.
    destruct (keyed k) eqn:Hkey; [|discriminate].
    destruct (lastWithId k fields) as [f|] eqn:Hl; [|discriminate].
    destruct (untouched_optional_field f (Hin _ _ Hl)) as [_ [_ Hp]].
    injection Hk as <-. eexists. split; [reflexivity|].
    unfold FormBuilder.defaultValues.
    rewrite FormBuilder_defaultValuesFrom_eq, assignAll_lookup, Hkey, Hl.
    exact Hp.
  - intros Hid. exists shape2. split; [exact H2|]. apply parseObject_all_pass. intros k e Hk.
    destruct (compiled_entries fields k) as [_ [_ [Hc _]]]. rewrite (Hc _ H2) in Hk.
    unfold expectedEntry in Hk.
    destruct (keyed k) eqn:Hkey; [|discriminate].
    destruct (lastWithId k fields) as [f|] eqn:Hl; [|discriminate].
    destruct (untouched_optional_field f (Hin _ _ Hl)) as [_ [[s [Hs Hp]] _]].
    unfold compiledBy in Hs. rewrite Hs in Hk. injection Hk as <-.
    exists s. split; [reflexivity|].
    unfold FormRender.defaultValues.
    rewrite (FormRender_defaultValues_lookup fields k Hid), Hl.
    exact Hp.
Qed.

Lemma X19_untouched_form_validates_witness :
  let fields := [descriptor (Some "a") "text" false None;
                 descriptor (Some "b") "checklist" false None;
                 descriptor (Some "a") "number" false None] in
  validatesTo (FormBuilder.buildZodSchema fields) (FormBuilder.defaultValues fields).
Proof.
  intros fields. apply (X19_untouched_form_validates fields).
  repeat constructor.
Defined.

(** ** The phone pattern and the input handlers of RenderField *)

Lemma Lang_Nothing (l : list ascii) : ~ Lang Regex.Nothing l.
Proof. intros H. inversion H. Qed.

Lemma Lang_Eps_inv (l : list ascii) : Lang Regex.Eps l -> l = [].
Proof. intros H. now inversion H. Qed.

Lemma Lang_Class_inv (p : ascii -> bool) (l : list ascii) :
  Lang (Regex.Class p) l -> exists c, l = [c] /\ p c = true.
Proof. intros H. inversion H; subst. eauto. Qed.

Lemma Lang_Seq_inv (a b : Regex.re) (l : list ascii) :
  Lang (Regex.Seq a b) l -> exists l1 l2, l = (l1 ++ l2)%list /\ Lang a l1 /\ Lang b l2.
Proof. intros H. inversion H; subst. eauto. Qed.

Lemma Lang_Alt_inv (a b : Regex.re) (l : list ascii) :
  Lang (Regex.Alt a b) l -> Lang a l \/ Lang b l.
Proof. intros H. inversion H; subst; tauto. Qed.

Lemma Lang_Seq_nil (a b : Regex.re) (l : list ascii) :
  Lang a [] -> Lang b l -> Lang (Regex.Seq a b) l.
Proof. intros Ha Hb. change l with ([] ++ l)%list. now constructor. Qed.

Lemma Lang_Seq_cons (a b : Regex.re) (c : ascii) (l1 l2 : list ascii) :
  Lang a (c :: l1) -> Lang b l2 -> Lang (Regex.Seq a b) (c :: l1 ++ l2)%list.
Proof.
  intros Ha Hb. change (c :: l1 ++ l2)%list with ((c :: l1) ++ l2)%list. now constructor.
Qed.

Lemma nullable_Lang (r : Regex.re) : Regex.nullable r = true <-> Lang r [].
Proof.
  induction r; simpl.
  - split; [discriminate|]. intros H. now apply Lang_Nothing in H.
  - split; [constructor|reflexivity].
  - split; [discriminate|]. intros H. apply Lang_Class_inv in H.
    destruct H as [c [E _]]. discriminate E.
  - rewrite andb_true_iff, IHr1, IHr2. split.
    + intros [H1 H2]. now apply Lang_Seq_nil.
    + intros H. apply Lang_Seq_inv in H. destruct H as [l1 [l2 [E [H1 H2]]]].
      symmetry in E. apply app_eq_nil in E. destruct E as [-> ->]. tauto.
  - rewrite orb_true_iff, IHr1, IHr2. split.
    + intros [H|H]; [now apply Lang_AltL | now apply Lang_AltR].
    + apply Lang_Alt_inv.
  - split; [constructor|reflexivity].
Qed.

Lemma Lang_seq' (a b : Regex.re) (l : list ascii) :
  Lang (Regex.seq' a b) l <-> Lang (Regex.Seq a b) l.
Proof.
  assert (Hl : forall x, Lang (Regex.Seq Regex.Eps x) l <-> Lang x l).
  { intros x. split.
    - intros H. apply Lang_Seq_inv in H. destruct H as [l1 [l2 [-> [H1 H2]]]].
      apply Lang_Eps_inv in H1. now subst.
    - intros H. apply Lang_Seq_nil; [constructor|exact H]. }
  assert (Hr : forall x, Lang (Regex.Seq x Regex.Eps) l <-> Lang x l).
  { intros x. split.
    - intros H. apply Lang_Seq_inv in H. destruct H as [l1 [l2 [-> [H1 H2]]]].
      apply Lang_Eps_inv in H2. subst. now rewrite app_nil_r.
    - intros H. rewrite <- (app_nil_r l). constructor; [exact H|constructor]. }
  assert (Hn : forall x, ~ Lang (Regex.Seq Regex.Nothing x) l).
  { intros x H. apply Lang_Seq_inv in H. destruct H as [l1 [l2 [_ [H1 _]]]].
    now apply Lang_Nothing in H1. }
  assert (Hn' : forall x, ~ Lang (Regex.Seq x Regex.Nothing) l).
  { intros x H. apply Lang_Seq_inv in H. destruct H as [l1 [l2 [_ [_ H2]]]].
    now apply Lang_Nothing in H2. }
  destruct a; destruct b; simpl;
    first [ reflexivity
          | symmetry; apply Hl
          | symmetry; apply Hr
          | split; [intros H; now apply Lang_Nothing in H | intros H; now apply Hn in H]
          | split; [intros H; now apply Lang_Nothing in H | intros H; now apply Hn' in H] ].
Qed.

Lemma Lang_alt' (a b : Regex.re) (l : list ascii) :
  Lang (Regex.alt' a b) l <-> Lang (Regex.Alt a b) l.
Proof.
  assert (Hl : forall x, Lang (Regex.Alt Regex.Nothing x) l <-> Lang x l).
  { intros x. split.
    - intros H. apply Lang_Alt_inv in H. destruct H as [H|H]; [now apply Lang_Nothing in H|assumption].
    - intros H. now apply Lang_AltR. }
  assert (Hr : forall x, Lang (Regex.Alt x Regex.Nothing) l <-> Lang x l).
  { intros x. split.
    - intros H. apply Lang_Alt_inv in H. destruct H as [H|H]; [assumption|now apply Lang_Nothing in H].
    - intros H. now apply Lang_AltL. }
  destruct a; destruct b; simpl;
    first [ reflexivity | symmetry; apply Hl | symmetry; apply Hr ].
Qed.

Lemma Lang_Star_cons (a : Regex.re) (c : ascii) (l : list ascii) :
  Lang (Regex.Star a) (c :: l) ->
  exists l1 l2, l = (l1 ++ l2)%list /\ Lang a (c :: l1) /\ Lang (Regex.Star a) l2.
Proof.
  intros H. remember (Regex.Star a) as r eqn:Er. remember (c :: l) as w eqn:Ew.
  revert Er Ew. induction H as [| | | | | |a' l1 l2 H1 _ H2 IH2]; try discriminate.
  intros Er Ew. injection Er as ->. destruct l1 as [|x l1].
  - simpl in Ew. now apply IH2.
  - simpl in Ew. injection Ew as -> <-. now exists l1, l2.
Qed.

Lemma Lang_deriv (r : Regex.re) (c : ascii) (l : list ascii) :
  Lang (Regex.deriv c r) l <-> Lang r (c :: l).
Proof.
  revert l. induction r as [| |p|a IHa b IHb|a IHa b IHb|a IHa]; intros l; simpl.
  - split; intros H; now apply Lang_Nothing in H.
  - split; intros H; [now apply Lang_Nothing in H|]. apply Lang_Eps_inv in H. discriminate H.
  - destruct (p c) eqn:Hp.
    + split.
      * intros H. apply Lang_Eps_inv in H. subst. now constructor.
      * intros H. apply Lang_Class_inv in H. destruct H as [x [E _]].
        injection E as -> ->. constructor.
    + split; intros H; [now apply Lang_Nothing in H|].
      apply Lang_Class_inv in H. destruct H as [x [E Hx]].
      injection E as <- _. congruence.
  - rewrite Lang_alt'. split.
    + intros H. apply Lang_Alt_inv in H. destruct H as [H|H].
      * apply Lang_seq', Lang_Seq_inv in H. destruct H as [l1 [l2 [-> [Ha Hb]]]].
        apply IHa in Ha. now apply Lang_Seq_cons.
      * destruct (Regex.nullable a) eqn:Hn; [|now apply Lang_Nothing in H].
        apply IHb in H. apply nullable_Lang in Hn. now apply Lang_Seq_nil.
    + intros H. apply Lang_Seq_inv in H. destruct H as [l1 [l2 [E [Ha Hb]]]].
      destruct l1 as [|x l1].
      * simpl in E. subst l2. apply Lang_AltR.
        apply nullable_Lang in Ha. rewrite Ha. now apply IHb.
      * simpl in E. injection E as <- ->. apply Lang_AltL. apply Lang_seq'.
        constructor; [now apply IHa|assumption].
  - rewrite Lang_alt'. split.
    + intros H. apply Lang_Alt_inv in H. destruct H as [H|H].
      * apply Lang_AltL. now apply IHa.
      * apply Lang_AltR. now apply IHb.
    + intros H. apply Lang_Alt_inv in H. destruct H as [H|H].
      * apply Lang_AltL. now apply IHa.
      * apply Lang_AltR. now apply IHb.
  - rewrite Lang_seq'. split.
    + intros H. apply Lang_Seq_inv in H. destruct H as [l1 [l2 [-> [Ha Hb]]]].
      apply IHa in Ha. change (c :: l1 ++ l2)%list with ((c :: l1) ++ l2)%list.
      now constructor.
    + intros H. apply Lang_Star_cons in H. destruct H as [l1 [l2 [-> [H1 H2]]]].
      constructor; [now apply IHa|assumption].
Qed.

(** The matcher decides the language of the expression. *)
Lemma matches_Lang (r : Regex.re) (l : list ascii) :
  Regex.matches r l = true <-> Lang r l.
Proof.
  revert r. induction l as [|c l IH]; intros r; simpl.
  - apply nullable_Lang.
  - rewrite IH. apply Lang_deriv.
Qed.

Lemma Lang_times_Class (p : ascii -> bool) (n : nat) (l : list ascii) :
  Lang (Regex.times n (Regex.Class p)) l <-> length l = n /\ forallb p l = true.
Proof.
  revert l. induction n as [|n IH]; intros l; simpl.
  - split.
    + intros H. apply Lang_Eps_inv in H. now subst.
    + intros [H _]. destruct l; [constructor|discriminate].
  - split.
    + intros H. apply Lang_Seq_inv in H. destruct H as [l1 [l2 [-> [H1 H2]]]].
      apply Lang_Class_inv in H1. destruct H1 as [c [-> Hc]].
      apply IH in H2. destruct H2 as [<- H2]. simpl. now rewrite Hc.
    + intros [Hl Hp]. destruct l as [|c l]; [discriminate|]. simpl in *.
      apply andb_true_iff in Hp. destruct Hp as [Hc Hp].
      change (c :: l) with ([c] ++ l)%list. constructor; [now constructor|].
      apply IH. split; [congruence|assumption].
Qed.

Lemma Lang_upto_Class (p : ascii -> bool) (n : nat) (l : list ascii) :
  Lang (Regex.upto n (Regex.Class p)) l <-> (length l <= n)%nat /\ forallb p l = true.
Proof.
  revert l. induction n as [|n IH]; intros l; simpl.
  - split.
    + intros H. apply Lang_Eps_inv in H. subst. simpl. split; [lia|reflexivity].
    + intros [H _]. destruct l; [constructor|simpl in H; lia].
  - unfold Regex.opt. split.
    + intros H. apply Lang_Alt_inv in H. destruct H as [H|H].
      * apply Lang_Eps_inv in H. subst. simpl. split; [lia|reflexivity].
      * apply Lang_Seq_inv in H. destruct H as [l1 [l2 [-> [H1 H2]]]].
        apply Lang_Class_inv in H1. destruct H1 as [c [-> Hc]].
        apply IH in H2. destruct H2 as [Hl H2]. simpl. rewrite Hc. split; [lia|assumption].
    + intros [Hl Hp]. destruct l as [|c l]; [apply Lang_AltL; constructor|].
      simpl in *. apply andb_true_iff in Hp. destruct Hp as [Hc Hp].
      apply Lang_AltR. change (c :: l) with ([c] ++ l)%list.
      constructor; [now constructor|]. apply IH. split; [lia|assumption].
Qed.

Lemma Lang_between_Class (p : ascii -> bool) (lo hi : nat) (l : list ascii) :
  (lo <= hi)%nat ->
  Lang (Regex.between lo hi (Regex.Class p)) l
  <-> (lo <= length l <= hi)%nat /\ forallb p l = true.
Proof.
  intros Hlohi. unfold Regex.between. split.
  - intros H. apply Lang_Seq_inv in H. destruct H as [l1 [l2 [-> [H1 H2]]]].
    apply Lang_times_Class in H1. apply Lang_upto_Class in H2.
    destruct H1 as [H1 P1]. destruct H2 as [H2 P2].
    rewrite length_app, forallb_app, P1, P2. split; [lia|reflexivity].
  - intros [Hl Hp]. rewrite <- (take_drop lo l).
    rewrite <- (take_drop lo l), forallb_app in Hp.
    apply andb_true_iff in Hp. destruct Hp as [P1 P2].
    constructor.
    + apply Lang_times_Class. split; [|exact P1]. rewrite length_take. lia.
    + apply Lang_upto_Class. split; [|exact P2]. rewrite length_drop. lia.
Qed.

Lemma Lang_Star_Class (p : ascii -> bool) (l : list ascii) :
  Lang (Regex.Star (Regex.Class p)) l <-> forallb p l = true.
Proof.
  split.
  - intros H. remember (Regex.Star (Regex.Class p)) as r eqn:Er.
    induction H as [| | | | | |a l1 l2 H1 _ H2 IH2]; try discriminate; [reflexivity|].
    injection Er as ->. apply Lang_Class_inv in H1. destruct H1 as [c [-> Hc]].
    simpl. rewrite Hc. now apply IH2.
  - induction l as [|c l IH]; simpl; [constructor|].
    intros H. apply andb_true_iff in H. destruct H as [Hc H].
    change (c :: l) with ([c] ++ l)%list. constructor; [now constructor|now apply IH].
Qed.

Lemma phoneChar_not_plus (c : ascii) : phoneChar c = true -> Ascii.eqb c "+" = false.
Proof.
  intros H. destruct (Ascii.eqb_spec c "+") as [->|]; [|reflexivity].
  vm_compute in H. discriminate H.
Qed.

Lemma Lang_phoneRegex (l : list ascii) :
  Lang phoneRegex l
  <-> exists body,
        (l = body \/ l = "+"%char :: body)
        /\ (7 <= length body <= 20)%nat /\ forallb phoneChar body = true.
Proof.
  unfold phoneRegex, Regex.opt. split.
  - intros H. apply Lang_Seq_inv in H. destruct H as [l1 [l2 [-> [H1 H2]]]].
    apply Lang_between_Class in H2; [|lia]. exists l2. split; [|exact H2].
    apply Lang_Alt_inv in H1. destruct H1 as [H1|H1].
    + apply Lang_Eps_inv in H1. subst. now left.
    + apply Lang_Class_inv in H1. destruct H1 as [c [-> Hc]].
      apply Ascii.eqb_eq in Hc. subst c. now right.
  - intros [body [[->| ->] Hb]].
    + apply Lang_Seq_nil; [apply Lang_AltL; constructor|].
      apply Lang_between_Class; [lia|exact Hb].
    + change ("+"%char :: body) with (["+"%char] ++ body)%list. constructor.
      * apply Lang_AltR. constructor. reflexivity.
      * apply Lang_between_Class; [lia|exact Hb].
Qed.

(** X20: what the phone pattern of the validators matches: a string
    matches exactly when, after one optional plus sign at its start, it has
    between seven and twenty characters, each a digit, white space, a dash
    or a parenthesis. *)
Theorem X20_phone_pattern (s : string) : Regex.test phoneRegex s = isPhone s.
Proof.
  unfold Regex.test, isPhone. generalize (Str.chars s) as l. intros l. cbv zeta.
  apply eq_true_iff_eq. rewrite matches_Lang, Lang_phoneRegex.
  rewrite !andb_true_iff, !Nat.leb_le. split.
  - intros [body [[->| ->] [Hl Hp]]].
    + destruct body as [|c body]; [simpl in Hl; lia|].
      assert (Hc : Ascii.eqb c "+" = false).
      { apply phoneChar_not_plus. simpl in Hp. now apply andb_true_iff in Hp. }
      rewrite Hc. tauto.
    + rewrite Ascii.eqb_refl. tauto.
  - destruct l as [|c l].
    + simpl. lia.
    + destruct (Ascii.eqb_spec c "+") as [->|Hc].
      * intros [[H1 H2] H3]. exists l. tauto.
      * intros [[H1 H2] H3]. exists (c :: l). tauto.
Qed.

Lemma test_phoneInput (s : string) :
  Regex.test ChecklistRenderField.phoneInputRegex s
  = forallb ChecklistRenderField.phoneInputChar (Str.chars s).
Proof.
  unfold Regex.test, ChecklistRenderField.phoneInputRegex.
  apply eq_true_iff_eq. now rewrite matches_Lang, Lang_Star_Class.
Qed.

Lemma phoneChar_input (c : ascii) :
  phoneChar c = true -> ChecklistRenderField.phoneInputChar c = true.
Proof.
  unfold phoneChar, ChecklistRenderField.phoneInputChar.
  destruct (Regex.digit c), (Str.is_space c), (Regex.chr "-" c), (Regex.chr "(" c),
    (Regex.chr ")" c), (Regex.chr "+" c); simpl; congruence.
Qed.

Lemma isPhone_input (s : string) :
  isPhone s = true -> forallb ChecklistRenderField.phoneInputChar (Str.chars s) = true.
Proof.
  unfold isPhone. cbv zeta. generalize (Str.chars s) as l. intros l H.
  apply andb_true_iff in H. destruct H as [_ H].
  assert (Hall : forall k, forallb phoneChar k = true ->
                           forallb ChecklistRenderField.phoneInputChar k = true).
  { intros k Hk. rewrite forallb_forall in *. intros x Hx. apply phoneChar_input. auto. }
  destruct l as [|c l]; [reflexivity|].
  destruct (Ascii.eqb_spec c "+") as [->|_]; [|now apply Hall].
  simpl. now apply Hall.
Qed.

Lemma prefix_chars (p s : string) :
  String.prefix p s = true -> exists k, Str.chars s = (Str.chars p ++ k)%list.
Proof.
  revert s. induction p as [|c p IH]; intros s H.
  - now exists (Str.chars s).
  - destruct s as [|d s]; [discriminate H|]. simpl in H.
    revert H. destruct (Ascii.ascii_dec c d) as [->|]; [|discriminate]. intros H.
    destruct (IH s H) as [k Hk]. exists k. unfold Str.chars in *. simpl. now rewrite Hk.
Qed.

(** X21: every phone number the validators accept can be typed: the
    phone input of ChecklistRender hands on, unchanged, every string that
    begins a string matching the phone pattern, so no keystroke on the way
    to an accepted number is refused. *)
Theorem X21_phone_can_be_typed (s typed : string) :
  isPhone s = true -> String.prefix typed s = true ->
  ChecklistRenderField.phoneOnChange typed = Some typed.
Proof.
  intros Hs Hp. unfold ChecklistRenderField.phoneOnChange.
  rewrite test_phoneInput.
  apply isPhone_input in Hs. destruct (prefix_chars _ _ Hp) as [k Hk].
  rewrite Hk, forallb_app in Hs. apply andb_true_iff in Hs. destruct Hs as [Hs _].
  rewrite Hs. now rewrite orb_true_r.
Qed.

Lemma X21_phone_can_be_typed_witness :
  ChecklistRenderField.phoneOnChange "+1 (555" = Some "+1 (555".
Proof.
  apply (X21_phone_can_be_typed "+1 (555) 010-9999" "+1 (555"); reflexivity.
Defined.

Lemma collapse_head (l : list ascii) :
  startsBlank (FormRenderField.collapse l) = startsBlank l.
Proof.
  induction l as [|c l IH]; [reflexivity|]. simpl.
  destruct (FormRenderField.isBlank c) eqn:Hc.
  - destruct l as [|c' l]; [simpl; exact Hc|].
    destruct (FormRenderField.isBlank c') eqn:Hc'.
    + rewrite IH. simpl. exact Hc'.
    + simpl. exact Hc.
  - simpl. exact Hc.
Qed.

Lemma collapse_noDouble (l : list ascii) : noDoubleBlank (FormRenderField.collapse l) = true.
Proof.
  induction l as [|c l IH]; [reflexivity|]. simpl.
  destruct (FormRenderField.isBlank c) eqn:Hc.
  - destruct l as [|c' l]; [reflexivity|].
    destruct (FormRenderField.isBlank c') eqn:Hc'; [exact IH|].
    cbn [noDoubleBlank]. rewrite IH, andb_true_r.
    pose proof (collapse_head (c' :: l)) as Hh.
    destruct (FormRenderField.collapse (c' :: l)) as [|d k] eqn:E; [reflexivity|].
    simpl in Hh. rewrite Hh, Hc'. now rewrite andb_false_r.
  - cbn [noDoubleBlank]. rewrite IH, Hc, andb_true_r.
    now destruct (FormRenderField.collapse l).
Qed.

Lemma collapse_fixed (l : list ascii) :
  noDoubleBlank l = true -> FormRenderField.collapse l = l.
Proof.
  induction l as [|c l IH]; [reflexivity|]. cbn [noDoubleBlank FormRenderField.collapse].
  intros H. apply andb_true_iff in H. destruct H as [H1 H2].
  destruct (FormRenderField.isBlank c).
  - destruct l as [|c' l]; [reflexivity|].
    simpl in H1. apply negb_true_iff in H1. rewrite H1. now rewrite IH.
  - now rewrite IH.
Qed.

Lemma chars_of_chars (l : list ascii) : Str.chars (Str.of_chars l) = l.
Proof. apply list_ascii_of_string_of_list_ascii. Qed.

Lemma of_chars_chars (s : string) : Str.of_chars (Str.chars s) = s.
Proof. apply string_of_list_ascii_of_string. Qed.

Lemma drop_space_head (l : list ascii) :
  match Str.drop_space l with
  | c :: _ => Str.is_space c = false
  | [] => True
  end.
Proof.
  induction l as [|c l IH]; simpl; [exact I|].
  destruct (Str.is_space c) eqn:Hc; [exact IH|exact Hc].
Qed.

Lemma startsWith_blank (s : string) :
  Str.startsWith s " " = startsBlank (Str.chars s).
Proof.
  unfold Str.startsWith. destruct s as [|c s]; [reflexivity|].
  change (String.prefix " " (String c s))
    with (match Ascii.ascii_dec " " c with
          | left _ => String.prefix "" s
          | right _ => false
          end).
  change (startsBlank (Str.chars (String c s))) with (Ascii.eqb c " ").
  destruct (Ascii.ascii_dec " " c) as [<-|Hn].
  - now destruct s.
  - symmetry. apply Ascii.eqb_neq. congruence.
Qed.

(** X22: what the phone input of FormRender hands on: a value it hands on
    starts with no space, has no two spaces in a row, holds only digits,
    plus signs, dashes, white space and parentheses, and is handed on
    unchanged when it is entered again. *)
Theorem X22_phone_input_normalised (val out : string) :
  FormRenderField.phoneOnChange val = Some out ->
  startsBlank (Str.chars out) = false
  /\ noDoubleBlank (Str.chars out) = true
  /\ forallb ChecklistRenderField.phoneInputChar (Str.chars out) = true
  /\ FormRenderField.phoneOnChange out = Some out.
Proof.
  unfold FormRenderField.phoneOnChange at 1. cbv zeta.
  set (trimmed := if Str.startsWith val " " then FormRenderField.trimStart val else val).
  rewrite test_phoneInput, chars_of_chars.
  destruct (forallb _ (FormRenderField.collapse (Str.chars trimmed))) eqn:Hall; [|discriminate].
  intros [= <-]. rewrite chars_of_chars.
  assert (Hhead : startsBlank (FormRenderField.collapse (Str.chars trimmed)) = false).
  { rewrite collapse_head. unfold trimmed. rewrite startsWith_blank.
    destruct (startsBlank (Str.chars val)) eqn:Hb; [|exact Hb].
    unfold FormRenderField.trimStart. rewrite chars_of_chars.
    pose proof (drop_space_head (Str.chars val)) as Hd.
    destruct (Str.drop_space (Str.chars val)) as [|c k]; [reflexivity|].
    simpl. unfold FormRenderField.isBlank.
    destruct (Ascii.eqb_spec c " ") as [->|]; [discriminate Hd|reflexivity]. }
  split; [exact Hhead|]. split; [apply collapse_noDouble|]. split; [exact Hall|].
  unfold FormRenderField.phoneOnChange. cbv zeta.
  rewrite startsWith_blank, chars_of_chars, Hhead, chars_of_chars.
  rewrite (collapse_fixed _ (collapse_noDouble _)).
  rewrite test_phoneInput, chars_of_chars, Hall. reflexivity.
Qed.

Lemma X22_phone_input_normalised_witness :
  FormRenderField.phoneOnChange "  12  34" = Some "12 34"
  /\ FormRenderField.phoneOnChange "12 34" = Some "12 34".
Proof.
  split; [reflexivity|].
  apply (X22_phone_input_normalised "  12  34" "12 34"). reflexivity.
Defined.

Lemma filter_neq_absent (t : string) (l : list string) :
  ~ In t l -> List.filter (fun x => negb (String.eqb x t)) l = l.
Proof.
  induction l as [|y l IH]; simpl; intros H; [reflexivity|].
  destruct (String.eqb_spec y t) as [E|_]; [tauto|]. simpl. f_equal. apply IH. tauto.
Qed.

Lemma filter_neq_not_In (t : string) (l : list string) :
  ~ In t (List.filter (fun x => negb (String.eqb x t)) l).
Proof.
  intros H. apply filter_In in H. destruct H as [_ H].
  now rewrite String.eqb_refl in H.
Qed.

(** X23: ticking an option of a checklist puts it in the selection and
    unticking it takes every occurrence out, which gives back the selection
    held before when the option was not in it; the two RenderField modules
    do the same.  The handler does not look at [maxSelections]: one more
    tick on a selection that has reached a non-zero maximum gives a
    selection the validator rejects. *)
Theorem X23_checklist_toggle (value : option (list string)) (opt : string) (f : Field.t) :
  let current := nullish value [] in
  let ticked := ChecklistRenderField.checklistOnChange value opt true in
  let unticked := ChecklistRenderField.checklistOnChange (Some ticked) opt false in
  (forall c, FormRenderField.checklistOnChange value opt c
             = ChecklistRenderField.checklistOnChange value opt c)
  /\ In opt ticked
  /\ ~ In opt unticked
  /\ (~ In opt current -> unticked = current)
  /\ (forall n, FieldValidation.maxSelections (Field.validationOrEmpty f) = Some n ->
      n <> 0 -> Z.of_nat (length current) = n ->
      Zod.parse (ChecklistRender.checklist f) (selection ticked) <> []).
Proof.
  cbv zeta.
  unfold FormRenderField.checklistOnChange, ChecklistRenderField.checklistOnChange.
  cbn [nullish]. generalize (nullish value []) as l. intros l.
  split; [reflexivity|].
  split; [apply in_or_app; right; now left|].
  split; [apply filter_neq_not_In|].
  split.
  - intros H. rewrite List.filter_app. simpl. rewrite String.eqb_refl. simpl.
    rewrite app_nil_r. now apply filter_neq_absent.
  - intros n Hn Hz Hl Hp. apply ChecklistRender_checklist_accepts in Hp.
    destruct Hp as [_ Hp]. specialize (Hp n Hn Hz).
    rewrite length_app in Hp. simpl in Hp. lia.
Qed.

(** ** The builders *)

Lemma idsOf_elem (l : list Field.t) (i : option string) :
  i ∈ Builder.idsOf l <-> exists f, In f l /\ Field.id f = i.
Proof.
  unfold Builder.idsOf. rewrite elem_of_list_to_set, list_elem_of_fmap.
  split; intros [f [H1 H2]]; exists f.
  - apply list_elem_of_In in H2. split; congruence.
  - split; [congruence|]. now apply list_elem_of_In.
Qed.

Lemma filter_nil_Forall {A : Type} (p : A -> bool) (l : list A) :
  List.filter p l = [] <-> Forall (fun x => p x = false) l.
Proof.
  induction l as [|x l IH]; simpl.
  - split; [constructor|reflexivity].
  - destruct (p x) eqn:Hx.
    + split; [discriminate|]. intros H. apply Forall_cons in H. destruct H as [H _]. congruence.
    + rewrite IH. split.
      * intros H. now apply Forall_cons.
      * intros H. now apply Forall_cons in H.
Qed.

Lemma Form_handleSaveClick_open (st : Builder.State) :
  Builder.isPreviewOpen st = false ->
  Builder.isPreviewOpen (Builder.Form.handleSaveClick st) = true
  <-> Forall (fun f => Builder.emptyLabel f = false) (Builder.fields st).
Proof.
  intros Hc. rewrite <- filter_nil_Forall. unfold Builder.Form.handleSaveClick.
  destruct (List.filter Builder.emptyLabel (Builder.fields st)); simpl.
  - tauto.
  - rewrite Hc. split; discriminate.
Qed.

Lemma idsOf_size_zero (l : list Field.t) : size (Builder.idsOf l) = 0%nat <-> l = [].
Proof.
  rewrite size_empty_iff. split.
  - intros H. destruct l as [|f l]; [reflexivity|].
    assert (Hin : Field.id f ∈ Builder.idsOf (f :: l)).
    { apply idsOf_elem. exists f. split; [now left|reflexivity]. }
    rewrite H in Hin. now apply not_elem_of_empty in Hin.
  - intros ->. reflexivity.
Qed.

Lemma Checklist_handleSaveClick_open (st : Builder.State) :
  Builder.isPreviewOpen st = false ->
  Builder.isPreviewOpen (Builder.Checklist.handleSaveClick st) = true
  <-> Forall (fun f => Builder.emptyLabel f = false /\ Builder.fileWithoutTypes f = false)
        (Builder.fields st).
Proof.
  intros Hc. rewrite Forall_and, <- !filter_nil_Forall.
  unfold Builder.Checklist.handleSaveClick. cbv zeta.
  set (a := List.filter Builder.emptyLabel (Builder.fields st)).
  set (b := List.filter Builder.fileWithoutTypes (Builder.fields st)).
  destruct (bool_decide (size (Builder.idsOf a ∪ Builder.idsOf b) = 0%nat)) eqn:Hs.
  - apply bool_decide_eq_true in Hs. apply size_empty_iff in Hs.
    apply empty_union in Hs. destruct Hs as [Ha Hb].
    apply size_empty_iff, idsOf_size_zero in Ha.
    apply size_empty_iff, idsOf_size_zero in Hb.
    rewrite Ha, Hb. simpl. tauto.
  - apply bool_decide_eq_false in Hs. cbn [negb].
    assert (Hne : ~ (a = [] /\ b = [])).
    { intros [Ha Hb]. apply Hs. rewrite Ha, Hb. reflexivity. }
    destruct a as [|x a']; destruct b as [|y b']; simpl; rewrite Hc;
      split; try discriminate; intros [H1 H2]; try discriminate; tauto.
Qed.

Lemma handleSaveClick_marks (st : Builder.State) (f : Field.t) :
  In f (Builder.fields st) -> Builder.emptyLabel f = true ->
  Field.id f ∈ Builder.fieldErrors (Builder.Form.handleSaveClick st)
  /\ Field.id f ∈ Builder.fieldErrors (Builder.Checklist.handleSaveClick st).
Proof.
  intros Hin He.
  assert (Hf : In f (List.filter Builder.emptyLabel (Builder.fields st))).
  { apply filter_In. now split. }
  assert (Hid : Field.id f ∈ Builder.idsOf (List.filter Builder.emptyLabel (Builder.fields st))).
  { apply idsOf_elem. now exists f. }
  split.
  - unfold Builder.Form.handleSaveClick.
    destruct (List.filter Builder.emptyLabel (Builder.fields st)) as [|x a] eqn:Ea;
      [destruct Hf|]. exact Hid.
  - unfold Builder.Checklist.handleSaveClick. cbv zeta.
    set (a := List.filter Builder.emptyLabel (Builder.fields st)) in *.
    set (b := List.filter Builder.fileWithoutTypes (Builder.fields st)).
    assert (Hu : Field.id f ∈ Builder.idsOf a ∪ Builder.idsOf b)
      by (apply elem_of_union; now left).
    destruct (bool_decide (size (Builder.idsOf a ∪ Builder.idsOf b) = 0%nat)) eqn:Hs.
    + apply bool_decide_eq_true, size_empty_iff in Hs. rewrite Hs in Hu.
      now apply not_elem_of_empty in Hu.
    + cbn [negb]. destruct a as [|x a']; [destruct Hf|].
      destruct b; exact Hu.
Qed.

Lemma handleSaveClick_fields (st : Builder.State) :
  Builder.fields (Builder.Form.handleSaveClick st) = Builder.fields st
  /\ Builder.fields (Builder.Checklist.handleSaveClick st) = Builder.fields st.
Proof.
  split.
  - unfold Builder.Form.handleSaveClick.
    now destruct (List.filter Builder.emptyLabel (Builder.fields st)).
  - unfold Builder.Checklist.handleSaveClick. cbv zeta.
    destruct (negb _); [|reflexivity].
    destruct (List.filter Builder.emptyLabel (Builder.fields st));
      destruct (List.filter Builder.fileWithoutTypes (Builder.fields st)); reflexivity.
Qed.

(** X24: when the preview is closed, Save opens it exactly when every
    field has a label that is not blank; in the checklist builder every
    file field must also have an accepted file type.  A field with a blank
    label gets its id among the field errors, and Save never changes the
    fields. *)
Theorem X24_save_gate (st : Builder.State) :
  Builder.isPreviewOpen st = false ->
  (Builder.isPreviewOpen (Builder.Form.handleSaveClick st) = true
   <-> Forall (fun f => Builder.emptyLabel f = false) (Builder.fields st))
  /\ (Builder.isPreviewOpen (Builder.Checklist.handleSaveClick st) = true
      <-> Forall (fun f => Builder.emptyLabel f = false
                           /\ Builder.fileWithoutTypes f = false)
            (Builder.fields st))
  /\ (forall f, In f (Builder.fields st) -> Builder.emptyLabel f = true ->
      Field.id f ∈ Builder.fieldErrors (Builder.Form.handleSaveClick st)
      /\ Field.id f ∈ Builder.fieldErrors (Builder.Checklist.handleSaveClick st))
  /\ Builder.fields (Builder.Form.handleSaveClick st) = Builder.fields st
  /\ Builder.fields (Builder.Checklist.handleSaveClick st) = Builder.fields st.
Proof.
  intros Hc. split; [now apply Form_handleSaveClick_open|].
  split; [now apply Checklist_handleSaveClick_open|].
  split; [apply handleSaveClick_marks|apply handleSaveClick_fields].
Qed.

Lemma X24_save_gate_witness :
  let st := Builder.handleAddField "text" "u1" emptyState in
  Builder.isPreviewOpen (Builder.Form.handleSaveClick st) = true
  <-> Forall (fun f => Builder.emptyLabel f = false) (Builder.fields st).
Proof.
  intros st. apply (X24_save_gate st). reflexivity.
Defined.

(** X25: a field just added blocks the save: it starts with an empty
    label, so after [handleAddField] Save leaves the preview closed and
    marks the new field's id as an error, in both builders and whatever the
    fields were before. *)
Theorem X25_new_field_needs_label (type uuid : string) (st : Builder.State) :
  Builder.isPreviewOpen st = false ->
  let st' := Builder.handleAddField type uuid st in
  (Builder.isPreviewOpen (Builder.Form.handleSaveClick st') = false
   /\ Some ("field_" ++ uuid) ∈ Builder.fieldErrors (Builder.Form.handleSaveClick st'))
  /\ (Builder.isPreviewOpen (Builder.Checklist.handleSaveClick st') = false
      /\ Some ("field_" ++ uuid)
           ∈ Builder.fieldErrors (Builder.Checklist.handleSaveClick st')).
Proof.
  intros Hc st'.
  set (newField :=
         Field.mk (Some ("field_" ++ uuid)) type "" (Some "") None false
           (if Builder.isChoiceType type then Some ["Option 1"; "Option 2"] else None)
           None None None None None None None).
  assert (Hin : In newField (Builder.fields st')).
  { unfold st', Builder.handleAddField. simpl. apply in_or_app. right. now left. }
  assert (He : Builder.emptyLabel newField = true) by reflexivity.
  assert (Hc' : Builder.isPreviewOpen st' = false) by exact Hc.
  destruct (handleSaveClick_marks st' newField Hin He) as [M1 M2].
  assert (Hbad : ~ Forall (fun f => Builder.emptyLabel f = false) (Builder.fields st')).
  { intros H. rewrite Forall_forall in H.
    specialize (H newField (proj2 (list_elem_of_In _ _) Hin)). congruence. }
  repeat split.
  - apply not_true_is_false. intros E. apply Hbad.
    now apply (Form_handleSaveClick_open st' Hc').
  - exact M1.
  - apply not_true_is_false. intros E. apply Hbad.
    apply (Checklist_handleSaveClick_open st' Hc') in E.
    eapply Forall_impl; [exact E|]. now intros f [H _].
  - exact M2.
Qed.

Lemma X25_new_field_needs_label_witness :
  Builder.isPreviewOpen
    (Builder.Form.handleSaveClick (Builder.handleAddField "text" "u1" emptyState)) = false.
Proof.
  apply (X25_new_field_needs_label "text" "u1" emptyState). reflexivity.
Defined.

Lemma handleUpdateField_fields (id : string) (u : Updates.t) (st : Builder.State) :
  Builder.fields (Builder.handleUpdateField id u st)
  = map (fun field => if bool_decide (Field.id field = Some id)
                      then Updates.spread field u else field)
      (Builder.fields st).
Proof.
  unfold Builder.handleUpdateField. cbv zeta.
  destruct (Updates.label u) as [l|]; [|reflexivity].
  now destruct (negb _ && negb _).
Qed.

(** X26: an update touches the fields with the given id only: every
    other field stays at its place as it is, a field with the id becomes
    the field overridden by the update, the ids stay as they are when the
    update sets no id, and the fields are unchanged when no field has the
    id. *)
Theorem X26_update_touches_one (id : string) (u : Updates.t) (st : Builder.State) :
  let st' := Builder.handleUpdateField id u st in
  (Updates.id u = None ->
   map Field.id (Builder.fields st') = map Field.id (Builder.fields st))
  /\ (forall i f, Builder.fields st !! i = Some f -> Field.id f <> Some id ->
      Builder.fields st' !! i = Some f)
  /\ (forall i f, Builder.fields st !! i = Some f -> Field.id f = Some id ->
      Builder.fields st' !! i = Some (Updates.spread f u))
  /\ (~ In (Some id) (map Field.id (Builder.fields st)) ->
      Builder.fields st' = Builder.fields st).
Proof.
  cbv zeta. rewrite handleUpdateField_fields. repeat split.
  - intros Hu. rewrite map_map. apply map_ext. intros f.
    destruct (bool_decide (Field.id f = Some id)); [|reflexivity].
    unfold Updates.spread. simpl. now rewrite Hu.
  - intros i f Hi Hf. rewrite list_lookup_fmap, Hi. simpl.
    now rewrite bool_decide_eq_false_2.
  - intros i f Hi Hf. rewrite list_lookup_fmap, Hi. simpl.
    now rewrite bool_decide_eq_true_2.
  - intros Hn. induction (Builder.fields st) as [|f l IH]; [reflexivity|]. simpl in *.
    rewrite IH by tauto. rewrite bool_decide_eq_false_2 by tauto. reflexivity.
Qed.

(** X27: deleting a field just added gives back the fields held before,
    when no field had the new id; and after [handleDeleteField id] no field
    has the id. *)
Theorem X27_add_then_delete (type uuid : string) (st : Builder.State) :
  ~ In (Some ("field_" ++ uuid)) (map Field.id (Builder.fields st)) ->
  Builder.fields
    (Builder.handleDeleteField ("field_" ++ uuid) (Builder.handleAddField type uuid st))
  = Builder.fields st
  /\ (forall id,
        ~ In (Some id)
            (map Field.id (Builder.fields (Builder.handleDeleteField id st)))).
Proof.
  intros Hfresh. split.
  - unfold Builder.handleDeleteField, Builder.handleAddField. simpl.
    rewrite List.filter_app. simpl. rewrite bool_decide_eq_true_2 by reflexivity.
    simpl. rewrite app_nil_r.
    induction (Builder.fields st) as [|f l IH]; [reflexivity|]. simpl in *.
    rewrite bool_decide_eq_false_2 by tauto. simpl. f_equal. apply IH. tauto.
  - intros id. unfold Builder.handleDeleteField. simpl. intros Hin.
    apply in_map_iff in Hin. destruct Hin as [f [Hf Hin]].
    apply filter_In in Hin. destruct Hin as [_ Hin].
    apply negb_true_iff, bool_decide_eq_false in Hin. contradiction.
Qed.

Lemma X27_add_then_delete_witness :
  Builder.fields
    (Builder.handleDeleteField "field_u1" (Builder.handleAddField "text" "u1" emptyState))
  = [].
Proof.
  apply (X27_add_then_delete "text" "u1" emptyState). simpl. tauto.
Defined.

Lemma idOrNew_nonempty (documentId : option string) (uuid : string) :
  uuid <> "" -> Builder.idOrNew documentId uuid <> "".
Proof.
  intros Hu. unfold Builder.idOrNew. destruct documentId as [i|]; [|exact Hu].
  destruct (String.eqb_spec i ""); assumption.
Qed.

Lemma idOrNew_set (i uuid : string) : i <> "" -> Builder.idOrNew (Some i) uuid = i.
Proof.
  intros Hi. unfold Builder.idOrNew. now destruct (String.eqb_spec i "").
Qed.

Lemma orStr_Some_empty (s : string) : orStr (Some s) "" = s.
Proof. unfold orStr. now destruct (String.eqb_spec s "") as [->|]. Qed.

Lemma In_ids_saved (d : Document.t) (docs : list Document.t) :
  In (Document.id d) (ids (saved d docs)).
Proof.
  rewrite ids_saved. destruct (existsb _ (ids docs)) eqn:E.
  - now apply existsb_eqb_In.
  - apply in_or_app. right. now left.
Qed.

Lemma Form_load_found (i : string) (st0 : Builder.State) (w : Storage.World)
  (d : Document.t) :
  i <> "" -> fst (FormStore.getForm i w) = Some d ->
  Builder.Form.load (Some i) st0 w
  = (Builder.mkState (Document.fields d) (Document.name d)
       (orStr (Document.description d) "") (Builder.isPreviewOpen st0)
       (Some (Document.id d)) (Builder.fieldErrors st0) (Builder.toasts st0),
     snd (FormStore.getForm i w)).
Proof.
  intros Hi Hd. unfold Builder.Form.load. simpl truthyStr.
  apply eqb_empty_false in Hi. rewrite Hi. cbn [negb nullish].
  destruct (FormStore.getForm i w) as [existing w']. simpl in Hd. now subst existing.
Qed.

Lemma Checklist_load_found (i : string) (st0 : Builder.State) (w : Storage.World)
  (d : Document.t) :
  i <> "" -> fst (ChecklistStore.getChecklist i w) = Some d ->
  Builder.Checklist.load (Some i) st0 w
  = (Builder.mkState (Document.fields d) (Document.name d)
       (orStr (Document.description d) "") (Builder.isPreviewOpen st0)
       (Some (Document.id d)) (Builder.fieldErrors st0) (Builder.toasts st0),
     snd (ChecklistStore.getChecklist i w)).
Proof.
  intros Hi Hd. unfold Builder.Checklist.load. simpl truthyStr.
  apply eqb_empty_false in Hi. rewrite Hi. cbn [negb nullish].
  destruct (ChecklistStore.getChecklist i w) as [existing w']. simpl in Hd.
  now subst existing.
Qed.

Lemma getForms_getForm (i : string) (w : Storage.World) :
  fst (FormStore.getForms (snd (FormStore.getForm i w))) = fst (FormStore.getForms w).
Proof.
  apply getForms_storage. unfold FormStore.getForm.
  pose proof (FormStore_keeps_storage w) as H.
  destruct (FormStore.getForms w) as [docs w']. simpl in *. now rewrite H.
Qed.

Lemma getChecklists_getChecklist (i : string) (w : Storage.World) :
  fst (ChecklistStore.getChecklists (snd (ChecklistStore.getChecklist i w)))
  = fst (ChecklistStore.getChecklists w).
Proof.
  apply getChecklists_storage. unfold ChecklistStore.getChecklist.
  pose proof (ChecklistStore_keeps_storage w) as H.
  destruct (ChecklistStore.getChecklists w) as [docs w']. simpl in *. now rewrite H.
Qed.

Lemma ids_saved_present (d : Document.t) (docs : list Document.t) :
  In (Document.id d) (ids docs) -> ids (saved d docs) = ids docs.
Proof.
  intros H. rewrite ids_saved. apply existsb_eqb_In in H. now rewrite H.
Qed.

(** X28: a confirmed save can be reopened: after [handleConfirmSave] the
    preview is closed and the store holds the builder's schema under its
    id; opening the builder on that id restores the fields, the name, the
    description and the id; and confirming again from there stores no
    further document.  The id is the one being edited or else the fresh
    one, which is not empty.  The same for the checklist builder. *)
Theorem X28_confirm_then_reopen (uuid uuid' : string) (st st0 : Builder.State)
  (w : Storage.World) :
  uuid <> "" ->
  let id := Builder.idOrNew (Builder.documentId st) uuid in
  (let out := Builder.Form.handleConfirmSave uuid st w in
   let back := Builder.Form.load (Some id) st0 (snd out) in
   Builder.isPreviewOpen (fst out) = false
   /\ fst (FormStore.getForm id (snd out)) = Some (Builder.schema uuid st)
   /\ (Builder.fields (fst back) = Builder.fields st
       /\ Builder.name (fst back) = Builder.name st
       /\ Builder.description (fst back) = Builder.description st
       /\ Builder.documentId (fst back) = Some id)
   /\ ids (fst (FormStore.getForms
                  (snd (Builder.Form.handleConfirmSave uuid' (fst back) (snd back)))))
      = ids (fst (FormStore.getForms (snd out))))
  /\ (let out := Builder.Checklist.handleConfirmSave uuid st w in
      let back := Builder.Checklist.load (Some id) st0 (snd out) in
      Builder.isPreviewOpen (fst out) = false
      /\ fst (ChecklistStore.getChecklist id (snd out)) = Some (Builder.schema uuid st)
      /\ (Builder.fields (fst back) = Builder.fields st
          /\ Builder.name (fst back) = Builder.name st
          /\ Builder.description (fst back) = Builder.description st
          /\ Builder.documentId (fst back) = Some id)
      /\ ids (fst (ChecklistStore.getChecklists
                     (snd (Builder.Checklist.handleConfirmSave uuid' (fst back)
                             (snd back)))))
         = ids (fst (ChecklistStore.getChecklists (snd out)))).
Proof.
  intros Hu id.
  assert (Hid : id <> "") by now apply idOrNew_nonempty.
  split; cbv zeta.
  - change (Builder.Form.handleConfirmSave uuid st w)
      with (Builder.setIsPreviewOpen st false,
            FormStore.saveForm (Builder.schema uuid st) w).
    cbn [fst snd].
    assert (Hget : fst (FormStore.getForm id (FormStore.saveForm (Builder.schema uuid st) w))
                   = Some (Builder.schema uuid st)).
    { rewrite getForm_fst, getForms_saveForm.
      exact (find_saved (Builder.schema uuid st) _). }
    split; [reflexivity|]. split; [exact Hget|].
    rewrite (Form_load_found id st0 _ _ Hid Hget). cbn [fst snd Builder.fields
      Builder.name Builder.description Builder.documentId Builder.schema Document.fields
      Document.name Document.description Document.id].
    split; [repeat split; apply orStr_Some_empty|].
    unfold Builder.Form.handleConfirmSave. cbn [snd].
    rewrite !getForms_saveForm, getForms_getForm, !getForms_saveForm.
    apply ids_saved_present. unfold Builder.schema at 1.
    cbn [Document.id Builder.documentId]. fold id. rewrite (idOrNew_set id uuid' Hid).
    apply (In_ids_saved (Builder.schema uuid st)).
  - change (Builder.Checklist.handleConfirmSave uuid st w)
      with (Builder.setIsPreviewOpen st false,
            ChecklistStore.saveChecklist (Builder.schema uuid st) w).
    cbn [fst snd].
    assert (Hget : fst (ChecklistStore.getChecklist id
                          (ChecklistStore.saveChecklist (Builder.schema uuid st) w))
                   = Some (Builder.schema uuid st)).
    { rewrite getChecklist_fst, getChecklists_saveChecklist.
      exact (find_saved (Builder.schema uuid st) _). }
    split; [reflexivity|]. split; [exact Hget|].
    rewrite (Checklist_load_found id st0 _ _ Hid Hget). cbn [fst snd Builder.fields
      Builder.name Builder.description Builder.documentId Builder.schema Document.fields
      Document.name Document.description Document.id].
    split; [repeat split; apply orStr_Some_empty|].
    unfold Builder.Checklist.handleConfirmSave. cbn [snd].
    rewrite !getChecklists_saveChecklist, getChecklists_getChecklist,
      !getChecklists_saveChecklist.
    apply ids_saved_present. unfold Builder.schema at 1.
    cbn [Document.id Builder.documentId]. fold id. rewrite (idOrNew_set id uuid' Hid).
    apply (In_ids_saved (Builder.schema uuid st)).
Qed.

Lemma X28_confirm_then_reopen_witness :
  let st := Builder.handleAddField "text" "u1" emptyState in
  let w := Storage.mkWorld ∅ [] in
  fst (FormStore.getForm "d1" (snd (Builder.Form.handleConfirmSave "d1" st w)))
  = Some (Builder.schema "d1" st).
Proof.
  intros st w.
  refine (proj1 (proj2 (proj1 (X28_confirm_then_reopen "d1" "d2" st emptyState w _)))).
  discriminate.
Defined.

Lemma dropAt_last {A : Type} (l : list A) (x : A) :
  OptionsSection.dropAt (length l) (l ++ [x])%list = l.
Proof. induction l as [|y l IH]; simpl; [reflexivity|]. now rewrite IH. Qed.

(** X29: adding an option appends [Option n+1] to the [n] options of the
    field, removing the option at the old length gives back the options
    held before, and removing at an index past the end changes nothing. *)
Theorem X29_option_add_remove (f : Field.t) :
  let added := Updates.spread f (OptionsSection.handleOptionAdd f) in
  optionsOf added
  = app (optionsOf f) ["Option " ++ Str.ofZ (Z.of_nat (length (optionsOf f)) + 1)]
  /\ optionsOf (Updates.spread added
                  (OptionsSection.handleOptionRemove added (length (optionsOf f))))
     = optionsOf f
  /\ (forall index, (length (optionsOf f) <= index)%nat ->
      optionsOf (Updates.spread f (OptionsSection.handleOptionRemove f index))
      = optionsOf f).
Proof.
  cbv zeta. unfold optionsOf, OptionsSection.handleOptionAdd,
    OptionsSection.handleOptionRemove, OptionsSection.setOptions, Updates.spread.
  cbn [Field.options Updates.options nullish].
  split; [reflexivity|]. split; [apply dropAt_last|].
  intros index. generalize (nullish (Field.options f) []) as l.
  intros l. revert index. induction l as [|x l IH]; intros index H; [now destruct index|].
  destruct index as [|i]; [simpl in H; lia|]. simpl. f_equal. apply IH. simpl in H. lia.
Qed.

(** X30: switching an accepted file type on and off again leaves a field
    without the type, with the types it had when the type was not among
    them.  While the type is on, the checklist upload accepts every file
    the type accepts, and keeps accepting every file it accepted when the
    field had a type before. *)
Theorem X30_file_type_toggle (f : Field.t) (t : string) (file : File) :
  let on := Updates.spread f (FileSettings.handleFileTypeToggle f t true) in
  let off := Updates.spread on (FileSettings.handleFileTypeToggle on t false) in
  ~ In t (typesOf off)
  /\ (~ In t (typesOf f) -> typesOf off = typesOf f)
  /\ (ChecklistFileUpload.acceptedBy file t = true ->
      ChecklistFileUpload.isFileAccepted on file = true)
  /\ (typesOf f <> [] -> ChecklistFileUpload.isFileAccepted f file = true ->
      ChecklistFileUpload.isFileAccepted on file = true).
Proof.
  cbv zeta. unfold typesOf, FileSettings.handleFileTypeToggle,
    FileSettings.setAcceptedFileTypes, Updates.spread,
    ChecklistFileUpload.isFileAccepted.
  cbn [Field.acceptedFileTypes Updates.acceptedFileTypes nullish].
  generalize (nullish (Field.acceptedFileTypes f) []) as l. intros l.
  repeat split.
  - apply filter_neq_not_In.
  - intros H. rewrite List.filter_app. simpl. rewrite String.eqb_refl. simpl.
    rewrite app_nil_r. now apply filter_neq_absent.
  - intros H. destruct (l ++ [t])%list eqn:E; [reflexivity|]. rewrite <- E.
    rewrite existsb_app. simpl. rewrite H. now rewrite orb_true_r.
  - intros Hne H. destruct l as [|x l]; [congruence|].
    destruct ((x :: l) ++ [t])%list eqn:E; [reflexivity|]. rewrite <- E.
    rewrite existsb_app, H. reflexivity.
Qed.
